(** * StructPDF: a shallow embedding of the injection / extraction core

    The development follows the TypeScript sources of [@structcv/structpdf]:

    - [src/core/constants.ts]      constants ([Constants])
    - [src/core/errors.ts]         the error hierarchy ([Js.ErrorClass])
    - [src/core/validation.ts]     [PathValidator], [URLValidator], [JSONValidator]
    - [src/core/pdf-handler.ts]    [PDFHandler]
    - [src/core/embedded-file.ts]  [EmbeddedFileManager]
    - [src/injector/compression.ts], [src/extractor/decompression.ts]
    - [src/injector/injector.ts]   [StructPDFInjector]
    - [src/extractor/extractor.ts] [StructPDFExtractor]

    Exceptions are an explicit error monad ([Js.Exc]); the document object
    model of pdf-lib is an object store with indirect references ([Pdf]);
    the host platform (pako, JSON, crypto, TextEncoder, the clock, the PDF
    parser and writer) is a record of functions ([Host]). *)

From Stdlib Require Import ZArith String Ascii List Bool Lia.
From Stdlib.Strings Require Import Byte.
From stdpp Require Import base option list gmap strings pretty.

#[local] Set Warnings "-register-all".

Local Open Scope string_scope.
Local Open Scope Z_scope.

(** A [Uint8Array]. *)
Abbreviation bytes := (list byte).

(** ** JavaScript values, exceptions *)
Module Js.

(** The classes of thrown values the code distinguishes: [Error] and its
    built-in subclasses, the [StructPDFError] hierarchy of
    [src/core/errors.ts], and a thrown string, which is no object at
    all. *)
Inductive ErrorClass : Type :=
| PlainError
| TypeError
| SyntaxError
| UnexpectedObjectTypeError
| StructPDFError
| InjectionError
| ExtractionError
| ValidationError
| FileSystemError
| ThrownString (thrown : string).

(** A thrown value: its class, and what the template literals of the
    sources print for [error.message]. *)
Record Error : Type := mkError { cls : ErrorClass; message : string }.

(** [throw s] with [s] a string, as pako 2 does on data it rejects
    ([throw inflator.msg || msg[inflator.err]]).  A string has no
    [message] property: [error.message] is [undefined], and a template
    literal prints [undefined]. *)
Definition thrown_string (s : string) : Error := mkError (ThrownString s) "undefined".

(** [error instanceof StructPDFError] *)
Definition instanceof_StructPDFError (e : Error) : bool :=
  match cls e with
  | StructPDFError | InjectionError | ExtractionError
  | ValidationError | FileSystemError => true
  | _ => false
  end.

(** [new Error(msg)] and the constructors of [src/core/errors.ts], each
    of which prefixes the message. *)
Definition new_Error (msg : string) : Error := mkError PlainError msg.
Definition new_InjectionError (msg : string) : Error :=
  mkError InjectionError ("Injection failed: " +:+ msg).
Definition new_ExtractionError (msg : string) : Error :=
  mkError ExtractionError ("Extraction failed: " +:+ msg).
Definition new_ValidationError (msg : string) : Error :=
  mkError ValidationError ("Validation failed: " +:+ msg).
Definition new_FileSystemError (msg : string) : Error :=
  mkError FileSystemError ("File system error: " +:+ msg).

(** A computation that returns normally or throws. *)
Inductive Exc (A : Type) : Type :=
| Ok (a : A)
| Throw (e : Error).
Arguments Ok {A} a.
Arguments Throw {A} e.

Definition bind {A B : Type} (m : Exc A) (k : A -> Exc B) : Exc B :=
  match m with
  | Ok a => k a
  | Throw e => Throw e
  end.

(** [try { m } catch (error) { h error }] *)
Definition try_catch {A : Type} (m : Exc A) (h : Error -> Exc A) : Exc A :=
  match m with
  | Ok a => Ok a
  | Throw e => h e
  end.

(** A [try] whose handler always returns: the result needs no [Exc]. *)
Definition try_return {A : Type} (m : Exc A) (h : Error -> A) : A :=
  match m with
  | Ok a => a
  | Throw e => h e
  end.

Definition is_Ok {A : Type} (m : Exc A) : bool :=
  match m with Ok _ => true | Throw _ => false end.

(** The type [JSONValue] of [src/types]: numbers are carried as integer
    literals (the code never computes with them), objects keep their
    keys in insertion order. *)
Inductive JSONValue : Type :=
| JNull
| JBool (b : bool)
| JNumber (n : Z)
| JString (s : string)
| JArray (items : list JSONValue)
| JObject (fields : list (string * JSONValue)).

(** An association list read the way a JS object is: by key. *)
Fixpoint assoc {A : Type} (k : string) (l : list (string * A)) : option A :=
  match l with
  | [] => None
  | (k', v) :: rest => if String.eqb k k' then Some v else assoc k rest
  end.

(** [obj[k] = v] on an own-property list: an existing key keeps its
    position, a new key goes last. *)
Fixpoint assoc_set {A : Type} (k : string) (v : A) (l : list (string * A))
  : list (string * A) :=
  match l with
  | [] => [(k, v)]
  | (k', v') :: rest =>
      if String.eqb k k' then (k, v) :: rest else (k', v') :: assoc_set k v rest
  end.

(** [v.k] where [v] is not [undefined]: [null.k] throws a [TypeError];
    a primitive or an array has none of the keys the code reads
    ([metadata], [integrity], [algorithm], [hash], [payload],
    [specVersion]), so the result is [undefined] ([None]). *)
Definition get (v : JSONValue) (k : string) : Exc (option JSONValue) :=
  match v with
  | JNull =>
      Throw (mkError TypeError
               ("Cannot read properties of null (reading '" +:+ k +:+ "')"))
  | JObject fields => Ok (assoc k fields)
  | _ => Ok None
  end.

(** [v?.k] where [v] may be [undefined] or [null]. *)
Definition get_opt (v : option JSONValue) (k : string) : option JSONValue :=
  match v with
  | None | Some JNull => None
  | Some (JObject fields) => assoc k fields
  | Some _ => None
  end.

(** Truthiness of a value that may be [undefined]. *)
Definition truthy (v : option JSONValue) : bool :=
  match v with
  | None | Some JNull => false
  | Some (JBool b) => b
  | Some (JNumber n) => negb (Z.eqb n 0)
  | Some (JString s) => negb (String.eqb s "")
  | Some (JArray _) | Some (JObject _) => true
  end.

(** [Array.prototype.join]. *)
Fixpoint join (sep : string) (l : list string) : string :=
  match l with
  | [] => ""
  | [x] => x
  | x :: rest => x +:+ sep +:+ join sep rest
  end.

(** [String(v)], as a template literal converts: arrays join their
    elements with a comma ([null] prints empty there), objects print
    as [[object Object]]. *)
Fixpoint to_String (v : JSONValue) : string :=
  match v with
  | JNull => "null"
  | JBool true => "true"
  | JBool false => "false"
  | JNumber n => pretty n
  | JString s => s
  | JArray items =>
      join "," (List.map (fun x => match x with JNull => "" | _ => to_String x end) items)
  | JObject _ => "[object Object]"
  end.

Definition to_String_opt (v : option JSONValue) : string :=
  match v with
  | None => "undefined"
  | Some x => to_String x
  end.

(** [a === b] between a string and a value that may be [undefined]. *)
Definition strict_eq_string (s : string) (v : option JSONValue) : bool :=
  match v with
  | Some (JString t) => String.eqb s t
  | _ => false
  end.

(** [s.includes(sub)]. *)
Fixpoint includes (s sub : string) : bool :=
  String.prefix sub s
  || match s with
     | EmptyString => false
     | String _ rest => includes rest sub
     end.

(** [s.startsWith(p)]. *)
Definition startsWith (s p : string) : bool := String.prefix p s.

(** A continuation byte of UTF-8, [10xxxxxx]. *)
Definition is_continuation (c : ascii) : bool :=
  let n := nat_of_ascii c in ((128 <=? n) && (n <? 192))%nat.

(** [[...s]]: the code points of [s], each a string of its own.  Text
    is held in UTF-8, so a character outside ASCII is several bytes: a
    byte and the continuation bytes that follow it stay together. *)
Fixpoint spread (s : string) : list string :=
  match s with
  | EmptyString => []
  | String c rest =>
      match spread rest with
      | String c' x :: xs =>
          if is_continuation c' then String c (String c' x) :: xs
          else String c EmptyString :: String c' x :: xs
      | xs => String c EmptyString :: xs
      end
  end.

(** The double-quote character, as a string. *)
Definition dquote : string := String "034"%char EmptyString.

(** [s.split(' ')]. *)
Fixpoint split_go (cur : string) (s : string) : list string :=
  match s with
  | EmptyString => [cur]
  | String c rest =>
      if Ascii.eqb c " "%char then cur :: split_go "" rest
      else split_go (cur +:+ String c EmptyString) rest
  end.
Definition split_space (s : string) : list string := split_go "" s.

End Js.

Export Js.
Notation "'let!' x ':=' m 'in' k" := (Js.bind m (fun x => k))
  (at level 10, x name, m at level 100, k at level 200).
Notation "'let!' ' p ':=' m 'in' k" :=
  (Js.bind m (fun x => match x with p => k end))
  (at level 10, p strict pattern, m at level 100, k at level 200).
Notation "'do!' m 'in' k" := (Js.bind m (fun _ => k))
  (at level 10, m at level 100, k at level 200).

(** ** The document object model (pdf-lib ^1.17.1, an external
    collaborator): objects, the context's table of indirect objects, and
    the lookups the code calls.  A lookup with an expected type returns
    the object or throws [UnexpectedObjectTypeError]; the handlers the
    sources wrap around the catalog lookups ([catch { return files; //
    No Names dictionary ... }]) rely on that. *)
Module Pdf.

Inductive PDFObject : Type :=
| PDFNull
| PDFBool (b : bool)
| PDFNumber (n : Z)
| PDFName (s : string)
| PDFString (s : string)
| PDFHexString (s : string)
| PDFRef (objectNumber : nat)
| PDFArray (array : list PDFObject)
| PDFDict (dict : list (string * PDFObject))
| PDFRawStream (dict : list (string * PDFObject)) (contents : bytes).

(** The entries of a [PDFDict], keyed by name. *)
Abbreviation Dict := (list (string * PDFObject)).

Definition newline : string := String "010"%char EmptyString.

(** [obj.toString()]. *)
Fixpoint toString (o : PDFObject) : string :=
  let entries :=
    fix entries (d : list (string * PDFObject)) : string :=
      match d with
      | [] => ""
      | (k, v) :: rest => "/" +:+ k +:+ " " +:+ toString v +:+ newline +:+ entries rest
      end in
  match o with
  | PDFNull => "null"
  | PDFBool true => "true"
  | PDFBool false => "false"
  | PDFNumber n => pretty n
  | PDFName s => "/" +:+ s
  | PDFString s => "(" +:+ s +:+ ")"
  | PDFHexString s => "<" +:+ s +:+ ">"
  | PDFRef n => pretty n +:+ " 0 R"
  | PDFArray a => "[ " +:+ fold_right (fun x acc => toString x +:+ " " +:+ acc) "]" a
  | PDFDict d => "<<" +:+ newline +:+ entries d +:+ ">>"
  | PDFRawStream d c =>
      "<<" +:+ newline +:+ entries d +:+ ">>" +:+ newline +:+ "stream" +:+ newline
      +:+ string_of_list_byte c +:+ newline +:+ "endstream"
  end.

(** [obj.constructor.name] *)
Definition className (o : PDFObject) : string :=
  match o with
  | PDFNull => "PDFNull"
  | PDFBool _ => "PDFBool"
  | PDFNumber _ => "PDFNumber"
  | PDFName _ => "PDFName"
  | PDFString _ => "PDFString"
  | PDFHexString _ => "PDFHexString"
  | PDFRef _ => "PDFRef"
  | PDFArray _ => "PDFArray"
  | PDFDict _ => "PDFDict"
  | PDFRawStream _ _ => "PDFRawStream"
  end.

Definition is_PDFDict (o : PDFObject) : bool :=
  match o with PDFDict _ => true | _ => false end.
Definition is_PDFArray (o : PDFObject) : bool :=
  match o with PDFArray _ => true | _ => false end.

(** [PDFContext]: the indirect objects by object number (generation 0)
    and the largest number handed out. *)
Record PDFContext : Type := mkContext {
  indirectObjects : gmap nat PDFObject;
  largestObjectNumber : nat
}.

(** [context.register(obj)]: [nextRef()] then [assign]. *)
Definition register (ctx : PDFContext) (o : PDFObject) : PDFContext * nat :=
  let n := S (largestObjectNumber ctx) in
  (mkContext (<[n := o]> (indirectObjects ctx)) n, n).

(** [context.lookup(ref)] without an expected type: an indirect
    reference is followed once, anything else is returned as it is;
    [None] is [undefined]. *)
Definition lookup (ctx : PDFContext) (o : option PDFObject) : option PDFObject :=
  match o with
  | Some (PDFRef n) => indirectObjects ctx !! n
  | _ => o
  end.

(** [context.lookup(ref, type)]: the object when it is an instance of
    [type], else [throw new UnexpectedObjectTypeError(types, result)],
    whose message names the class expected and the class found. *)
Definition lookup_typed (type : PDFObject -> bool) (type_name : string)
    (ctx : PDFContext) (o : option PDFObject) : Exc PDFObject :=
  match lookup ctx o with
  | Some result =>
      if type result then Ok result
      else Throw (mkError UnexpectedObjectTypeError
                    ("Expected instance of " +:+ type_name
                     +:+ ", but got instance of " +:+ className result))
  | None =>
      Throw (mkError UnexpectedObjectTypeError
               ("Expected instance of " +:+ type_name
                +:+ ", but got instance of undefined"))
  end.

(** [dict.get(key)] with [preservePDFNull = false]: a stored [null]
    reads as [undefined]. *)
Definition Dict_get (d : Dict) (key : string) : option PDFObject :=
  match assoc key d with
  | Some PDFNull => None
  | v => v
  end.

(** [dict.lookup(key)]. *)
Definition Dict_lookup (ctx : PDFContext) (d : Dict) (key : string)
  : option PDFObject :=
  match lookup ctx (Dict_get d key) with
  | Some PDFNull => None
  | value => value
  end.

(** [dict.lookup(key, type)]. *)
Definition Dict_lookup_typed (type : PDFObject -> bool) (type_name : string)
    (ctx : PDFContext) (d : Dict) (key : string) : Exc (option PDFObject) :=
  let! value := lookup_typed type type_name ctx (Dict_get d key) in
  Ok (match value with PDFNull => None | _ => Some value end).

(** [array.lookup(index)] and [array.lookup(index, type)];
    [array.get(index)] is [undefined] out of range. *)
Definition Array_lookup (ctx : PDFContext) (a : list PDFObject) (index : nat)
  : option PDFObject :=
  lookup ctx (a !! index).
Definition Array_lookup_typed (type : PDFObject -> bool) (type_name : string)
    (ctx : PDFContext) (a : list PDFObject) (index : nat) : Exc PDFObject :=
  lookup_typed type type_name ctx (a !! index).

(** [context.obj(x)] on a slot that may be [undefined]. *)
Definition obj_of (o : option PDFObject) : PDFObject :=
  match o with
  | Some x => x
  | None => PDFNull
  end.

(** A [PDFDocument] after [PDFDocument.load]: the context, the catalog
    dictionary, and the two Info entries the code reads and writes, as
    decoded text ([getKeywords()], [getCreator()]). *)
Record PDFDocument : Type := mkDocument {
  context : PDFContext;
  catalog : Dict;
  Keywords : option string;
  Creator : option string
}.

Definition getKeywords (doc : PDFDocument) : option string := Keywords doc.
Definition getCreator (doc : PDFDocument) : option string := Creator doc.

(** [setKeywords(keywords: string[])] stores [keywords.join(' ')]. *)
Definition setKeywords (doc : PDFDocument) (keywords : list string) : PDFDocument :=
  mkDocument (context doc) (catalog doc) (Some (join " " keywords)) (Creator doc).
Definition setCreator (doc : PDFDocument) (creator : string) : PDFDocument :=
  mkDocument (context doc) (catalog doc) (Keywords doc) (Some creator).

End Pdf.
Export Pdf.

(** ** Where a dictionary lives, so that [dict.set] can be written as an
    update of the document: in the catalog or in an indirect object,
    then down a path of keys holding direct dictionaries. *)
Module Place.

Inductive Base : Type :=
| AtCatalog
| AtObject (n : nat).

Record t : Type := mk { base : Base; path : list string }.

Fixpoint descend (p : list string) (d : Dict) : option Dict :=
  match p with
  | [] => Some d
  | k :: p' =>
      match assoc k d with
      | Some (PDFDict d') => descend p' d'
      | _ => None
      end
  end.

Definition read (doc : PDFDocument) (pl : t) : option Dict :=
  match base pl with
  | AtCatalog => descend (path pl) (catalog doc)
  | AtObject n =>
      match indirectObjects (context doc) !! n with
      | Some (PDFDict d) => descend (path pl) d
      | _ => None
      end
  end.

Fixpoint update_path (p : list string) (f : Dict -> Dict) (d : Dict) : Dict :=
  match p with
  | [] => f d
  | k :: p' =>
      match assoc k d with
      | Some (PDFDict d') => assoc_set k (PDFDict (update_path p' f d')) d
      | _ => d
      end
  end.

Definition update (doc : PDFDocument) (pl : t) (f : Dict -> Dict) : PDFDocument :=
  match base pl with
  | AtCatalog =>
      mkDocument (context doc) (update_path (path pl) f (catalog doc))
                 (Keywords doc) (Creator doc)
  | AtObject n =>
      match indirectObjects (context doc) !! n with
      | Some (PDFDict d) =>
          mkDocument
            (mkContext (<[n := PDFDict (update_path (path pl) f d)]>
                          (indirectObjects (context doc)))
                       (largestObjectNumber (context doc)))
            (catalog doc) (Keywords doc) (Creator doc)
      | _ => doc
      end
  end.

(** The place of the dictionary that [d.lookup(key, PDFDict)] returned,
    [d] living at [pl]: behind the reference when the entry is one,
    inside [d] otherwise. *)
Definition child (pl : t) (d : Dict) (key : string) : t :=
  match assoc key d with
  | Some (PDFRef n) => mk (AtObject n) []
  | _ => mk (base pl) (path pl ++ [key])
  end.

(** [dict.set(PDFName.of(key), value)] on the dictionary at [pl]. *)
Definition set (doc : PDFDocument) (pl : t) (key : string) (value : PDFObject)
  : PDFDocument :=
  update doc pl (assoc_set key value).

(** [context.register(obj)] on the document's context. *)
Definition register_in (doc : PDFDocument) (o : PDFObject) : PDFDocument * nat :=
  let (ctx, n) := register (context doc) o in
  (mkDocument ctx (catalog doc) (Keywords doc) (Creator doc), n).

End Place.

(** ** [src/core/constants.ts] *)
Module Constants.

Definition SUPPORTED_HASH_ALGORITHMS : list string :=
  ["md5"; "sha1"; "sha256"; "sha384"; "sha512"].

Definition COMPRESSION_SETTINGS_MAX_LAYERS : nat := 5.
Definition COMPRESSION_SETTINGS_MIN_SIZE : Z := 64.
Definition COMPRESSION_SETTINGS_DETECTION_THRESHOLD : nat := 2.

Definition EMBEDDED_FILE_NAME : string := "structpdf.json".
Definition MIME_TYPE : string := "application/json".
Definition GENERATOR : string := "@structcv/structpdf".
Definition COMPRESSION_LEVEL : Z := 9.
Definition COMPRESSION_THRESHOLD : Z := 1024.
Definition COMPRESSION_MAX_LAYERS : nat := COMPRESSION_SETTINGS_MAX_LAYERS.
Definition MAX_PAYLOAD_SIZE : Z := 10 * 1024 * 1024.

Definition HAS_STRUCTPDF : string := "HasStructPDF".
Definition STRUCTPDF_VERSION : string := "StructPDFVersion".
Definition STRUCTPDF_DOMAIN : string := "StructPDFDomain".

End Constants.
Export Constants.

(** ** The host platform: everything the sources import from outside the
    repository. *)
Record Host : Type := mkHost {
  (* pako *)
  pako_gzip : bytes -> Exc bytes;
  pako_ungzip : bytes -> Exc bytes;
  pako_inflate : bytes -> Exc bytes;
  pako_deflate : bytes -> bytes;
  (* JSON.stringify(v), JSON.stringify(v, null, 2), JSON.parse(s) *)
  JSON_stringify : JSONValue -> string;
  JSON_stringify_indent2 : JSONValue -> string;
  JSON_parse : string -> Exc JSONValue;
  (* new TextEncoder().encode(s), new TextDecoder().decode(b) *)
  TextEncoder_encode : string -> bytes;
  TextDecoder_decode : bytes -> string;
  (* crypto.createHash(algorithm).update(s).digest('hex') *)
  crypto_createHash_hex : string -> string -> Exc string;
  (* new Date().toISOString() *)
  Date_toISOString : string;
  (* new URL(url) returns *)
  URL_parses : string -> bool;
  (* path.normalize, path.resolve, path.isAbsolute, path.dirname *)
  path_normalize : string -> string;
  path_resolve : string -> string;
  path_isAbsolute : string -> bool;
  path_dirname : string -> string;
  (* PDFDocument.load(bytes), pdfDoc.save() *)
  PDFDocument_load : bytes -> Exc PDFDocument;
  PDFDocument_save : PDFDocument -> bytes
}.

(** ** The file system of [fs/promises], as far as the code uses it. *)
Module Fs.

Inductive Node : Type :=
| File (content : bytes)
| Directory.

Abbreviation FS := (gmap string Node).

(** [fs.access(p, R_OK)] / [fs.access(p, W_OK)]: the entry exists. *)
Definition access (fs : FS) (p : string) : Exc unit :=
  match fs !! p with
  | Some _ => Ok tt
  | None => Throw (new_Error ("ENOENT: no such file or directory, access '" +:+ p +:+ "'"))
  end.

Definition readFile (fs : FS) (p : string) : Exc bytes :=
  match fs !! p with
  | Some (File b) => Ok b
  | Some Directory =>
      Throw (new_Error "EISDIR: illegal operation on a directory, read")
  | None =>
      Throw (new_Error ("ENOENT: no such file or directory, open '" +:+ p +:+ "'"))
  end.

Definition writeFile (fs : FS) (p : string) (b : bytes) : Exc FS :=
  match fs !! p with
  | Some Directory =>
      Throw (new_Error ("EISDIR: illegal operation on a directory, open '" +:+ p +:+ "'"))
  | _ => Ok (<[p := File b]> fs)
  end.

(** [fs.mkdir(dir, { recursive: true })]: fails over an existing file. *)
Definition mkdir (fs : FS) (dir : string) : Exc FS :=
  match fs !! dir with
  | Some (File _) =>
      Throw (new_Error ("EEXIST: file already exists, mkdir '" +:+ dir +:+ "'"))
  | Some Directory => Ok fs
  | None => Ok (<[dir := Directory]> fs)
  end.

End Fs.

(** ** [src/injector/compression.ts], [src/extractor/decompression.ts] *)

(** [data[i] === b]; out of range [data[i]] is [undefined]. *)
Definition byte_at_is (data : bytes) (i : nat) (b : byte) : bool :=
  match data !! i with
  | Some x => Byte.eqb x b
  | None => false
  end.

(** [data.length >= 2 && data[0] === 0x1F && data[1] === 0x8B] *)
Definition isGzip (data : bytes) : bool :=
  (2 <=? length data)%nat && byte_at_is data 0 x1f && byte_at_is data 1 x8b.

(** [data.length >= 2 && data[0] === 0x78 && data[1] === 0x9c] *)
Definition isZlib (data : bytes) : bool :=
  (2 <=? length data)%nat && byte_at_is data 0 x78 && byte_at_is data 1 x9c.

(** [isGzip || isZlib], the test the extractor repeats on every layer. *)
Definition isStillCompressed (data : bytes) : bool := isGzip data || isZlib data.

Definition compress (host : Host) (data : bytes) : Exc bytes :=
  try_catch (pako_gzip host data)
    (fun error => Throw (new_Error ("Compression failed: " +:+ message error))).

Definition decompress (host : Host) (data : bytes) : Exc bytes :=
  try_catch
    (if (length data <? COMPRESSION_SETTINGS_DETECTION_THRESHOLD)%nat
     then Throw (new_Error "Data too small for compression detection")
     else
       if isGzip data then pako_ungzip host data
       else if isZlib data then pako_inflate host data
       else Throw (new_Error "Unknown compression format"))
    (fun error => Throw (new_Error ("Decompression failed: " +:+ message error))).

(** ** [src/core/validation.ts] *)
Module PathValidator.

Definition lower (c : ascii) : ascii :=
  let n := nat_of_ascii c in
  if ((65 <=? n) && (n <=? 90))%nat then ascii_of_nat (n + 32) else c.

Fixpoint toLowerCase (s : string) : string :=
  match s with
  | EmptyString => EmptyString
  | String c rest => String (lower c) (toLowerCase rest)
  end.

Definition is_letter (c : ascii) : bool :=
  let n := nat_of_ascii c in
  (((65 <=? n) && (n <=? 90)) || ((97 <=? n) && (n <=? 122)))%nat.

(** [s.match(/^[A-Za-z]:\/\//)] is not [null]. *)
Definition matches_drive_prefix (s : string) : bool :=
  match s with
  | String c rest => is_letter c && String.prefix "://" rest
  | EmptyString => false
  end.

Definition dangerousPaths : list string :=
  ["/etc"; "/sys"; "/proc"; "/dev"; "C:\Windows"; "C:\System32"].

Definition validatePath (host : Host) (filePath : string) : Exc string :=
  if String.eqb filePath "" then
    Throw (new_Error "Invalid path: path must be a non-empty string")
  else
    let normalizedPath := path_normalize host filePath in
    let resolvedPath := path_resolve host normalizedPath in
    if includes normalizedPath ".." then
      Throw (new_Error ("Invalid path: " +:+ filePath +:+ " - Path traversal detected"))
    else if includes normalizedPath "//" && negb (matches_drive_prefix normalizedPath) then
      Throw (new_Error ("Invalid path: " +:+ filePath +:+ " - Invalid path format"))
    else if path_isAbsolute host filePath
            && existsb (fun dangerous =>
                          startsWith (toLowerCase resolvedPath) (toLowerCase dangerous))
                       dangerousPaths then
      Throw (new_Error ("Invalid path: " +:+ filePath
                        +:+ " - Access to system directories not allowed"))
    else Ok resolvedPath.

Definition validateFileExists (fs : Fs.FS) (filePath : string) : Exc unit :=
  try_catch (Fs.access fs filePath)
    (fun _ => Throw (new_Error ("File not found or not readable: " +:+ filePath))).

Definition validateDirectoryWritable (fs : Fs.FS) (dirPath : string) : Exc unit :=
  try_catch (Fs.access fs dirPath)
    (fun _ => Throw (new_Error ("Directory not writable: " +:+ dirPath))).

Definition validateOutputPath (host : Host) (fs : Fs.FS) (outputPath : string)
  : Exc Fs.FS :=
  let dir := path_dirname host outputPath in
  match Fs.access fs dir with
  | Ok _ => Ok fs
  | Throw _ =>
      try_catch (Fs.mkdir fs dir)
        (fun _ => Throw (new_Error ("Cannot create output directory: " +:+ dir)))
  end.

End PathValidator.

Module URLValidator.

Definition validateURL (host : Host) (url : string) : bool := URL_parses host url.

Record Validation : Type := mkValidation { valid : bool; warning : option string }.

Definition validateSchemaURL (host : Host) (schemaUrl : string) : Validation :=
  if negb (validateURL host schemaUrl) then mkValidation false None
  else if includes schemaUrl "localhost" || includes schemaUrl "127.0.0.1" then
    mkValidation true
      (Some "Schema URL points to localhost - may not be accessible in production")
  else if negb (startsWith schemaUrl "https://") then
    mkValidation true
      (Some "Schema URL is not using HTTPS - consider using a secure connection")
  else mkValidation true None.

End URLValidator.

Module JSONValidator.

(** On a plain object [data.constructor] is [Object] unless the object
    has an own key [constructor], whose JSON value is then neither
    [Object] nor [undefined]: such an object is rejected. *)
Fixpoint validateJSON (data : JSONValue) : bool :=
  match data with
  | JNull => true
  | JString _ | JNumber _ | JBool _ => true
  | JArray items => forallb validateJSON items
  | JObject fields =>
      match assoc "constructor" fields with
      | Some _ => false
      | None => forallb (fun kv => validateJSON (snd kv)) fields
      end
  end.

End JSONValidator.

(** ** [src/core/pdf-handler.ts] *)
Module PDFHandler.

(** A string in a condition: the empty string and [undefined] are falsy. *)
Definition truthy_string (s : option string) : bool :=
  match s with
  | Some x => negb (String.eqb x "")
  | None => false
  end.

Definition addMetadata (pdfDoc : PDFDocument) (key value : string) : PDFDocument :=
  (* Set creator if not already set *)
  let creator := getCreator pdfDoc in
  let pdfDoc :=
    if negb (truthy_string creator) then setCreator pdfDoc GENERATOR else pdfDoc in
  (* Get existing keywords and add new one *)
  let existingKeywords := getKeywords pdfDoc in
  let newKeyword := key +:+ ":" +:+ value in
  let updatedKeywords :=
    match existingKeywords with
    | Some existing =>
        if truthy_string existingKeywords
        then (spread existing ++ [newKeyword])%list
        else [newKeyword]
    | None => [newKeyword]
    end in
  setKeywords pdfDoc updatedKeywords.

Definition addStructPDFMetadata (pdfDoc : PDFDocument) (domain : string)
    (specID specName : option string) : PDFDocument :=
  let creator := getCreator pdfDoc in
  let pdfDoc :=
    if negb (truthy_string creator) then setCreator pdfDoc GENERATOR else pdfDoc in
  let existingKeywords := getKeywords pdfDoc in
  let newKeywords := ["StructPDF:true"; "StructPDF-Domain:" +:+ domain] in
  let newKeywords :=
    match specID with
    | Some id => if truthy_string specID
                 then (newKeywords ++ ["StructPDF-SpecID:" +:+ id])%list else newKeywords
    | None => newKeywords
    end in
  let newKeywords :=
    match specName with
    | Some name => if truthy_string specName
                   then (newKeywords ++ ["StructPDF-SpecName:" +:+ name])%list else newKeywords
    | None => newKeywords
    end in
  let updatedKeywords :=
    match existingKeywords with
    | Some existing =>
        if truthy_string existingKeywords
        then (spread existing ++ newKeywords)%list
        else newKeywords
    | None => newKeywords
    end in
  setKeywords pdfDoc updatedKeywords.

Definition hasStructPDFMetadata (pdfDoc : PDFDocument) : bool :=
  match getKeywords pdfDoc with
  | Some keywords =>
      if truthy_string (Some keywords)
      then existsb (fun keyword => startsWith keyword "StructPDF:true")
                   (split_space keywords)
      else false
  | None => false
  end.

(** The loop of [getEmbeddedFiles] over the pair array, [i] advancing
    by two: the files collected, and the exception that ended the walk
    when a lookup with an expected type threw. *)
Fixpoint walkNames (ctx : PDFContext) (namesArray : list PDFObject)
    (files : gmap string bytes) : gmap string bytes * option Error :=
  match namesArray with
  | [] => (files, None)
  | slot_i :: after =>
      (* const name = namesArray.lookup(i); *)
      let name := lookup ctx (Some slot_i) in
      (* const fileSpec = namesArray.lookup(i + 1, PDFDict); *)
      match lookup_typed is_PDFDict "PDFDict" ctx (head after) with
      | Throw e => (files, Some e)
      | Ok fileSpec =>
          let files' :=
            match fileSpec with
            | PDFDict fileSpecDict =>
                match Dict_lookup_typed is_PDFDict "PDFDict" ctx fileSpecDict "EF" with
                | Throw e => inr e
                | Ok None => inl files
                | Ok (Some (PDFDict efDict)) =>
                    match Dict_lookup ctx efDict "F" with
                    | Some fileStream =>
                        match lookup ctx (Some fileStream) with
                        | Some (PDFRawStream _ contents) =>
                            (* files.set(name?.toString() || '', data.contents) *)
                            inl (<[ default "" (toString <$> name) := contents ]> files)
                        | _ => inl files
                        end
                    | None => inl files
                    end
                | Ok (Some _) => inl files
                end
            | _ => inl files
            end in
          match files' with
          | inr e => (files, Some e)
          | inl files' =>
              match after with
              | [] => (files', None)
              | _ :: rest => walkNames ctx rest files'
              end
          end
      end
  end.

(** [getEmbeddedFiles()]: the map returned, and what went to
    [console.error]. *)
Definition getEmbeddedFiles_run (pdfDoc : PDFDocument)
  : gmap string bytes * list string :=
  let files : gmap string bytes := ∅ in
  let ctx := context pdfDoc in
  match Dict_lookup_typed is_PDFDict "PDFDict" ctx (catalog pdfDoc) "Names" with
  | Throw _ => (files, [])            (* No Names dictionary *)
  | Ok (Some (PDFDict namesDict)) =>
      match Dict_lookup_typed is_PDFDict "PDFDict" ctx namesDict "EmbeddedFiles" with
      | Throw _ => (files, [])        (* No EmbeddedFiles dictionary *)
      | Ok (Some (PDFDict embeddedFilesDict)) =>
          match Dict_lookup_typed is_PDFArray "PDFArray" ctx embeddedFilesDict "Names" with
          | Throw _ => (files, [])    (* No Names array *)
          | Ok (Some (PDFArray namesArray)) =>
              match walkNames ctx namesArray files with
              | (files, None) => (files, [])
              | (files, Some error) =>
                  (files, ["Error reading embedded files: " +:+ message error])
              end
          | Ok _ => (files, [])
          end
      | Ok _ => (files, [])
      end
  | Ok _ => (files, [])
  end.

Definition getEmbeddedFiles (pdfDoc : PDFDocument) : gmap string bytes :=
  fst (getEmbeddedFiles_run pdfDoc).

Definition embeddedName (fileName : string) : string := "(" +:+ fileName +:+ ")".

(** [files.has(`(${STRUCTPDF_CONSTANTS.EMBEDDED_FILE_NAME})`)] *)
Definition hasStructPDFData (pdfDoc : PDFDocument) : bool :=
  bool_decide (is_Some (getEmbeddedFiles pdfDoc !! embeddedName EMBEDDED_FILE_NAME)).

End PDFHandler.

(** ** [src/core/embedded-file.ts] *)
Module EmbeddedFileManager.

Import PDFHandler.

(** The rewrite loop shared by [embedFile] and [removeFile], [i]
    advancing by two: the pairs whose name does not print as
    [(fileName)], each slot read through [namesArray.lookup] (so
    dereferenced) and [undefined] turned into [null] by [context.obj];
    and whether a pair was dropped. *)
Fixpoint rewriteNames (ctx : PDFContext) (fileName : string)
    (namesArray : list PDFObject) : list PDFObject * bool :=
  match namesArray with
  | [] => ([], false)
  | slot_i :: after =>
      let existingName := lookup ctx (Some slot_i) in
      let (newNamesArray, removed) :=
        match after with
        | [] => ([], false)
        | _ :: rest => rewriteNames ctx fileName rest
        end in
      if negb (bool_decide (toString <$> existingName = Some (embeddedName fileName)))
      then (obj_of (lookup ctx (Some slot_i)) :: obj_of (lookup ctx (head after))
              :: newNamesArray, removed)
      else (newNamesArray, true)
  end.

(** [context.flateStream(fileData)] followed by the three
    [fileStream.dict.set] calls. *)
Definition fileStream (host : Host) (fileData : bytes) (mimeType : string)
  : PDFObject :=
  PDFRawStream
    [("Filter", PDFName "FlateDecode");
     ("Type", PDFName "EmbeddedFile");
     ("Subtype", PDFName mimeType);
     ("Length", PDFNumber (Z.of_nat (length fileData)))]
    (pako_deflate host fileData).

Definition fileSpec (fileName : string) (fileStreamRef : nat) : PDFObject :=
  PDFDict
    [("Type", PDFName "Filespec");
     ("F", PDFString fileName);
     ("UF", PDFString fileName);
     ("EF", PDFDict [("F", PDFRef fileStreamRef)])].

(** "Get or create": the dictionary under [key] of the dictionary at
    [parent], or a fresh registered one holding [initial]. *)
Definition getOrCreate (pdfDoc : PDFDocument) (parent : Place.t) (key : string)
    (initial : Dict) : PDFDocument * Place.t :=
  let create :=
    let (pdfDoc, ref) := Place.register_in pdfDoc (PDFDict initial) in
    (Place.set pdfDoc parent key (PDFRef ref), Place.mk (Place.AtObject ref) []) in
  match Place.read pdfDoc parent with
  | Some parentDict =>
      match Dict_lookup_typed is_PDFDict "PDFDict" (context pdfDoc) parentDict key with
      | Ok (Some _) => (pdfDoc, Place.child parent parentDict key)
      | Ok None => create         (* if (!namesDict) *)
      | Throw _ => create         (* catch *)
      end
  | None => create
  end.

(** [embeddedFilesDict.lookup(PDFName.of('Names'), PDFArray)], an empty
    array when it throws or is missing. *)
Definition namesArrayAt (pdfDoc : PDFDocument) (embeddedFilesDict : Place.t)
  : list PDFObject :=
  match Place.read pdfDoc embeddedFilesDict with
  | Some d =>
      match Dict_lookup_typed is_PDFArray "PDFArray" (context pdfDoc) d "Names" with
      | Ok (Some (PDFArray namesArray)) => namesArray
      | _ => []
      end
  | None => []
  end.

Definition embedFile (host : Host) (pdfDoc : PDFDocument) (fileName : string)
    (fileData : bytes) (mimeType : string) : PDFDocument :=
  (* Create file stream *)
  let (pdfDoc, fileStreamRef) :=
    Place.register_in pdfDoc (fileStream host fileData mimeType) in
  (* Create file specification *)
  let (pdfDoc, fileSpecRef) :=
    Place.register_in pdfDoc (fileSpec fileName fileStreamRef) in
  (* Get or create Names dictionary *)
  let (pdfDoc, namesDict) :=
    getOrCreate pdfDoc (Place.mk Place.AtCatalog []) "Names" [] in
  (* Get or create EmbeddedFiles *)
  let (pdfDoc, embeddedFilesDict) :=
    getOrCreate pdfDoc namesDict "EmbeddedFiles" [("Names", PDFArray [])] in
  (* Add file to names array *)
  let namesArray := namesArrayAt pdfDoc embeddedFilesDict in
  (* Remove existing file with same name if it exists *)
  let newNamesArray := fst (rewriteNames (context pdfDoc) fileName namesArray) in
  (* Add new file *)
  let newNamesArray := (newNamesArray ++ [PDFString fileName; PDFRef fileSpecRef])%list in
  Place.set pdfDoc embeddedFilesDict "Names" (PDFArray newNamesArray).

(** The three lookups of [removeFile], each returning [false] from the
    function when it throws or finds nothing. *)
Definition removeFile (pdfDoc : PDFDocument) (fileName : string)
  : PDFDocument * bool :=
  let ctx := context pdfDoc in
  let root := Place.mk Place.AtCatalog [] in
  match Dict_lookup_typed is_PDFDict "PDFDict" ctx (catalog pdfDoc) "Names" with
  | Ok (Some (PDFDict namesDict)) =>
      let namesPlace := Place.child root (catalog pdfDoc) "Names" in
      match Dict_lookup_typed is_PDFDict "PDFDict" ctx namesDict "EmbeddedFiles" with
      | Ok (Some (PDFDict embeddedFilesDict)) =>
          let embeddedFilesPlace := Place.child namesPlace namesDict "EmbeddedFiles" in
          match Dict_lookup_typed is_PDFArray "PDFArray" ctx embeddedFilesDict "Names" with
          | Ok (Some (PDFArray namesArray)) =>
              let (newNamesArray, removed) := rewriteNames ctx fileName namesArray in
              if removed
              then (Place.set pdfDoc embeddedFilesPlace "Names" (PDFArray newNamesArray),
                    true)
              else (pdfDoc, false)
          | _ => (pdfDoc, false)
          end
      | _ => (pdfDoc, false)
      end
  | _ => (pdfDoc, false)
  end.

End EmbeddedFileManager.

(** ** [src/types] *)
Record InjectionOptions : Type := mkInjectionOptions {
  compress_opt : bool;            (* compress?: absent reads as false *)
  addIntegrity : bool;
  overwrite : bool;
  domain : option string;
  schemaUrl : string;
  specName : option string;
  specID : option string
}.

Record ExtractionOptions : Type := mkExtractionOptions {
  decompress_opt : option bool;   (* decompress?: the code tests [=== false] *)
  verifyIntegrity : bool
}.

Record InjectionResult : Type := mkInjectionResult {
  inj_success : bool;
  outputPath : string;
  metadata : JSONValue;
  inj_warnings : option (list string)
}.

Record ExtractionResult : Type := mkExtractionResult {
  success : bool;
  data : option JSONValue;
  errors : option (list string);
  warnings : option (list string)
}.

(** ** [src/injector/injector.ts] *)
Module StructPDFInjector.

Import PDFHandler EmbeddedFileManager.

Definition validateInputs (host : Host) (data : JSONValue)
    (options : InjectionOptions) : Exc unit :=
  if negb (JSONValidator.validateJSON data) then
    Throw (new_ValidationError "Invalid JSON data provided")
  else
    let urlValidation := URLValidator.validateSchemaURL host (schemaUrl options) in
    if negb (URLValidator.valid urlValidation) then
      Throw (new_ValidationError "Invalid schema URL provided")
    else
      (* console.warn of the advisory; [options.domain] is a string by type *)
      Ok tt.

Definition extractVersion (data : JSONValue) : string :=
  match data with
  | JObject obj =>
      match assoc "specVersion" obj with
      | Some (JString specVersion) => specVersion
      | _ => "unknown"
      end
  | _ => "unknown"
  end.

Definition preparePayload (host : Host) (data : JSONValue)
    (options : InjectionOptions) : Exc JSONValue :=
  let metadata :=
    [("createdAt", JString (Date_toISOString host));
     ("generator", JString GENERATOR);
     ("compressed", JBool false)] in
  (* Add integrity hash if requested *)
  let! metadata :=
    if addIntegrity options then
      let dataString := JSON_stringify host data in
      let! hash := crypto_createHash_hex host "sha256" dataString in
      Ok (metadata ++ [("integrity",
                         JObject [("algorithm", JString "sha256");
                                  ("hash", JString hash)])])%list
    else Ok metadata in
  Ok (JObject
        [("domain", JString (if truthy_string (domain options)
                             then default "" (domain options) else "GENERIC"));
         ("version", JString (extractVersion data));
         ("schema", JString (schemaUrl options));
         ("payload", data);
         ("metadata", JObject metadata)]).

(** [payload.metadata!.compressed = true] *)
Definition setCompressed (payload : JSONValue) : JSONValue :=
  match payload with
  | JObject fields =>
      match assoc "metadata" fields with
      | Some (JObject metadata) =>
          JObject (assoc_set "metadata"
                     (JObject (assoc_set "compressed" (JBool true) metadata)) fields)
      | _ => payload
      end
  | _ => payload
  end.

(** The envelope's [metadata] object, as the result returns it. *)
Definition metadataOf (payload : JSONValue) : JSONValue :=
  match payload with
  | JObject fields => default JNull (assoc "metadata" fields)
  | _ => JNull
  end.

Definition domainOf (payload : JSONValue) : string :=
  match payload with
  | JObject fields =>
      match assoc "domain" fields with
      | Some (JString d) => d
      | _ => ""
      end
  | _ => ""
  end.

(** Lines 50-65 of [inject]: the compression decision, the final
    serialization and the codec; returns the envelope as finally
    serialized, the bytes to embed and [willCompress]. *)
Definition serializePayload (host : Host) (payload : JSONValue)
    (options : InjectionOptions) : Exc (JSONValue * bytes * bool) :=
  (* Check if compression will be needed *)
  let tempBytes := TextEncoder_encode host (JSON_stringify_indent2 host payload) in
  let willCompress :=
    compress_opt options && (Z.of_nat (length tempBytes) >? COMPRESSION_THRESHOLD) in
  (* Update compression flag BEFORE final serialization *)
  let payload := if willCompress then setCompressed payload else payload in
  (* Convert to bytes with final payload *)
  let dataBytes := TextEncoder_encode host (JSON_stringify_indent2 host payload) in
  (* Compress if needed *)
  let! dataBytes := if willCompress then compress host dataBytes else Ok dataBytes in
  Ok (payload, dataBytes, willCompress).

(** Lines 42-88 of [inject]: from the overwrite guard to the metadata
    writes, on the loaded document. *)
Definition injectDocument (host : Host) (pdfDoc : PDFDocument) (data : JSONValue)
    (options : InjectionOptions) : Exc (PDFDocument * JSONValue * bool) :=
  (* Check if already has StructPDF data *)
  if negb (overwrite options) && hasStructPDFData pdfDoc then
    Throw (new_Error "PDF already contains StructPDF data. Use overwrite option to replace.")
  else
    (* Prepare payload *)
    let! payload := preparePayload host data options in
    let! '(payload, dataBytes, willCompress) := serializePayload host payload options in
    (* Check size *)
    if Z.of_nat (length dataBytes) >? MAX_PAYLOAD_SIZE then
      Throw (new_Error ("Payload too large: " +:+ pretty (Z.of_nat (length dataBytes))
                        +:+ " bytes (max: " +:+ pretty MAX_PAYLOAD_SIZE +:+ ")"))
    else
      (* Remove existing if overwriting *)
      let pdfDoc :=
        if overwrite options then fst (removeFile pdfDoc EMBEDDED_FILE_NAME) else pdfDoc in
      (* Embed file *)
      let pdfDoc := embedFile host pdfDoc EMBEDDED_FILE_NAME dataBytes MIME_TYPE in
      (* Add metadata *)
      let pdfDoc := addMetadata pdfDoc HAS_STRUCTPDF "true" in
      let pdfDoc := addMetadata pdfDoc STRUCTPDF_VERSION (extractVersion data) in
      let pdfDoc := addMetadata pdfDoc STRUCTPDF_DOMAIN (domainOf payload) in
      Ok (pdfDoc, payload, willCompress).

Definition inject (host : Host) (fs : Fs.FS) (pdfPath : string) (data : JSONValue)
    (outputPath : string) (options : InjectionOptions)
  : Exc (Fs.FS * InjectionResult) :=
  try_catch
    ((* Validate inputs *)
     do! validateInputs host data options in
     (* Validate file paths *)
     let! validatedPdfPath := PathValidator.validatePath host pdfPath in
     let! validatedOutputPath := PathValidator.validatePath host outputPath in
     do! PathValidator.validateFileExists fs validatedPdfPath in
     let! fs := PathValidator.validateOutputPath host fs validatedOutputPath in
     (* Read PDF *)
     let! pdfBytes := Fs.readFile fs validatedPdfPath in
     let! pdfDoc := PDFDocument_load host pdfBytes in
     let! '(pdfDoc, payload, willCompress) := injectDocument host pdfDoc data options in
     (* Save PDF *)
     let modifiedPdfBytes := PDFDocument_save host pdfDoc in
     let! fs := Fs.writeFile fs validatedOutputPath modifiedPdfBytes in
     Ok (fs, mkInjectionResult true outputPath (metadataOf payload)
               (if willCompress then Some ["Data was compressed"] else None)))
    (fun error =>
       if instanceof_StructPDFError error then Throw error
       else Throw (new_InjectionError (message error))).

End StructPDFInjector.

(** ** [src/extractor/extractor.ts] *)
Module StructPDFExtractor.

Definition failure (msg : string) : ExtractionResult :=
  mkExtractionResult false None (Some [msg]) None.

Definition failureWithData (payload : JSONValue) (msg : string) : ExtractionResult :=
  mkExtractionResult false (Some payload) (Some [msg]) None.

(** The [while (decompressionCount < MAX_LAYERS)] loop; [fuel] is the
    number of iterations the bound still allows.  Returns
    [decompressedData] and [decompressionCount]. *)
Fixpoint decompressLoop (host : Host) (fuel : nat) (decompressedData : bytes)
    (decompressionCount : nat) : Exc (bytes * nat) :=
  match fuel with
  | O => Ok (decompressedData, decompressionCount)
  | S fuel' =>
      if negb (isStillCompressed decompressedData)
      then Ok (decompressedData, decompressionCount)
      else
        let! decompressedData := decompress host decompressedData in
        decompressLoop host fuel' decompressedData (S decompressionCount)
  end.

(** The body of the inner [try] (lines 84-123): detection, layered
    decompression, decoding and [JSON.parse]. *)
Definition parseStored (host : Host) (structpdfData : bytes)
    (options : ExtractionOptions) : Exc JSONValue :=
  let dataToProcess := structpdfData in
  let isCompressed := isStillCompressed dataToProcess in
  let decompress_is_false :=
    match decompress_opt options with Some false => true | _ => false end in
  let! dataToProcess :=
    (* Decompress if needed and allowed (handle multiple compression layers) *)
    if isCompressed && negb decompress_is_false then
      let! '(decompressedData, _) :=
        decompressLoop host COMPRESSION_MAX_LAYERS dataToProcess 0 in
      Ok decompressedData
    else if isCompressed && decompress_is_false then
      Throw (new_Error "Data is compressed but decompress option is false")
    else Ok dataToProcess in
  (* Parse JSON *)
  let jsonString := TextDecoder_decode host dataToProcess in
  JSON_parse host jsonString.

(** Lines 131-164: [None] when verification is skipped or passes, the
    result to return otherwise.  Throws only where the source does:
    [payload.metadata] on a [null] payload. *)
Definition verify (host : Host) (payload : JSONValue) (options : ExtractionOptions)
  : Exc (option ExtractionResult) :=
  if negb (verifyIntegrity options) then Ok None
  else
    let! metadata := get payload "metadata" in
    let integrity := get_opt metadata "integrity" in
    if negb (truthy integrity) then Ok None
    else
      let algorithm := get_opt integrity "algorithm" in
      (* Validate hash algorithm *)
      if negb (existsb (fun a => strict_eq_string a algorithm) SUPPORTED_HASH_ALGORITHMS)
      then
        Ok (Some (failureWithData payload
                    ("Unsupported hash algorithm: " +:+ to_String_opt algorithm
                     +:+ ". Supported: " +:+ join ", " SUPPORTED_HASH_ALGORITHMS)))
      else
        Ok (try_return
              (let! payload_payload := get payload "payload" in
               let! hash :=
                 match payload_payload with
                 | Some v =>
                     crypto_createHash_hex host (to_String_opt algorithm)
                       (JSON_stringify host v)
                 | None =>
                     (* JSON.stringify(undefined) is undefined; update() rejects it *)
                     Throw (mkError TypeError
                              ("The " +:+ dquote +:+ "data" +:+ dquote
                               +:+ " argument must be of type string or an instance of"
                               +:+ " Buffer, TypedArray, or DataView. Received undefined"))
                 end in
               if negb (strict_eq_string hash (get_opt integrity "hash")) then
                 Ok (Some (failureWithData payload
                             "Integrity check failed: data may have been modified"))
               else Ok None)
              (fun error =>
                 Some (failureWithData payload
                         ("Integrity verification failed: " +:+ message error)))).

(** Lines 61-178 of [extract], on the loaded document. *)
Definition extractDocument (host : Host) (pdfDoc : PDFDocument)
    (options : ExtractionOptions) : Exc ExtractionResult :=
  (* Check if has StructPDF data *)
  if negb (PDFHandler.hasStructPDFData pdfDoc) then
    Ok (failure "No StructPDF data found in PDF")
  else
    (* Get embedded files *)
    let files := PDFHandler.getEmbeddedFiles pdfDoc in
    match files !! PDFHandler.embeddedName EMBEDDED_FILE_NAME with
    | None => Ok (failure "StructPDF file not found in embedded files")
    | Some structpdfData =>
        match parseStored host structpdfData options with
        | Throw error =>
            Ok (failure ("Failed to parse StructPDF data: " +:+ message error))
        | Ok payload =>
            (* Verify integrity if requested *)
            let! verdict := verify host payload options in
            match verdict with
            | Some result => Ok result
            | None => Ok (mkExtractionResult true (Some payload) None None)
            end
        end
    end.

Definition extract (host : Host) (fs : Fs.FS) (pdfPath : string)
    (options : ExtractionOptions) : ExtractionResult :=
  try_return
    ((* Validate file path *)
     let! validatedPdfPath := PathValidator.validatePath host pdfPath in
     do! PathValidator.validateFileExists fs validatedPdfPath in
     (* Read PDF *)
     let! pdfBytes := Fs.readFile fs validatedPdfPath in
     let! pdfDoc := PDFDocument_load host pdfBytes in
     extractDocument host pdfDoc options)
    (fun error =>
       if instanceof_StructPDFError error then failure (message error)
       else failure ("Extraction failed: " +:+ message error)).

(** Quick check if PDF has StructPDF data *)
Definition hasStructPDFData (host : Host) (fs : Fs.FS) (pdfPath : string) : bool :=
  try_return
    (let! pdfBytes := Fs.readFile fs pdfPath in
     let! pdfDoc := PDFDocument_load host pdfBytes in
     Ok (PDFHandler.hasStructPDFData pdfDoc))
    (fun _ => false).

End StructPDFExtractor.

(** ** A reference host, to run the definitions on concrete inputs: a
    compact JSON printer with its parser, framing codecs that prepend
    the gzip and zlib magic numbers, a length-based digest, and a
    one-line document format. *)
Module RefHost.

Definition quote : ascii := "034"%char.

Fixpoint print (v : JSONValue) : string :=
  let items :=
    fix items (l : list JSONValue) : string :=
      match l with
      | [] => ""
      | [x] => print x
      | x :: rest => print x +:+ "," +:+ items rest
      end in
  let fields :=
    fix fields (l : list (string * JSONValue)) : string :=
      match l with
      | [] => ""
      | [(k, x)] => String quote k +:+ String quote ":" +:+ print x
      | (k, x) :: rest =>
          String quote k +:+ String quote ":" +:+ print x +:+ "," +:+ fields rest
      end in
  match v with
  | JNull => "null"
  | JBool true => "true"
  | JBool false => "false"
  | JNumber n => pretty n
  | JString s => String quote s +:+ String quote ""
  | JArray l => "[" +:+ items l +:+ "]"
  | JObject l => "{" +:+ fields l +:+ "}"
  end.

Fixpoint drop_chars (n : nat) (s : string) : string :=
  match n, s with
  | S n', String _ rest => drop_chars n' rest
  | _, _ => s
  end.

(** The characters up to the closing quote, and what follows it. *)
Fixpoint read_string (s : string) : option (string * string) :=
  match s with
  | EmptyString => None
  | String c rest =>
      if Ascii.eqb c quote then Some ("", rest)
      else match read_string rest with
           | Some (str, rest') => Some (String c str, rest')
           | None => None
           end
  end.

Definition digit (c : ascii) : option Z :=
  let n := nat_of_ascii c in
  if ((48 <=? n) && (n <=? 57))%nat then Some (Z.of_nat n - 48) else None.

Fixpoint read_digits (acc : Z) (s : string) : Z * string :=
  match s with
  | String c rest =>
      match digit c with
      | Some d => read_digits (10 * acc + d) rest
      | None => (acc, s)
      end
  | EmptyString => (acc, s)
  end.

Fixpoint parse_value (fuel : nat) (s : string) : option (JSONValue * string) :=
  match fuel with
  | O => None
  | S fuel' =>
      match s with
      | EmptyString => None
      | String c rest =>
          if Ascii.eqb c "n" then
            if String.prefix "ull" rest then Some (JNull, drop_chars 3 rest) else None
          else if Ascii.eqb c "t" then
            if String.prefix "rue" rest then Some (JBool true, drop_chars 3 rest) else None
          else if Ascii.eqb c "f" then
            if String.prefix "alse" rest then Some (JBool false, drop_chars 4 rest) else None
          else if Ascii.eqb c quote then
            match read_string rest with
            | Some (str, rest') => Some (JString str, rest')
            | None => None
            end
          else if Ascii.eqb c "[" then
            match rest with
            | String "]" rest' => Some (JArray [], rest')
            | _ => match parse_items fuel' rest with
                   | Some (l, rest') => Some (JArray l, rest')
                   | None => None
                   end
            end
          else if Ascii.eqb c "{" then
            match rest with
            | String "}" rest' => Some (JObject [], rest')
            | _ => match parse_fields fuel' rest with
                   | Some (l, rest') => Some (JObject l, rest')
                   | None => None
                   end
            end
          else if Ascii.eqb c "-" then
            match rest with
            | String d _ =>
                match digit d with
                | Some _ => let (n, rest') := read_digits 0 rest in
                            Some (JNumber (- n), rest')
                | None => None
                end
            | EmptyString => None
            end
          else
            match digit c with
            | Some _ => let (n, rest') := read_digits 0 s in Some (JNumber n, rest')
            | None => None
            end
      end
  end
with parse_items (fuel : nat) (s : string) : option (list JSONValue * string) :=
  match fuel with
  | O => None
  | S fuel' =>
      match parse_value fuel' s with
      | Some (x, String "," rest) =>
          match parse_items fuel' rest with
          | Some (l, rest') => Some (x :: l, rest')
          | None => None
          end
      | Some (x, String "]" rest) => Some ([x], rest)
      | _ => None
      end
  end
with parse_fields (fuel : nat) (s : string)
  : option (list (string * JSONValue) * string) :=
  match fuel with
  | O => None
  | S fuel' =>
      match s with
      | String c rest =>
          if Ascii.eqb c quote then
            match read_string rest with
            | Some (k, String ":" rest1) =>
                match parse_value fuel' rest1 with
                | Some (x, String "," rest2) =>
                    match parse_fields fuel' rest2 with
                    | Some (l, rest') => Some ((k, x) :: l, rest')
                    | None => None
                    end
                | Some (x, String "}" rest2) => Some ([(k, x)], rest2)
                | _ => None
                end
            | _ => None
            end
          else None
      | EmptyString => None
      end
  end.

Definition parse (s : string) : Exc JSONValue :=
  match parse_value (2 * String.length s + 2) s with
  | Some (v, EmptyString) => Ok v
  | _ => Throw (mkError SyntaxError "Unexpected token in JSON")
  end.

Definition gzip (data : bytes) : Exc bytes := Ok (x1f :: x8b :: data).
Definition deflate (data : bytes) : bytes := x78 :: x9c :: data.

Definition ungzip (data : bytes) : Exc bytes :=
  match data with
  | b0 :: b1 :: rest =>
      if Byte.eqb b0 x1f && Byte.eqb b1 x8b then Ok rest
      else Throw (thrown_string "incorrect header check")
  | _ => Throw (thrown_string "unexpected end of file")
  end.

Definition inflate (data : bytes) : Exc bytes :=
  match data with
  | b0 :: b1 :: rest =>
      if Byte.eqb b0 x78 && Byte.eqb b1 x9c then Ok rest
      else Throw (thrown_string "incorrect header check")
  | _ => Throw (thrown_string "unexpected end of file")
  end.

Definition createHash_hex (algorithm dataString : string) : Exc string :=
  if existsb (String.eqb algorithm) SUPPORTED_HASH_ALGORITHMS
  then Ok (algorithm +:+ pretty (Z.of_nat (String.length dataString)))
  else Throw (new_Error "Digest method not supported").

(** The directory part of a path: up to its last slash. *)
Fixpoint dirname_go (s : string) : option string :=
  match s with
  | EmptyString => None
  | String c rest =>
      match dirname_go rest with
      | Some d => Some (String c d)
      | None => if Ascii.eqb c "/" then Some "" else None
      end
  end.
Definition dirname (s : string) : string :=
  match dirname_go s with
  | Some "" => "/"
  | Some d => d
  | None => "."
  end.

(** A document with a bare catalog and no Info entries. *)
Definition emptyDocument : PDFDocument :=
  mkDocument (mkContext ∅ 1) [("Type", PDFName "Catalog")] None None.

(** The one-line document format: a file that starts with [%PDF-] loads
    as the empty document, anything else fails to parse. *)
Definition load (pdfBytes : bytes) : Exc PDFDocument :=
  if String.prefix "%PDF-" (string_of_list_byte pdfBytes) then Ok emptyDocument
  else Throw (new_Error "Failed to parse PDF document (line:0 col:0 offset=0): No PDF header found").

Definition save (pdfDoc : PDFDocument) : bytes := list_byte_of_string "%PDF-1.7".

Definition host : Host :=
  {| pako_gzip := gzip;
     pako_ungzip := ungzip;
     pako_inflate := inflate;
     pako_deflate := deflate;
     JSON_stringify := print;
     JSON_stringify_indent2 := print;
     JSON_parse := parse;
     TextEncoder_encode := list_byte_of_string;
     TextDecoder_decode := string_of_list_byte;
     crypto_createHash_hex := createHash_hex;
     Date_toISOString := "2024-01-01T00:00:00.000Z";
     URL_parses := fun url => includes url "://";
     path_normalize := fun p => p;
     path_resolve := fun p => p;
     path_isAbsolute := fun p => String.prefix "/" p;
     path_dirname := dirname;
     PDFDocument_load := load;
     PDFDocument_save := save |}.

End RefHost.

(** * Vocabulary of the properties, and fixtures *)

(** ** Laws of the host's codecs, as pako provides them: [gzip] output
    starts with [1F 8B] and [ungzip] inverts it; [deflate] output starts
    with [78 9C] and [inflate] inverts it. *)
Record CodecLaws (host : Host) : Prop := mkCodecLaws {
  gzip_header : forall b c, pako_gzip host b = Ok c -> isGzip c = true;
  gzip_ungzip : forall b c, pako_gzip host b = Ok c -> pako_ungzip host c = Ok b;
  deflate_header : forall b, isZlib (pako_deflate host b) = true;
  deflate_inflate : forall b, pako_inflate host (pako_deflate host b) = Ok b
}.

(** The two framings the extractor recognises. *)
Inductive Framing : Type := GzipFraming | ZlibFraming.

(** One compression pass in the given framing: the injector's
    [compress], or the deflate of [context.flateStream]. *)
Definition encodeWith (host : Host) (f : Framing) (data : bytes) : Exc bytes :=
  match f with
  | GzipFraming => compress host data
  | ZlibFraming => Ok (pako_deflate host data)
  end.

Definition defaultExtractionOptions : ExtractionOptions :=
  mkExtractionOptions None false.

(** [n] successive calls of [decompress]. *)
Fixpoint decompressTimes (host : Host) (n : nat) (data : bytes) : Exc bytes :=
  match n with
  | O => Ok data
  | S n' => let! data := decompress host data in decompressTimes host n' data
  end.

(** The extraction result on full success. *)
Definition succeeded (payload : JSONValue) : ExtractionResult :=
  mkExtractionResult true (Some payload) None None.

(** The bytes [getEmbeddedFiles] finds under the reserved name. *)
Definition storedBytes (pdfDoc : PDFDocument) : option bytes :=
  PDFHandler.getEmbeddedFiles pdfDoc !! PDFHandler.embeddedName EMBEDDED_FILE_NAME.

(** Fixtures: a payload, its envelope as the reference host serializes
    it, and a document whose reserved entry holds the envelope gzipped
    by the injector's codec and deflated by [context.flateStream]. *)
Definition adaPayload : JSONValue := JObject [("name", JString "Ada")].

Definition adaEnvelope : JSONValue :=
  JObject
    [("domain", JString "GENERIC"); ("version", JString "unknown");
     ("schema", JString "https://example.com/s.json");
     ("payload", adaPayload);
     ("metadata",
      JObject
        [("createdAt", JString "2024-01-01T00:00:00.000Z");
         ("generator", JString GENERATOR);
         ("compressed", JBool true)])].

Definition adaPlain : bytes := list_byte_of_string (RefHost.print adaEnvelope).

Definition twiceCompressedDocument : PDFDocument :=
  EmbeddedFileManager.embedFile RefHost.host RefHost.emptyDocument
    EMBEDDED_FILE_NAME (x1f :: x8b :: adaPlain) MIME_TYPE.

(** [metadata.compressed] of an envelope. *)
Definition compressedFlag (payload : JSONValue) : option JSONValue :=
  get_opt (get_opt (Some payload) "metadata") "compressed".

(** [data.payload] of an extraction result. *)
Definition payloadOf (envelope : JSONValue) : option JSONValue :=
  get_opt (Some envelope) "payload".

(** Fixtures: injection options with a valid schema URL, and a payload
    padded to a chosen size. *)
Definition exampleOptions (compress addIntegrity overwrite : bool)
  : InjectionOptions :=
  mkInjectionOptions compress addIntegrity overwrite None
    "https://example.com/s.json" None None.

Fixpoint padding (n : nat) : string :=
  match n with
  | O => ""
  | S n' => String "a" (padding n')
  end.

Definition paddedPayload (n : nat) : JSONValue := JObject [("pad", JString (padding n))].

(** The two shapes of an [ExtractionResult] the contract allows:
    success with the envelope and no error list, or failure with a
    one-line reason (and possibly the unverified envelope). *)
Definition isSuccess (r : ExtractionResult) : Prop :=
  success r = true /\ (exists payload, data r = Some payload) /\ errors r = None.

Definition isFailure (r : ExtractionResult) : Prop :=
  success r = false /\ exists reason, errors r = Some [reason].

(** Fixtures: an envelope carrying an integrity block, and the document
    that stores it uncompressed. *)
Definition metadataWithIntegrity (algorithm hash : string) : JSONValue :=
  JObject
    [("createdAt", JString "2024-01-01T00:00:00.000Z");
     ("generator", JString GENERATOR);
     ("compressed", JBool false);
     ("integrity",
      JObject [("algorithm", JString algorithm); ("hash", JString hash)])].

Definition envelopeWithIntegrity (algorithm hash : string) : JSONValue :=
  JObject
    [("domain", JString "GENERIC"); ("version", JString "unknown");
     ("schema", JString "https://example.com/s.json");
     ("payload", adaPayload);
     ("metadata", metadataWithIntegrity algorithm hash)].

Definition documentStoring (envelope : JSONValue) : PDFDocument :=
  EmbeddedFileManager.embedFile RefHost.host RefHost.emptyDocument
    EMBEDDED_FILE_NAME (list_byte_of_string (RefHost.print envelope)) MIME_TYPE.

Definition verifyingOptions : ExtractionOptions := mkExtractionOptions None true.


(** The file at [pdfPath] holds the document [pdfDoc]: the path is
    accepted, the file is read, and its bytes parse. *)
Definition holdsDocument (host : Host) (fs : Fs.FS) (pdfPath : string)
    (pdfDoc : PDFDocument) : Prop :=
  exists validated pdfBytes,
    PathValidator.validatePath host pdfPath = Ok validated
    /\ Fs.readFile fs validated = Ok pdfBytes
    /\ PDFDocument_load host pdfBytes = Ok pdfDoc.


(** Fixture: a file system with one file that is not a PDF. *)
Definition fsWithGarbage : Fs.FS :=
  {[ "/tmp/invalid.pdf" := Fs.File (list_byte_of_string "Not a PDF file") ]}.

(** Fixtures for the embedded-file walk.  [notesSpec] is a file
    specification without an [EF] entry; [payloadStream] and
    [payloadSpec] are what [embedFile] writes for the reserved name. *)
Definition notesSpec : PDFObject :=
  PDFDict [("Type", PDFName "Filespec"); ("F", PDFString "notes.txt");
           ("UF", PDFString "notes.txt")].

Definition adaStored : bytes :=
  list_byte_of_string (RefHost.print (envelopeWithIntegrity "sha256" "sha25614")).

Definition payloadStream : PDFObject :=
  EmbeddedFileManager.fileStream RefHost.host adaStored MIME_TYPE.

Definition payloadSpec : PDFObject :=
  EmbeddedFileManager.fileSpec EMBEDDED_FILE_NAME 3.

Definition documentWithNames (namesArray : list PDFObject) : PDFDocument :=
  mkDocument
    (mkContext (list_to_map [(2%nat, notesSpec); (3%nat, payloadStream);
                             (4%nat, payloadSpec)]) 4)
    [("Type", PDFName "Catalog");
     ("Names", PDFDict [("EmbeddedFiles", PDFDict [("Names", PDFArray namesArray)])])]
    None None.

(** The unresolvable pair first, the payload's pair after it. *)
Definition brokenThenPayload : PDFDocument :=
  documentWithNames [PDFString "notes.txt"; PDFRef 2;
                     PDFString EMBEDDED_FILE_NAME; PDFRef 4].

(** The same two pairs in the other order. *)
Definition payloadThenBroken : PDFDocument :=
  documentWithNames [PDFString EMBEDDED_FILE_NAME; PDFRef 4;
                     PDFString "notes.txt"; PDFRef 2].

(** Only the unresolvable pair: a document without payload. *)
Definition brokenOnly : PDFDocument :=
  documentWithNames [PDFString "notes.txt"; PDFRef 2].

(** Fixture: a document whose keyword field already holds two tokens. *)
Definition documentWithKeywords : PDFDocument :=
  mkDocument (mkContext ∅ 1) [("Type", PDFName "Catalog")]
    (Some "report 2024") (Some "Writer").

(** [keywords.split(' ').includes(token)] *)
Definition hasToken (keywords : option string) (token : string) : bool :=
  match keywords with
  | Some k => existsb (String.eqb token) (split_space k)
  | None => false
  end.

(** The document an injection leaves, when it succeeds. *)
Definition injected (r : Exc (PDFDocument * JSONValue * bool)) : option PDFDocument :=
  match r with
  | Ok (pdfDoc, _, _) => Some pdfDoc
  | Throw _ => None
  end.

(** Fixtures: the two payloads of the overwrite scenario, and the
    document a first injection leaves on [brokenOnly]. *)
Definition firstPayload : JSONValue := JObject [("version", JNumber 1)].
Definition secondPayload : JSONValue := JObject [("version", JNumber 2)].

Definition firstInjection : Exc (PDFDocument * JSONValue * bool) :=
  StructPDFInjector.injectDocument RefHost.host brokenOnly firstPayload
    (exampleOptions false false false).

Definition secondInjection (overwrite : bool) : Exc (PDFDocument * JSONValue * bool) :=
  let! '(pdfDoc, _, _) := firstInjection in
  StructPDFInjector.injectDocument RefHost.host pdfDoc secondPayload
    (exampleOptions false false overwrite).

Definition extractedAfter (r : Exc (PDFDocument * JSONValue * bool))
  : option (Exc ExtractionResult) :=
  (fun pdfDoc =>
     StructPDFExtractor.extractDocument RefHost.host pdfDoc defaultExtractionOptions)
    <$> injected r.

(** The two Info entries of a document. *)
Definition info (pdfDoc : PDFDocument) : option string * option string :=
  (Keywords pdfDoc, Creator pdfDoc).

(** [options.domain || 'GENERIC'] *)
Definition domainOrDefault (options : InjectionOptions) : string :=
  if PDFHandler.truthy_string (domain options)
  then default "" (domain options) else "GENERIC".

(** Fixture: options that name a specification. *)
Definition specOptions : InjectionOptions :=
  mkInjectionOptions false false false (Some "RESUME")
    "https://example.com/s.json" (Some "StructCV Resume Format") (Some "STRUCTCV").

(** The document [inject] builds from [pdfDoc] once the bytes to embed
    are known (lines 72-88). *)
Definition finishInjection (host : Host) (pdfDoc : PDFDocument) (data : JSONValue)
    (options : InjectionOptions) (dataBytes : bytes) : PDFDocument :=
  let pdfDoc :=
    if overwrite options
    then fst (EmbeddedFileManager.removeFile pdfDoc EMBEDDED_FILE_NAME) else pdfDoc in
  let pdfDoc :=
    EmbeddedFileManager.embedFile host pdfDoc EMBEDDED_FILE_NAME dataBytes MIME_TYPE in
  let pdfDoc := PDFHandler.addMetadata pdfDoc HAS_STRUCTPDF "true" in
  let pdfDoc :=
    PDFHandler.addMetadata pdfDoc STRUCTPDF_VERSION
      (StructPDFInjector.extractVersion data) in
  PDFHandler.addMetadata pdfDoc STRUCTPDF_DOMAIN (domainOrDefault options).

(** The object graph [embedFile] leaves on a document whose catalog has
    no [Names] entry: four fresh objects and a catalog entry. *)
Definition freshNameTree (host : Host) (ctx : PDFContext) (fileName : string)
    (fileData : bytes) (mimeType : string) : PDFContext :=
  let r1 := S (largestObjectNumber ctx) in
  let r2 := S r1 in
  let r3 := S r2 in
  let r4 := S r3 in
  mkContext
    (<[r4 := PDFDict [("Names", PDFArray [PDFString fileName; PDFRef r2])]]>
       (<[r3 := PDFDict [("EmbeddedFiles", PDFRef r4)]]>
          (<[r4 := PDFDict [("Names", PDFArray [])]]>
             (<[r3 := PDFDict []]>
                (<[r2 := EmbeddedFileManager.fileSpec fileName r1]>
                   (<[r1 := EmbeddedFileManager.fileStream host fileData mimeType]>
                      (indirectObjects ctx)))))))
    r4.

(** A serialization the extractor reads back: it parses to the value
    it came from and does not start with a compression header. *)
Definition jsonFaithful (host : Host) (payload : JSONValue) : Prop :=
  let plain := TextEncoder_encode host (JSON_stringify_indent2 host payload) in
  JSON_parse host (TextDecoder_decode host plain) = Ok payload
  /\ isStillCompressed plain = false.

(** The object graph after [removeFile] and [embedFile] replaced the
    single pair of [freshNameTree]: the old stream and file
    specification stay in the table, unreferenced by the pair array. *)
Definition replacedNameTree (host : Host) (ctx : PDFContext) (fileName : string)
    (fileData : bytes) (mimeType : string) : PDFContext :=
  let r4 := largestObjectNumber ctx in
  let r5 := S r4 in
  let r6 := S r5 in
  mkContext
    (<[r4 := PDFDict [("Names", PDFArray [PDFString fileName; PDFRef r6])]]>
       (<[r6 := EmbeddedFileManager.fileSpec fileName r5]>
          (<[r5 := EmbeddedFileManager.fileStream host fileData mimeType]>
             (<[r4 := PDFDict [("Names", PDFArray [])]]> (indirectObjects ctx)))))
    r6.

(** The pair array the walk of [getEmbeddedFiles] reads, when the three
    catalog lookups succeed. *)
Definition namesArrayOf (pdfDoc : PDFDocument) : option (list PDFObject) :=
  let ctx := context pdfDoc in
  match Dict_lookup_typed is_PDFDict "PDFDict" ctx (catalog pdfDoc) "Names" with
  | Ok (Some (PDFDict namesDict)) =>
      match Dict_lookup_typed is_PDFDict "PDFDict" ctx namesDict "EmbeddedFiles" with
      | Ok (Some (PDFDict embeddedFilesDict)) =>
          match Dict_lookup_typed is_PDFArray "PDFArray" ctx embeddedFilesDict "Names" with
          | Ok (Some (PDFArray namesArray)) => Some namesArray
          | _ => None
          end
      | _ => None
      end
  | _ => None
  end.

(** The catalog, and the indirect object [n], as places. *)
Abbreviation rootPlace := (Place.mk Place.AtCatalog []).
Abbreviation objectPlace n := (Place.mk (Place.AtObject n) []).

(** The handler of [extract], applied to what its body returned or
    threw. *)
Definition caught (body : Exc ExtractionResult) : ExtractionResult :=
  try_return body
    (fun error =>
       if instanceof_StructPDFError error
       then StructPDFExtractor.failure (message error)
       else StructPDFExtractor.failure ("Extraction failed: " +:+ message error)).

(** Every object number in the table is at most [largestObjectNumber],
    so that [register] hands out an unused one. *)
Definition tableBounded (pdfDoc : PDFDocument) : Prop :=
  forall n o,
    indirectObjects (context pdfDoc) !! n = Some o ->
    (n <= largestObjectNumber (context pdfDoc))%nat.

(** [o'] is [o] up to the [Names] and [EmbeddedFiles] entries of a
    dictionary: what the writes of [embedFile] may change in an object
    that is already there. *)
Definition sameExcept (o o' : PDFObject) : Prop :=
  match o, o' with
  | PDFDict d, PDFDict d' =>
      forall k, k <> "Names" -> k <> "EmbeddedFiles" -> assoc k d' = assoc k d
  | _, _ => o' = o
  end.

(** Every object of [ctx] is still in [ctx'], up to [sameExcept]. *)
Definition framed (ctx ctx' : PDFContext) : Prop :=
  forall n o,
    indirectObjects ctx !! n = Some o ->
    exists o', indirectObjects ctx' !! n = Some o' /\ sameExcept o o'.

(** The dictionary [cd] that [dict.lookup(key, PDFDict)] returns on the
    dictionary at [pl], and the place [pl'] where it lives. *)
Definition reaches (pdfDoc : PDFDocument) (pl : Place.t) (key : string)
    (pl' : Place.t) (cd : Dict) : Prop :=
  exists pd,
    Place.read pdfDoc pl = Some pd
    /\ Dict_lookup_typed is_PDFDict "PDFDict" (context pdfDoc) pd key
       = Ok (Some (PDFDict cd))
    /\ pl' = Place.child pl pd key
    /\ Place.read pdfDoc pl' = Some cd.

(** A place in the catalog, or an indirect object itself. *)
Definition shallow (pl : Place.t) : Prop :=
  Place.base pl = Place.AtCatalog \/ Place.path pl = [].

(** The keys the name-tree writes touch. *)
Definition treeKey (k : string) : Prop := k = "Names" \/ k = "EmbeddedFiles".

(** An object that cannot serve as a level of the name tree: not an
    array, and as a dictionary without the two tree entries. *)
Definition inert (o : PDFObject) : Prop :=
  match o with
  | PDFDict d => assoc "Names" d = None /\ assoc "EmbeddedFiles" d = None
  | PDFArray _ => False
  | _ => True
  end.

(** What [getEmbeddedFiles] reports for a walk. *)
Definition reported (walk : gmap string bytes * option Error)
  : gmap string bytes * list string :=
  match walk with
  | (files, None) => (files, [])
  | (files, Some error) => (files, ["Error reading embedded files: " +:+ message error])
  end.

(** Fixture: a document that already carries an attachment whose pair
    resolves, the [EmbeddedFiles] dictionary behind a reference. *)
Definition notesStream : PDFObject :=
  PDFRawStream [("Type", PDFName "EmbeddedFile")] (list_byte_of_string "hello").

Definition attachedSpec : PDFObject :=
  PDFDict [("Type", PDFName "Filespec"); ("F", PDFString "notes.txt");
           ("UF", PDFString "notes.txt"); ("EF", PDFDict [("F", PDFRef 2)])].

Definition documentWithAttachment : PDFDocument :=
  mkDocument
    (mkContext
       (list_to_map
          [(2%nat, notesStream); (3%nat, attachedSpec);
           (4%nat, PDFDict [("Names", PDFArray [PDFString "notes.txt"; PDFRef 3])])])
       4)
    [("Type", PDFName "Catalog");
     ("Names", PDFDict [("EmbeddedFiles", PDFRef 4)])]
    None None.

(** [v] occurs in [data]: [data] itself, an element of an array or a
    value of an object, at any depth. *)
Inductive subvalue (v : JSONValue) : JSONValue -> Prop :=
| subvalue_here : subvalue v v
| subvalue_item items x : In x items -> subvalue v x -> subvalue v (JArray items)
| subvalue_field fields k x :
    In (k, x) fields -> subvalue v x -> subvalue v (JObject fields).

(** An object with an own key [constructor]. *)
Definition hasConstructorKey (v : JSONValue) : Prop :=
  exists fields, v = JObject fields /\ is_Some (assoc "constructor" fields).

(** A second reference host, whose one-line document format keeps the
    payload: [save] writes the header and, after a line feed, the bytes
    stored under the reserved name; [load] gives the empty document, or
    the document holding the bytes that follow the header. *)
Module ArchiveHost.

Definition header : bytes := list_byte_of_string "%PDF-1.7".

Definition holding (stored : bytes) : PDFDocument :=
  mkDocument
    (mkContext
       (list_to_map
          [(2%nat, PDFRawStream [("Type", PDFName "EmbeddedFile")] stored);
           (3%nat, EmbeddedFileManager.fileSpec EMBEDDED_FILE_NAME 2)])
       3)
    [("Type", PDFName "Catalog");
     ("Names",
      PDFDict [("EmbeddedFiles",
                PDFDict [("Names", PDFArray [PDFString EMBEDDED_FILE_NAME; PDFRef 3])])])]
    None None.

Definition save (pdfDoc : PDFDocument) : bytes :=
  (header ++ match storedBytes pdfDoc with
             | Some stored => x0a :: stored
             | None => []
             end)%list.

Definition load (pdfBytes : bytes) : Exc PDFDocument :=
  if String.prefix "%PDF-1.7" (string_of_list_byte pdfBytes) then
    match drop 8 pdfBytes with
    | [] => Ok RefHost.emptyDocument
    | _ :: stored => Ok (holding stored)
    end
  else Throw (new_Error "Failed to parse PDF document (line:0 col:0 offset=0): No PDF header found").

Definition host : Host :=
  {| pako_gzip := RefHost.gzip;
     pako_ungzip := RefHost.ungzip;
     pako_inflate := RefHost.inflate;
     pako_deflate := RefHost.deflate;
     JSON_stringify := RefHost.print;
     JSON_stringify_indent2 := RefHost.print;
     JSON_parse := RefHost.parse;
     TextEncoder_encode := list_byte_of_string;
     TextDecoder_decode := string_of_list_byte;
     crypto_createHash_hex := RefHost.createHash_hex;
     Date_toISOString := "2024-01-01T00:00:00.000Z";
     URL_parses := fun url => includes url "://";
     path_normalize := fun p => p;
     path_resolve := fun p => p;
     path_isAbsolute := fun p => String.prefix "/" p;
     path_dirname := RefHost.dirname;
     PDFDocument_load := load;
     PDFDocument_save := save |}.

End ArchiveHost.

(** Fixture: a file system with one loadable document and its
    directory. *)
Definition fsWithDocument : Fs.FS :=
  {[ "/tmp/in.pdf" := Fs.File ArchiveHost.header; "/tmp" := Fs.Directory ]}.

(** A string of continuation bytes. *)
Fixpoint continuationOnly (s : string) : bool :=
  match s with
  | EmptyString => true
  | String c rest => is_continuation c && continuationOnly rest
  end.

(** Fixture: a document that carries the fast-detection signal. *)
Definition documentWithSignal : PDFDocument :=
  PDFHandler.addStructPDFMetadata RefHost.emptyDocument "RESUME" None None.

(** A name slot as a parsed file has it: a literal or hexadecimal
    string. *)
Definition is_name (o : PDFObject) : bool :=
  match o with
  | PDFString _ | PDFHexString _ => true
  | _ => false
  end.

(** Every pair of the array gives a file: the name resolves to a
    string, the file specification to a dictionary whose [EF] resolves
    to a dictionary whose [F] resolves to a stream; the slots come in
    pairs. *)
Fixpoint pairsResolve (ctx : PDFContext) (namesArray : list PDFObject) : bool :=
  match namesArray with
  | [] => true
  | [_] => false
  | slot_i :: fileSpec :: rest =>
      match lookup ctx (Some slot_i), lookup ctx (Some fileSpec) with
      | Some name, Some (PDFDict fileSpecDict) =>
          is_name name
          && match lookup ctx (Dict_get fileSpecDict "EF") with
             | Some (PDFDict efDict) =>
                 match lookup ctx (Dict_get efDict "F") with
                 | Some (PDFRawStream _ _) => true
                 | _ => false
                 end
             | _ => false
             end
      | _, _ => false
      end
      && pairsResolve ctx rest
  end.

(** A document all of whose embedded files resolve. *)
Definition resolvable (pdfDoc : PDFDocument) : bool :=
  pairsResolve (context pdfDoc) (default [] (namesArrayOf pdfDoc)).

(** The names of the pairs of an array, as [getEmbeddedFiles] prints
    them: every other slot, dereferenced. *)
Fixpoint pairNames (ctx : PDFContext) (namesArray : list PDFObject) : list string :=
  match namesArray with
  | [] => []
  | slot_i :: after =>
      default "" (toString <$> lookup ctx (Some slot_i))
      :: match after with
         | [] => []
         | _ :: rest => pairNames ctx rest
         end
  end.

(** The names of the pairs of a document's array. *)
Definition pairNamesOf (pdfDoc : PDFDocument) : list string :=
  pairNames (context pdfDoc) (default [] (namesArrayOf pdfDoc)).

(** [names] without [name]. *)
Definition without (name : string) (names : list string) : list string :=
  List.filter (fun n => negb (String.eqb n name)) names.

(** Fixture: the reference host with a decompressor that rejects what
    it is given, as pako does with damaged data: it throws its message,
    a string. *)
Definition rejectingHost : Host :=
  {| pako_gzip := RefHost.gzip;
     pako_ungzip := fun _ => Throw (thrown_string "invalid stored block lengths");
     pako_inflate := fun _ => Throw (thrown_string "invalid stored block lengths");
     pako_deflate := RefHost.deflate;
     JSON_stringify := RefHost.print;
     JSON_stringify_indent2 := RefHost.print;
     JSON_parse := RefHost.parse;
     TextEncoder_encode := list_byte_of_string;
     TextDecoder_decode := string_of_list_byte;
     crypto_createHash_hex := RefHost.createHash_hex;
     Date_toISOString := "2024-01-01T00:00:00.000Z";
     URL_parses := fun url => includes url "://";
     path_normalize := fun p => p;
     path_resolve := fun p => p;
     path_isAbsolute := fun p => String.prefix "/" p;
     path_dirname := RefHost.dirname;
     PDFDocument_load := RefHost.load;
     PDFDocument_save := RefHost.save |}.

(** Fixture: a payload that names the version of its specification. *)
Definition versionedPayload : JSONValue :=
  JObject [("specVersion", JString "1.0.0"); ("name", JString "Ada")].

(** Fixture: a payload with a key named [constructor]. *)
Definition contractPayload : JSONValue :=
  JObject [("parties", JArray [JObject [("constructor", JString "ACME Builders")]])].

(** Fixture: the reference host with an encoder that returns one byte
    more than the size limit, whatever the text. *)
Definition oversizeBytes : bytes := repeat x00 (Z.to_nat (MAX_PAYLOAD_SIZE + 1)).

Definition oversizeHost : Host :=
  {| pako_gzip := RefHost.gzip;
     pako_ungzip := RefHost.ungzip;
     pako_inflate := RefHost.inflate;
     pako_deflate := RefHost.deflate;
     JSON_stringify := RefHost.print;
     JSON_stringify_indent2 := RefHost.print;
     JSON_parse := RefHost.parse;
     TextEncoder_encode := fun _ => oversizeBytes;
     TextDecoder_decode := string_of_list_byte;
     crypto_createHash_hex := RefHost.createHash_hex;
     Date_toISOString := "2024-01-01T00:00:00.000Z";
     URL_parses := fun url => includes url "://";
     path_normalize := fun p => p;
     path_resolve := fun p => p;
     path_isAbsolute := fun p => String.prefix "/" p;
     path_dirname := RefHost.dirname;
     PDFDocument_load := RefHost.load;
     PDFDocument_save := RefHost.save |}.

(** Fields of an envelope. *)
Definition fieldOf (envelope : JSONValue) (key : string) : option JSONValue :=
  get_opt (Some envelope) key.

Definition metadataField (envelope : JSONValue) (key : string) : option JSONValue :=
  get_opt (fieldOf envelope "metadata") key.

(** [Object.keys(v)] *)
Definition keysOf (v : option JSONValue) : list string :=
  match v with
  | Some (JObject fields) => List.map fst fields
  | _ => []
  end.

(** [envelope] is [payload] with [metadata.compressed] set to [flag]:
    the same keys in the same order, in the envelope and in its
    metadata, and the same values but for that one. *)
Definition flaggedAs (flag : bool) (payload envelope : JSONValue) : Prop :=
  keysOf (Some envelope) = keysOf (Some payload)
  /\ keysOf (fieldOf envelope "metadata") = keysOf (fieldOf payload "metadata")
  /\ (forall k, k <> "metadata" -> fieldOf envelope k = fieldOf payload k)
  /\ (forall k, k <> "compressed" ->
                metadataField envelope k = metadataField payload k)
  /\ metadataField envelope "compressed" = Some (JBool flag).

(** Fixture: a file system whose input file holds an envelope with an
    integrity block whose hash is not the digest of the payload. *)
Definition tamperedStored : bytes :=
  RefHost.deflate
    (list_byte_of_string (RefHost.print (envelopeWithIntegrity "sha256" "00"))).

Definition fsWithTampered : Fs.FS :=
  {[ "/tmp/in.pdf" := Fs.File (ArchiveHost.header ++ x0a :: tamperedStored);
     "/tmp" := Fs.Directory ]}.

(** Fixture: a file system whose input file already holds a payload,
    in the archive host's format. *)
Definition fsWithPayload : Fs.FS :=
  {[ "/tmp/in.pdf" := Fs.File (ArchiveHost.header ++ x0a :: RefHost.deflate adaPlain);
     "/tmp" := Fs.Directory ]}.

(** * Properties *)

Section Codec.

Context (host : Host) (laws : CodecLaws host).

Lemma isGzip_cons b0 b1 rest :
  isGzip (b0 :: b1 :: rest) = Byte.eqb b0 x1f && Byte.eqb b1 x8b.
Proof. reflexivity. Qed.

Lemma isZlib_cons b0 b1 rest :
  isZlib (b0 :: b1 :: rest) = Byte.eqb b0 x78 && Byte.eqb b1 x9c.
Proof. reflexivity. Qed.

Lemma isGzip_length data : isGzip data = true -> (2 <= length data)%nat.
Proof.
  unfold isGzip. intros H.
  apply andb_true_iff in H as [H _]. apply andb_true_iff in H as [H _].
  by apply Nat.leb_le in H.
Qed.

Lemma isZlib_length data : isZlib data = true -> (2 <= length data)%nat.
Proof.
  unfold isZlib. intros H.
  apply andb_true_iff in H as [H _]. apply andb_true_iff in H as [H _].
  by apply Nat.leb_le in H.
Qed.

Lemma isZlib_not_isGzip data : isZlib data = true -> isGzip data = false.
Proof.
  destruct data as [|b0 [|b1 rest]]; try discriminate.
  rewrite isZlib_cons, isGzip_cons. intros H.
  apply andb_true_iff in H as [H0 _].
  apply Byte.byte_dec_bl in H0. subst b0. reflexivity.
Qed.

Lemma compress_Ok data c :
  compress host data = Ok c -> pako_gzip host data = Ok c.
Proof. unfold compress, try_catch. destruct (pako_gzip host data); congruence. Qed.

Lemma decompress_gzip data c :
  pako_gzip host data = Ok c -> decompress host c = Ok data.
Proof.
  intros H. pose proof (gzip_header host laws _ _ H) as Hh.
  pose proof (isGzip_length _ Hh) as Hl.
  unfold decompress, COMPRESSION_SETTINGS_DETECTION_THRESHOLD.
  destruct (Nat.ltb_spec (length c) 2) as [?|_]; [lia|].
  rewrite Hh. simpl. by rewrite (gzip_ungzip host laws _ _ H).
Qed.

Lemma decompress_deflate data :
  decompress host (pako_deflate host data) = Ok data.
Proof.
  pose proof (deflate_header host laws data) as Hh.
  pose proof (isZlib_length _ Hh) as Hl.
  unfold decompress, COMPRESSION_SETTINGS_DETECTION_THRESHOLD.
  destruct (Nat.ltb_spec (length (pako_deflate host data)) 2) as [?|_]; [lia|].
  rewrite (isZlib_not_isGzip _ Hh), Hh. simpl.
  by rewrite (deflate_inflate host laws).
Qed.

(** Whatever the framing, the layer is detected and [decompress]
    removes it. *)
Lemma encodeWith_detected f data c :
  encodeWith host f data = Ok c ->
  isStillCompressed c = true /\ decompress host c = Ok data.
Proof.
  destruct f; simpl; intros H.
  - apply compress_Ok in H. split.
    + unfold isStillCompressed. by rewrite (gzip_header host laws _ _ H).
    + by apply decompress_gzip.
  - injection H as <-. split.
    + unfold isStillCompressed. rewrite (deflate_header host laws).
      by rewrite orb_true_r.
    + apply decompress_deflate.
Qed.

End Codec.

Section Layers.

Context (host : Host).

(** The loop stops within its fuel, after [k - n] calls of [decompress],
    and when it stops early no header is left. *)
Lemma decompressLoop_bound fuel : forall data n out k,
  StructPDFExtractor.decompressLoop host fuel data n = Ok (out, k) ->
  (n <= k <= n + fuel)%nat
  /\ decompressTimes host (k - n) data = Ok out
  /\ ((k < n + fuel)%nat -> isStillCompressed out = false).
Proof.
  induction fuel as [|fuel IH]; intros data n out k; simpl.
  - intros [= <- <-]. rewrite Nat.sub_diag. simpl. repeat split; lia.
  - destruct (isStillCompressed data) eqn:Hc; simpl.
    + destruct (decompress host data) as [data'|e] eqn:Hd; simpl; [|discriminate].
      intros H. apply IH in H as (Hk & Ht & Hs).
      replace (k - n)%nat with (S (k - S n)) by lia. simpl. rewrite Hd. simpl.
      repeat split; try lia; [exact Ht|]. intros ?. apply Hs. lia.
    + intros [= <- <-]. rewrite Nat.sub_diag. simpl. repeat split; try lia. done.
Qed.

(** A stored value without a header, read with any options, goes to
    the parser as it is. *)
Lemma parseStored_plain data options :
  isStillCompressed data = false ->
  StructPDFExtractor.parseStored host data options
  = JSON_parse host (TextDecoder_decode host data).
Proof. intros H. unfold StructPDFExtractor.parseStored. rewrite H. reflexivity. Qed.

(** With the reserved entry present, [extractDocument] is [parseStored]
    followed by [verify]. *)
Lemma extractDocument_stored pdfDoc options stored :
  storedBytes pdfDoc = Some stored ->
  StructPDFExtractor.extractDocument host pdfDoc options
  = match StructPDFExtractor.parseStored host stored options with
    | Throw error =>
        Ok (StructPDFExtractor.failure
              ("Failed to parse StructPDF data: " +:+ message error))
    | Ok payload =>
        let! verdict := StructPDFExtractor.verify host payload options in
        match verdict with
        | Some result => Ok result
        | None => Ok (succeeded payload)
        end
    end.
Proof.
  unfold storedBytes. intros H.
  unfold StructPDFExtractor.extractDocument, PDFHandler.hasStructPDFData.
  rewrite H. rewrite bool_decide_eq_true_2 by eauto. reflexivity.
Qed.

End Layers.

Section LayerCount.

Context (host : Host) (laws : CodecLaws host).

Lemma decompressLoop_one_layer f plain stored :
  encodeWith host f plain = Ok stored ->
  isStillCompressed plain = false ->
  StructPDFExtractor.decompressLoop host COMPRESSION_MAX_LAYERS stored 0
  = Ok (plain, 1%nat).
Proof.
  intros H1 Hplain.
  destruct (encodeWith_detected host laws _ _ _ H1) as [Hc1 Hd1].
  unfold COMPRESSION_MAX_LAYERS, COMPRESSION_SETTINGS_MAX_LAYERS. simpl.
  rewrite Hc1. simpl. rewrite Hd1. simpl. rewrite Hplain. reflexivity.
Qed.

Lemma decompressLoop_two_layers f1 f2 plain layer1 stored :
  encodeWith host f1 plain = Ok layer1 ->
  encodeWith host f2 layer1 = Ok stored ->
  isStillCompressed plain = false ->
  StructPDFExtractor.decompressLoop host COMPRESSION_MAX_LAYERS stored 0
  = Ok (plain, 2%nat).
Proof.
  intros H1 H2 Hplain.
  destruct (encodeWith_detected host laws _ _ _ H1) as [Hc1 Hd1].
  destruct (encodeWith_detected host laws _ _ _ H2) as [Hc2 Hd2].
  unfold COMPRESSION_MAX_LAYERS, COMPRESSION_SETTINGS_MAX_LAYERS. simpl.
  rewrite Hc2. simpl. rewrite Hd2. simpl.
  rewrite Hc1. simpl. rewrite Hd1. simpl.
  rewrite Hplain. reflexivity.
Qed.

(** Stored bytes the loop unwraps in a positive number of passes go to
    the parser unwrapped, unless decompression is switched off. *)
Lemma parseStored_layers stored plain k options :
  StructPDFExtractor.decompressLoop host COMPRESSION_MAX_LAYERS stored 0
  = Ok (plain, k) ->
  k <> 0%nat ->
  decompress_opt options <> Some false ->
  StructPDFExtractor.parseStored host stored options
  = JSON_parse host (TextDecoder_decode host plain).
Proof.
  intros Hloop Hk Hopt. unfold StructPDFExtractor.parseStored.
  assert (Hc : isStillCompressed stored = true).
  { destruct (isStillCompressed stored) eqn:E; [reflexivity|].
    unfold COMPRESSION_MAX_LAYERS, COMPRESSION_SETTINGS_MAX_LAYERS in Hloop.
    simpl in Hloop. rewrite E in Hloop. simpl in Hloop. congruence. }
  rewrite Hc, Hloop.
  destruct (decompress_opt options) as [[]|]; try reflexivity. congruence.
Qed.

End LayerCount.

Lemma RefHost_laws : CodecLaws RefHost.host.
Proof.
  constructor; simpl.
  - intros b c [= <-]. reflexivity.
  - intros b c [= <-]. reflexivity.
  - intros b. reflexivity.
  - intros b. reflexivity.
Qed.

Lemma ArchiveHost_laws : CodecLaws ArchiveHost.host.
Proof.
  constructor; simpl.
  - intros b c [= <-]. reflexivity.
  - intros b c [= <-]. reflexivity.
  - intros b. reflexivity.
  - intros b. reflexivity.
Qed.

Lemma documentWithAttachment_bounded : tableBounded documentWithAttachment.
Proof. apply (bool_decide_unpack _). vm_compute. exact I. Qed.

(** C4. Stored bytes that were compressed twice in succession (each
    pass in the gzip framing of the injector's codec or the zlib framing
    of the stream writer) are recovered by [extract] with default
    options: the loop detects a header and decompresses twice, finds no
    header on the plain bytes and stops, and the parsed envelope is
    returned with [success: true].  In general the loop runs [k <= 5]
    calls of [decompress], and when it stops before the fifth no
    [1F 8B] or [78 9C] header remains. *)
Theorem layered_decompression_recovers
    (host : Host) (laws : CodecLaws host) (pdfDoc : PDFDocument)
    (f1 f2 : Framing) (plain layer1 stored : bytes) (payload : JSONValue) :
  encodeWith host f1 plain = Ok layer1 ->
  encodeWith host f2 layer1 = Ok stored ->
  isStillCompressed plain = false ->
  JSON_parse host (TextDecoder_decode host plain) = Ok payload ->
  storedBytes pdfDoc = Some stored ->
  StructPDFExtractor.decompressLoop host COMPRESSION_MAX_LAYERS stored 0
  = Ok (plain, 2%nat)
  /\ StructPDFExtractor.extractDocument host pdfDoc defaultExtractionOptions
     = Ok (succeeded payload)
  /\ forall data out k,
       StructPDFExtractor.decompressLoop host COMPRESSION_MAX_LAYERS data 0
       = Ok (out, k) ->
       (k <= 5)%nat
       /\ decompressTimes host k data = Ok out
       /\ ((k < 5)%nat -> isStillCompressed out = false).
Proof.
  intros H1 H2 Hplain Hparse Hstored.
  pose proof (decompressLoop_two_layers host laws _ _ _ _ _ H1 H2 Hplain) as Hloop.
  split; [exact Hloop|]. split.
  - rewrite (extractDocument_stored host _ _ _ Hstored).
    rewrite (parseStored_layers host _ _ _ defaultExtractionOptions Hloop);
      [|discriminate|discriminate].
    rewrite Hparse. reflexivity.
  - intros data out k H.
    apply decompressLoop_bound in H as (Hk & Ht & Hs).
    rewrite Nat.sub_0_r in Ht.
    unfold COMPRESSION_MAX_LAYERS, COMPRESSION_SETTINGS_MAX_LAYERS in *.
    repeat split; [lia|exact Ht|exact Hs].
Qed.

Lemma layered_decompression_witness :
  storedBytes twiceCompressedDocument = Some (x78 :: x9c :: x1f :: x8b :: adaPlain)
  /\ StructPDFExtractor.extractDocument RefHost.host twiceCompressedDocument
       defaultExtractionOptions
     = Ok (succeeded adaEnvelope).
Proof.
  split; [vm_compute; reflexivity|].
  apply (layered_decompression_recovers RefHost.host RefHost_laws
           twiceCompressedDocument GzipFraming ZlibFraming
           adaPlain (x1f :: x8b :: adaPlain)
           (x78 :: x9c :: x1f :: x8b :: adaPlain) adaEnvelope);
    vm_compute; reflexivity.
Defined.

Section Injector.

Context (host : Host).

Lemma preparePayload_shape data options payload :
  StructPDFInjector.preparePayload host data options = Ok payload ->
  exists dom metadata,
    payload = JObject [("domain", JString dom);
                       ("version", JString (StructPDFInjector.extractVersion data));
                       ("schema", JString (schemaUrl options));
                       ("payload", data);
                       ("metadata", JObject metadata)]
    /\ dom = (if PDFHandler.truthy_string (domain options)
              then default "" (domain options) else "GENERIC")
    /\ assoc "compressed" metadata = Some (JBool false).
Proof.
  unfold StructPDFInjector.preparePayload.
  destruct (addIntegrity options).
  - destruct (crypto_createHash_hex host "sha256" _) as [hash|e]; simpl; [|discriminate].
    intros [= <-]. eexists _, _. repeat split.
  - simpl. intros [= <-]. eexists _, _. repeat split.
Qed.

Lemma compressedFlag_setCompressed data options payload :
  StructPDFInjector.preparePayload host data options = Ok payload ->
  compressedFlag payload = Some (JBool false)
  /\ compressedFlag (StructPDFInjector.setCompressed payload) = Some (JBool true)
  /\ payloadOf (StructPDFInjector.setCompressed payload) = Some data
  /\ payloadOf payload = Some data.
Proof.
  unfold StructPDFInjector.preparePayload.
  destruct (addIntegrity options).
  - destruct (crypto_createHash_hex host "sha256" _) as [hash|e]; simpl; [|discriminate].
    intros [= <-]. repeat split.
  - simpl. intros [= <-]. repeat split.
Qed.

End Injector.

Section Extractor.

Context (host : Host).

Lemma failure_isFailure msg : isFailure (StructPDFExtractor.failure msg).
Proof. split; [reflexivity|]. by exists msg. Qed.

Lemma failureWithData_isFailure payload msg :
  isFailure (StructPDFExtractor.failureWithData payload msg).
Proof. split; [reflexivity|]. by exists msg. Qed.

(** A verdict of [verify] is always a failure that carries the decoded
    envelope. *)
Lemma verify_verdict payload options r :
  StructPDFExtractor.verify host payload options = Ok (Some r) ->
  exists reason, r = StructPDFExtractor.failureWithData payload reason.
Proof.
  unfold StructPDFExtractor.verify.
  destruct (verifyIntegrity options); cbn [negb]; [|discriminate].
  destruct (get payload "metadata") as [metadata|e]; cbn [Js.bind]; [|discriminate].
  destruct (truthy (get_opt metadata "integrity")); cbn [negb]; [|discriminate].
  match goal with |- context [existsb ?f SUPPORTED_HASH_ALGORITHMS] =>
    destruct (existsb f SUPPORTED_HASH_ALGORITHMS) end; cbn [negb].
  - destruct (get payload "payload") as [pp|e]; cbn [Js.bind Js.try_return].
    + match goal with |- context [Js.bind ?m _] => destruct m as [hash|e] end;
        cbn [Js.bind Js.try_return].
      * destruct (strict_eq_string hash _); cbn [negb]; [discriminate|].
        intros [= <-]. eauto.
      * intros [= <-]. eauto.
    + intros [= <-]. eauto.
  - intros [= <-]. eauto.
Qed.

Lemma extractDocument_shape pdfDoc options r :
  StructPDFExtractor.extractDocument host pdfDoc options = Ok r ->
  isSuccess r \/ isFailure r.
Proof.
  unfold StructPDFExtractor.extractDocument.
  destruct (PDFHandler.hasStructPDFData pdfDoc); simpl.
  - destruct (_ !! _) as [stored|].
    + destruct (StructPDFExtractor.parseStored host stored options) as [payload|e].
      * destruct (StructPDFExtractor.verify host payload options)
          as [[verdict|]|e] eqn:Hv; simpl; try discriminate.
        -- intros [= <-]. right.
           apply verify_verdict in Hv as [reason ->].
           apply failureWithData_isFailure.
        -- intros [= <-]. left. repeat split. by exists payload.
      * intros [= <-]. right. apply failure_isFailure.
    + intros [= <-]. right. apply failure_isFailure.
  - intros [= <-]. right. apply failure_isFailure.
Qed.

End Extractor.

(** C6. With [verifyIntegrity: true] on an envelope that carries an
    integrity block, an algorithm outside the supported list is
    rejected with the "Unsupported hash algorithm" reason before any
    hash is computed (whatever the host's digest and the stored hash
    are), and a recomputed hash that differs from the stored one gives
    "Integrity check failed"; both results have [success: false] and
    [data] set to the decoded envelope. *)
Theorem integrity_failure_yields_data
    (host : Host) (pdfDoc : PDFDocument) (options : ExtractionOptions)
    (stored : bytes) (payload : JSONValue) (metadata : option JSONValue) :
  storedBytes pdfDoc = Some stored ->
  StructPDFExtractor.parseStored host stored options = Ok payload ->
  verifyIntegrity options = true ->
  get payload "metadata" = Ok metadata ->
  truthy (get_opt metadata "integrity") = true ->
  let integrity := get_opt metadata "integrity" in
  let algorithm := get_opt integrity "algorithm" in
  let supported :=
    existsb (fun a => strict_eq_string a algorithm) SUPPORTED_HASH_ALGORITHMS in
  (supported = false ->
   StructPDFExtractor.extractDocument host pdfDoc options
   = Ok (mkExtractionResult false (Some payload)
           (Some ["Unsupported hash algorithm: " +:+ to_String_opt algorithm
                  +:+ ". Supported: md5, sha1, sha256, sha384, sha512"])
           None))
  /\ (supported = true ->
      forall v hash,
        get payload "payload" = Ok (Some v) ->
        crypto_createHash_hex host (to_String_opt algorithm) (JSON_stringify host v)
        = Ok hash ->
        strict_eq_string hash (get_opt integrity "hash") = false ->
        StructPDFExtractor.extractDocument host pdfDoc options
        = Ok (mkExtractionResult false (Some payload)
                (Some ["Integrity check failed: data may have been modified"])
                None)).
Proof.
  intros Hstored Hparse Hv Hm Ht integrity algorithm supported.
  rewrite (extractDocument_stored host _ _ _ Hstored), Hparse.
  unfold StructPDFExtractor.verify. rewrite Hv, Hm. cbn [negb Js.bind].
  rewrite Ht. cbn [negb]. fold integrity. fold algorithm. fold supported.
  split.
  - intros ->. reflexivity.
  - intros -> v hash Hp Hh Hneq. cbn [negb]. rewrite Hp. cbn [Js.bind].
    rewrite Hh. cbn [Js.bind]. rewrite Hneq. reflexivity.
Qed.

Lemma integrity_failure_witness :
  StructPDFExtractor.extractDocument RefHost.host
    (documentStoring (envelopeWithIntegrity "crc32" "00")) verifyingOptions
  = Ok (mkExtractionResult false (Some (envelopeWithIntegrity "crc32" "00"))
          (Some ["Unsupported hash algorithm: crc32. Supported: md5, sha1, sha256, sha384, sha512"])
          None)
  /\ StructPDFExtractor.extractDocument RefHost.host
       (documentStoring (envelopeWithIntegrity "sha256" "00")) verifyingOptions
     = Ok (mkExtractionResult false (Some (envelopeWithIntegrity "sha256" "00"))
             (Some ["Integrity check failed: data may have been modified"])
             None).
Proof.
  split.
  - refine (proj1 (integrity_failure_yields_data RefHost.host
                     (documentStoring (envelopeWithIntegrity "crc32" "00"))
                     verifyingOptions
                     (RefHost.deflate
                        (list_byte_of_string
                           (RefHost.print (envelopeWithIntegrity "crc32" "00"))))
                     (envelopeWithIntegrity "crc32" "00")
                     (Some (metadataWithIntegrity "crc32" "00"))
                     _ _ eq_refl _ _) _);
      vm_compute; reflexivity.
  - refine (proj2 (integrity_failure_yields_data RefHost.host
                     (documentStoring (envelopeWithIntegrity "sha256" "00"))
                     verifyingOptions
                     (RefHost.deflate
                        (list_byte_of_string
                           (RefHost.print (envelopeWithIntegrity "sha256" "00"))))
                     (envelopeWithIntegrity "sha256" "00")
                     (Some (metadataWithIntegrity "sha256" "00"))
                     _ _ eq_refl _ _) _ adaPayload "sha25614" _ _ _);
      vm_compute; reflexivity.
Defined.

(** ** The walk over the pair array *)

(** A typed lookup that throws ends the walk: the pairs after it are
    never read. *)
Lemma walkNames_aborts ctx slot_i spec rest files e :
  lookup_typed is_PDFDict "PDFDict" ctx (Some spec) = Throw e ->
  PDFHandler.walkNames ctx (slot_i :: spec :: rest) files = (files, Some e).
Proof. intros H. simpl. rewrite H. reflexivity. Qed.

Lemma walkNames_aborts_EF ctx slot_i spec fileSpecDict rest files e :
  lookup_typed is_PDFDict "PDFDict" ctx (Some spec) = Ok (PDFDict fileSpecDict) ->
  Dict_lookup_typed is_PDFDict "PDFDict" ctx fileSpecDict "EF" = Throw e ->
  PDFHandler.walkNames ctx (slot_i :: spec :: rest) files = (files, Some e).
Proof. intros H1 H2. simpl. rewrite H1, H2. reflexivity. Qed.

(** C9 (the code at the failing input). The pair array holds a file
    specification without [EF] and, after it, the well-formed pair of
    the reserved name.  [fileSpec.lookup(PDFName.of('EF'), PDFDict)]
    throws on the first pair, the handler around the whole walk logs
    the error and returns the map as it stands: the later entry is not
    listed and the payload is not detected.  With the two pairs in the
    other order the payload is found. *)
Theorem walk_stops_at_unresolvable_pair :
  PDFHandler.getEmbeddedFiles_run brokenThenPayload
  = (∅, ["Error reading embedded files: Expected instance of PDFDict, but got instance of undefined"])
  /\ PDFHandler.hasStructPDFData brokenThenPayload = false
  /\ StructPDFExtractor.extractDocument RefHost.host brokenThenPayload
       defaultExtractionOptions
     = Ok (StructPDFExtractor.failure "No StructPDF data found in PDF")
  /\ PDFHandler.hasStructPDFData payloadThenBroken = true
  /\ storedBytes payloadThenBroken = Some (RefHost.deflate adaStored).
Proof. repeat split; vm_compute; reflexivity. Qed.

(** C8 (the code at the failing input). [getKeywords()] returns the
    keyword field as one string, and [[...existingKeywords, newKeyword]]
    spreads that string into its characters: after [addMetadata] (and
    after [addStructPDFMetadata]) the tokens [report] and [2024] are
    gone from the keyword list. *)
Theorem addMetadata_splits_existing_keywords :
  getKeywords documentWithKeywords = Some "report 2024"
  /\ getKeywords (PDFHandler.addMetadata documentWithKeywords HAS_STRUCTPDF "true")
     = Some "r e p o r t   2 0 2 4 HasStructPDF:true"
  /\ hasToken (getKeywords
                 (PDFHandler.addMetadata documentWithKeywords HAS_STRUCTPDF "true"))
       "report" = false
  /\ getKeywords (PDFHandler.addStructPDFMetadata documentWithKeywords "RESUME"
                    (Some "STRUCTCV") None)
     = Some "r e p o r t   2 0 2 4 StructPDF:true StructPDF-Domain:RESUME StructPDF-SpecID:STRUCTCV"
  /\ hasToken (getKeywords
                 (PDFHandler.addStructPDFMetadata documentWithKeywords "RESUME"
                    (Some "STRUCTCV") None))
       "2024" = false.
Proof. repeat split; vm_compute; reflexivity. Qed.

(** C1 (the code at the failing input). [brokenOnly] has no payload;
    the injection succeeds and appends the payload's pair after the
    unresolvable one; the extraction from the result then stops its
    walk at the first pair and reports that no payload was found. *)
Theorem round_trip_fails_after_unresolvable_pair :
  PDFHandler.hasStructPDFData brokenOnly = false
  /\ exists pdfDoc payload,
       StructPDFInjector.injectDocument RefHost.host brokenOnly adaPayload
         (exampleOptions false false false) = Ok (pdfDoc, payload, false)
       /\ payloadOf payload = Some adaPayload
       /\ StructPDFExtractor.extractDocument RefHost.host pdfDoc
            defaultExtractionOptions
          = Ok (StructPDFExtractor.failure "No StructPDF data found in PDF").
Proof.
  split; [vm_compute; reflexivity|].
  destruct (StructPDFInjector.injectDocument RefHost.host brokenOnly adaPayload
              (exampleOptions false false false)) as [[[pdfDoc payload] wc]|e] eqn:H;
    vm_compute in H; [|discriminate].
  injection H as <- <- <-.
  eexists _, _. split; [reflexivity|]. split; vm_compute; reflexivity.
Qed.

(** C2 (the code at the failing input). After a first injection into
    [brokenOnly] the document carries the payload's pair, behind the
    unresolvable one.  The guard [handler.hasStructPDFData()] does not
    see it: a second injection without [overwrite] succeeds and replaces
    the entry instead of failing with "already contains"; with
    [overwrite: true] it succeeds too, and the extraction that follows
    finds no payload.  The pair array of the first output does hold the
    reserved name, and so does the array after the second injection. *)
Theorem overwrite_guard_misses_entry_after_unresolvable_pair :
  is_Ok firstInjection = true
  /\ is_Ok (secondInjection false) = true
  /\ is_Ok (secondInjection true) = true
  /\ extractedAfter (secondInjection true)
     = Some (Ok (StructPDFExtractor.failure "No StructPDF data found in PDF"))
  /\ pairNamesOf <$> injected firstInjection
     = Some ["(notes.txt)"; "(structpdf.json)"]
  /\ PDFHandler.hasStructPDFData <$> injected firstInjection = Some false
  /\ pairNamesOf <$> injected (secondInjection false)
     = Some ["(notes.txt)"; "(structpdf.json)"]
  /\ extractedAfter (secondInjection false)
     = Some (Ok (StructPDFExtractor.failure "No StructPDF data found in PDF")).
Proof. repeat split; vm_compute; reflexivity. Qed.

(** ** The keyword field *)

Section Info.

Context (host : Host).

Lemma info_update pdfDoc pl f : info (Place.update pdfDoc pl f) = info pdfDoc.
Proof.
  unfold Place.update. destruct (Place.base pl); [reflexivity|].
  destruct (_ !! _) as [[]|]; reflexivity.
Qed.

Lemma info_register_in pdfDoc o :
  info (fst (Place.register_in pdfDoc o)) = info pdfDoc.
Proof. reflexivity. Qed.

Lemma info_getOrCreate pdfDoc parent key initial :
  info (fst (EmbeddedFileManager.getOrCreate pdfDoc parent key initial)) = info pdfDoc.
Proof.
  unfold EmbeddedFileManager.getOrCreate.
  assert (Hc : info (fst (let (pdfDoc0, ref) := Place.register_in pdfDoc (PDFDict initial) in
                          (Place.set pdfDoc0 parent key (PDFRef ref),
                           Place.mk (Place.AtObject ref) []))) = info pdfDoc).
  { simpl. unfold Place.set. by rewrite info_update. }
  destruct (Place.read pdfDoc parent) as [parentDict|]; [|exact Hc].
  destruct (Dict_lookup_typed _ _ _ _ _) as [[?|]|?]; [reflexivity|exact Hc|exact Hc].
Qed.

Lemma info_embedFile pdfDoc fileName fileData mimeType :
  info (EmbeddedFileManager.embedFile host pdfDoc fileName fileData mimeType)
  = info pdfDoc.
Proof.
  unfold EmbeddedFileManager.embedFile.
  destruct (Place.register_in pdfDoc _) as [d1 r1] eqn:E1.
  destruct (Place.register_in d1 _) as [d2 r2] eqn:E2.
  destruct (EmbeddedFileManager.getOrCreate d2 _ _ _) as [d3 names] eqn:E3.
  destruct (EmbeddedFileManager.getOrCreate d3 _ _ _) as [d4 ef] eqn:E4.
  unfold Place.set. rewrite info_update.
  change d4 with (fst (d4, ef)). rewrite <- E4, info_getOrCreate.
  change d3 with (fst (d3, names)). rewrite <- E3, info_getOrCreate.
  change d2 with (fst (d2, r2)). rewrite <- E2, info_register_in.
  change d1 with (fst (d1, r1)). rewrite <- E1, info_register_in.
  reflexivity.
Qed.

Lemma info_removeFile pdfDoc fileName :
  info (fst (EmbeddedFileManager.removeFile pdfDoc fileName)) = info pdfDoc.
Proof.
  unfold EmbeddedFileManager.removeFile.
  repeat match goal with
         | |- context [match ?x with _ => _ end] => destruct x; try reflexivity
         end.
  simpl. unfold Place.set. by rewrite info_update.
Qed.

(** [addMetadata] reads and writes the Info entries only. *)
Lemma info_addMetadata d1 d2 key value :
  info d1 = info d2 ->
  info (PDFHandler.addMetadata d1 key value) = info (PDFHandler.addMetadata d2 key value).
Proof.
  destruct d1, d2. unfold info. simpl. intros [= -> ->].
  unfold PDFHandler.addMetadata. simpl.
  destruct (PDFHandler.truthy_string _); reflexivity.
Qed.

(** The token written by [addMetadata] is the last element of the list
    handed to [setKeywords]. *)
Lemma addMetadata_last pdfDoc key value :
  exists written,
    getKeywords (PDFHandler.addMetadata pdfDoc key value)
    = Some (join " " (written ++ [key +:+ ":" +:+ value])).
Proof.
  unfold PDFHandler.addMetadata, getKeywords, setKeywords.
  destruct (negb (PDFHandler.truthy_string (getCreator pdfDoc))); cbn [Keywords setCreator].
  all: destruct (Keywords pdfDoc) as [existing|]; [|exists []; reflexivity].
  all: destruct (PDFHandler.truthy_string (Some existing));
    [exists (spread existing); reflexivity|exists []; reflexivity].
Qed.

End Info.

Section InjectDocument.

Context (host : Host).

Lemma serializePayload_Ok payload options payload' dataBytes willCompress :
  StructPDFInjector.serializePayload host payload options
  = Ok (payload', dataBytes, willCompress) ->
  (willCompress = false /\ payload' = payload
   /\ dataBytes = TextEncoder_encode host (JSON_stringify_indent2 host payload))
  \/ (willCompress = true /\ payload' = StructPDFInjector.setCompressed payload
      /\ compress host (TextEncoder_encode host (JSON_stringify_indent2 host payload'))
         = Ok dataBytes).
Proof.
  unfold StructPDFInjector.serializePayload.
  destruct (compress_opt options && _).
  - destruct (compress host _) as [c|e] eqn:Hc; simpl; [|discriminate].
    intros [= <- <- <-]. right. auto.
  - simpl. intros [= <- <- <-]. left. auto.
Qed.

Lemma domainOf_prepared data options payload payload' dataBytes willCompress :
  StructPDFInjector.preparePayload host data options = Ok payload ->
  StructPDFInjector.serializePayload host payload options
  = Ok (payload', dataBytes, willCompress) ->
  StructPDFInjector.domainOf payload' = domainOrDefault options
  /\ payloadOf payload' = Some data.
Proof.
  intros Hp Hs.
  destruct (compressedFlag_setCompressed host _ _ _ Hp) as (_ & _ & Hd1 & Hd2).
  apply preparePayload_shape in Hp as (dom & metadata & -> & -> & _).
  apply serializePayload_Ok in Hs as [(_ & -> & _)|(_ & -> & _)];
    (split; [reflexivity|assumption]).
Qed.

(** What a successful [injectDocument] did. *)
Lemma injectDocument_Ok pdfDoc data options pdfDoc' payload' willCompress :
  StructPDFInjector.injectDocument host pdfDoc data options
  = Ok (pdfDoc', payload', willCompress) ->
  exists payload dataBytes,
    (overwrite options = false -> PDFHandler.hasStructPDFData pdfDoc = false)
    /\ StructPDFInjector.preparePayload host data options = Ok payload
    /\ StructPDFInjector.serializePayload host payload options
       = Ok (payload', dataBytes, willCompress)
    /\ Z.of_nat (length dataBytes) <= MAX_PAYLOAD_SIZE
    /\ pdfDoc' = finishInjection host pdfDoc data options dataBytes.
Proof.
  unfold StructPDFInjector.injectDocument.
  destruct (negb (overwrite options) && PDFHandler.hasStructPDFData pdfDoc) eqn:Hg;
    [discriminate|].
  destruct (StructPDFInjector.preparePayload host data options) as [payload|e] eqn:Hp;
    cbn [Js.bind]; [|discriminate].
  destruct (StructPDFInjector.serializePayload host payload options)
    as [[[p' dataBytes] wc]|e] eqn:Hs; cbn [Js.bind]; [|discriminate].
  destruct (Z.of_nat (length dataBytes) >? MAX_PAYLOAD_SIZE) eqn:Hsize; [discriminate|].
  intros [= <- <- <-].
  exists payload, dataBytes. repeat split; try assumption.
  - intros Ho. rewrite Ho in Hg. exact Hg.
  - rewrite Z.gtb_ltb in Hsize. apply Z.ltb_ge in Hsize. exact Hsize.
  - unfold finishInjection.
    by rewrite <- (proj1 (domainOf_prepared _ _ _ _ _ _ Hp Hs)).
Qed.

End InjectDocument.


(** ** Injection into a document without a name tree *)

Section FreshDocument.

Context (host : Host).

Lemma assoc_assoc_set_eq {A : Type} (k : string) (v : A) l :
  assoc k (assoc_set k v l) = Some v.
Proof.
  induction l as [|[k' v'] l IH]; simpl.
  - by rewrite String.eqb_refl.
  - destruct (String.eqb k k') eqn:E; simpl; rewrite ?String.eqb_refl, ?E; auto.
Qed.

Lemma assoc_assoc_set_ne {A : Type} (k k' : string) (v : A) l :
  k' <> k -> assoc k' (assoc_set k v l) = assoc k' l.
Proof.
  intros Hne. induction l as [|[k0 v0] l IH]; simpl.
  - destruct (String.eqb k' k) eqn:E; [|reflexivity].
    apply String.eqb_eq in E. contradiction.
  - destruct (String.eqb k k0) eqn:E; simpl.
    + apply String.eqb_eq in E. subst k0.
      destruct (String.eqb k' k) eqn:E'; [|reflexivity].
      apply String.eqb_eq in E'. contradiction.
    + by rewrite IH.
Qed.

Lemma register_in_eq store L cat kw cr o :
  Place.register_in (mkDocument (mkContext store L) cat kw cr) o
  = (mkDocument (mkContext (<[S L := o]> store) (S L)) cat kw cr, S L).
Proof. reflexivity. Qed.

Lemma set_root ctx cat kw cr key value :
  Place.set (mkDocument ctx cat kw cr) rootPlace key value
  = mkDocument ctx (assoc_set key value cat) kw cr.
Proof. reflexivity. Qed.

Lemma set_object store L cat kw cr n d key value :
  store !! n = Some (PDFDict d) ->
  Place.set (mkDocument (mkContext store L) cat kw cr) (objectPlace n) key value
  = mkDocument (mkContext (<[n := PDFDict (assoc_set key value d)]> store) L) cat kw cr.
Proof.
  intros H. unfold Place.set, Place.update. cbn [Place.base Place.path context
    indirectObjects]. rewrite H. reflexivity.
Qed.

Lemma getOrCreate_create_root store L cat kw cr key initial :
  assoc key cat = None ->
  EmbeddedFileManager.getOrCreate (mkDocument (mkContext store L) cat kw cr)
    rootPlace key initial
  = (mkDocument (mkContext (<[S L := PDFDict initial]> store) (S L))
       (assoc_set key (PDFRef (S L)) cat) kw cr,
     objectPlace (S L)).
Proof.
  intros H. unfold EmbeddedFileManager.getOrCreate.
  cbn [Place.read Place.base Place.path Place.descend catalog context].
  unfold Dict_lookup_typed, Dict_get. rewrite H. reflexivity.
Qed.

Lemma getOrCreate_create_object store L cat kw cr n d key initial :
  store !! n = Some (PDFDict d) ->
  assoc key d = None ->
  n <> S L ->
  EmbeddedFileManager.getOrCreate (mkDocument (mkContext store L) cat kw cr)
    (objectPlace n) key initial
  = (mkDocument
       (mkContext (<[n := PDFDict (assoc_set key (PDFRef (S L)) d)]>
                     (<[S L := PDFDict initial]> store)) (S L))
       cat kw cr,
     objectPlace (S L)).
Proof.
  intros Hn Hk Hne. unfold EmbeddedFileManager.getOrCreate.
  cbn [Place.read Place.base Place.path Place.descend catalog context indirectObjects].
  rewrite Hn. cbn [Place.descend].
  unfold Dict_lookup_typed, Dict_get. rewrite Hk. cbn [lookup lookup_typed Js.bind].
  rewrite register_in_eq. rewrite (set_object _ _ _ _ _ n d); [reflexivity|].
  by rewrite lookup_insert_ne.
Qed.

Lemma getOrCreate_existing store L cat kw cr parent parentDict key initial m x :
  Place.read (mkDocument (mkContext store L) cat kw cr) parent = Some parentDict ->
  assoc key parentDict = Some (PDFRef m) ->
  store !! m = Some (PDFDict x) ->
  EmbeddedFileManager.getOrCreate (mkDocument (mkContext store L) cat kw cr)
    parent key initial
  = (mkDocument (mkContext store L) cat kw cr, objectPlace m).
Proof.
  intros Hr Hk Hm. unfold EmbeddedFileManager.getOrCreate. rewrite Hr.
  unfold Dict_lookup_typed, Dict_get, lookup_typed, Pdf.lookup. rewrite Hk.
  cbn [context indirectObjects]. rewrite Hm. cbn [is_PDFDict Js.bind].
  unfold Place.child. rewrite Hk. reflexivity.
Qed.

Lemma namesArrayAt_object store L cat kw cr n a :
  store !! n = Some (PDFDict [("Names", PDFArray a)]) ->
  EmbeddedFileManager.namesArrayAt (mkDocument (mkContext store L) cat kw cr)
    (objectPlace n) = a.
Proof.
  intros H. unfold EmbeddedFileManager.namesArrayAt.
  cbn [Place.read Place.base Place.path context indirectObjects]. rewrite H.
  reflexivity.
Qed.

Lemma embedFile_fresh pdfDoc fileName fileData mimeType :
  assoc "Names" (catalog pdfDoc) = None ->
  EmbeddedFileManager.embedFile host pdfDoc fileName fileData mimeType
  = mkDocument (freshNameTree host (context pdfDoc) fileName fileData mimeType)
      (assoc_set "Names" (PDFRef (3 + largestObjectNumber (context pdfDoc)))
                 (catalog pdfDoc))
      (Keywords pdfDoc) (Creator pdfDoc).
Proof.
  intros Hn. destruct pdfDoc as [[store L] cat kw cr].
  cbn [catalog context largestObjectNumber Keywords Creator] in *.
  unfold EmbeddedFileManager.embedFile.
  rewrite !register_in_eq.
  rewrite (getOrCreate_create_root _ _ _ _ _ _ _ Hn).
  erewrite getOrCreate_create_object;
    [|by rewrite lookup_insert_eq|reflexivity|lia].
  erewrite namesArrayAt_object;
    [|rewrite lookup_insert_ne by lia; by rewrite lookup_insert_eq].
  cbn [EmbeddedFileManager.rewriteNames fst app].
  erewrite set_object;
    [|rewrite lookup_insert_ne by lia; by rewrite lookup_insert_eq].
  reflexivity.
Qed.

(** The walk over a name tree that holds the single pair written by
    [embedFile]. *)
Lemma getEmbeddedFiles_run_single store L cat kw cr r1 r2 r3 r4 fileName sd contents :
  assoc "Names" cat = Some (PDFRef r3) ->
  store !! r3 = Some (PDFDict [("EmbeddedFiles", PDFRef r4)]) ->
  store !! r4 = Some (PDFDict [("Names", PDFArray [PDFString fileName; PDFRef r2])]) ->
  store !! r2 = Some (EmbeddedFileManager.fileSpec fileName r1) ->
  store !! r1 = Some (PDFRawStream sd contents) ->
  PDFHandler.getEmbeddedFiles_run (mkDocument (mkContext store L) cat kw cr)
  = ({[ PDFHandler.embeddedName fileName := contents ]}, []).
Proof.
  intros Hc H3 H4 H2 H1.
  unfold PDFHandler.getEmbeddedFiles_run.
  cbn [context catalog].
  unfold Dict_lookup_typed at 1, Dict_get, lookup_typed, Pdf.lookup.
  rewrite Hc. cbn [indirectObjects]. rewrite H3. cbn [is_PDFDict Js.bind].
  unfold Dict_lookup_typed at 1, Dict_get, lookup_typed, Pdf.lookup.
  cbn [assoc String.eqb Ascii.eqb Bool.eqb indirectObjects].
  rewrite H4. cbn [is_PDFDict Js.bind].
  unfold Dict_lookup_typed at 1, Dict_get, lookup_typed, Pdf.lookup.
  cbn [assoc String.eqb Ascii.eqb Bool.eqb is_PDFArray Js.bind].
  cbn [PDFHandler.walkNames head].
  unfold lookup_typed, Pdf.lookup. cbn [indirectObjects]. rewrite H2.
  unfold EmbeddedFileManager.fileSpec. cbn [is_PDFDict].
  unfold Dict_lookup_typed, Dict_lookup, Dict_get, lookup_typed, Pdf.lookup.
  cbn [assoc String.eqb Ascii.eqb Bool.eqb is_PDFDict Js.bind indirectObjects].
  rewrite H1. reflexivity.
Qed.

Lemma storedBytes_embedFile_fresh pdfDoc fileData :
  assoc "Names" (catalog pdfDoc) = None ->
  storedBytes (EmbeddedFileManager.embedFile host pdfDoc EMBEDDED_FILE_NAME fileData
                 MIME_TYPE)
  = Some (pako_deflate host fileData).
Proof.
  intros Hn. rewrite (embedFile_fresh _ _ _ _ Hn).
  unfold storedBytes, PDFHandler.getEmbeddedFiles, freshNameTree.
  erewrite getEmbeddedFiles_run_single.
  - cbn [fst]. apply lookup_singleton_eq.
  - apply assoc_assoc_set_eq.
  - rewrite lookup_insert_ne by lia. by rewrite lookup_insert_eq.
  - by rewrite lookup_insert_eq.
  - rewrite !lookup_insert_ne by lia. by rewrite lookup_insert_eq.
  - rewrite !lookup_insert_ne by lia. by rewrite lookup_insert_eq.
Qed.

End FreshDocument.

(** ** Round trip *)

Section RoundTrip.

Context (host : Host) (laws : CodecLaws host).

(** The keyword writes leave the object graph alone. *)
Lemma graph_addMetadata pdfDoc key value :
  context (PDFHandler.addMetadata pdfDoc key value) = context pdfDoc
  /\ catalog (PDFHandler.addMetadata pdfDoc key value) = catalog pdfDoc.
Proof.
  unfold PDFHandler.addMetadata.
  destruct (negb _); split; reflexivity.
Qed.

Lemma storedBytes_graph d1 d2 :
  context d1 = context d2 -> catalog d1 = catalog d2 -> storedBytes d1 = storedBytes d2.
Proof.
  intros Hc Hk. unfold storedBytes, PDFHandler.getEmbeddedFiles,
    PDFHandler.getEmbeddedFiles_run. by rewrite Hc, Hk.
Qed.

Lemma storedBytes_addMetadata pdfDoc key value :
  storedBytes (PDFHandler.addMetadata pdfDoc key value) = storedBytes pdfDoc.
Proof. apply storedBytes_graph; apply graph_addMetadata. Qed.

Lemma hasStructPDFData_stored pdfDoc :
  PDFHandler.hasStructPDFData pdfDoc = bool_decide (is_Some (storedBytes pdfDoc)).
Proof. reflexivity. Qed.

Lemma no_name_tree pdfDoc :
  assoc "Names" (catalog pdfDoc) = None ->
  storedBytes pdfDoc = None
  /\ EmbeddedFileManager.removeFile pdfDoc EMBEDDED_FILE_NAME = (pdfDoc, false).
Proof.
  intros Hn. split.
  - unfold storedBytes, PDFHandler.getEmbeddedFiles, PDFHandler.getEmbeddedFiles_run,
      Dict_lookup_typed, Dict_get. rewrite Hn. reflexivity.
  - unfold EmbeddedFileManager.removeFile, Dict_lookup_typed, Dict_get.
    rewrite Hn. reflexivity.
Qed.

(** What the extractor reads back from bytes the injector serialized
    and the stream writer deflated. *)
Lemma parseStored_injected payload0 options payload dataBytes willCompress xoptions :
  StructPDFInjector.serializePayload host payload0 options
  = Ok (payload, dataBytes, willCompress) ->
  jsonFaithful host payload ->
  decompress_opt xoptions <> Some false ->
  StructPDFExtractor.parseStored host (pako_deflate host dataBytes) xoptions
  = Ok payload.
Proof.
  intros Hs [Hparse Hplain] Hopt.
  apply serializePayload_Ok in Hs as [(_ & Hsame & ->)|(_ & _ & Hc)].
  - subst payload0.
    rewrite (parseStored_layers host _
               (TextEncoder_encode host (JSON_stringify_indent2 host payload))
               1%nat xoptions);
      [exact Hparse| |discriminate|exact Hopt].
    by apply (decompressLoop_one_layer host laws ZlibFraming).
  - rewrite (parseStored_layers host _
               (TextEncoder_encode host (JSON_stringify_indent2 host payload))
               2%nat xoptions);
      [exact Hparse| |discriminate|exact Hopt].
    by apply (decompressLoop_two_layers host laws GzipFraming ZlibFraming _ dataBytes).
Qed.

(** X1. Injection into a document whose catalog has no [Names] entry,
    followed by extraction with default options, returns the envelope
    whose [payload] is the injected value, for every combination of
    [compress], [addIntegrity] and [overwrite]: the host's codecs obey
    [CodecLaws], the serialized envelope reads back ([jsonFaithful]) and
    the bytes to embed are within the size limit. *)
Theorem round_trip_without_name_tree pdfDoc data options payload0 payload dataBytes
    willCompress :
  assoc "Names" (catalog pdfDoc) = None ->
  StructPDFInjector.preparePayload host data options = Ok payload0 ->
  StructPDFInjector.serializePayload host payload0 options
  = Ok (payload, dataBytes, willCompress) ->
  Z.of_nat (length dataBytes) <= MAX_PAYLOAD_SIZE ->
  jsonFaithful host payload ->
  StructPDFInjector.injectDocument host pdfDoc data options
  = Ok (finishInjection host pdfDoc data options dataBytes, payload, willCompress)
  /\ StructPDFExtractor.extractDocument host
       (finishInjection host pdfDoc data options dataBytes) defaultExtractionOptions
     = Ok (succeeded payload)
  /\ payloadOf payload = Some data.
Proof.
  intros Hn Hp Hs Hsize Hj.
  destruct (no_name_tree _ Hn) as [Hnone Hrm].
  destruct (domainOf_prepared host _ _ _ _ _ _ Hp Hs) as [Hdom Hpay].
  split; [|split; [|exact Hpay]].
  - unfold StructPDFInjector.injectDocument.
    rewrite hasStructPDFData_stored, Hnone, andb_false_r, Hp. cbn [Js.bind].
    rewrite Hs. cbn [Js.bind].
    destruct (Z.gtb_spec (Z.of_nat (length dataBytes)) MAX_PAYLOAD_SIZE) as [?|_]; [lia|].
    unfold finishInjection. by rewrite Hdom.
  - assert (Hst : storedBytes (finishInjection host pdfDoc data options dataBytes)
                  = Some (pako_deflate host dataBytes)).
    { unfold finishInjection. rewrite !storedBytes_addMetadata.
      destruct (overwrite options); [rewrite Hrm; cbn [fst]|];
        by apply storedBytes_embedFile_fresh. }
    rewrite (extractDocument_stored host _ _ _ Hst).
    rewrite (parseStored_injected _ _ _ _ _ defaultExtractionOptions Hs Hj);
      [reflexivity|discriminate].
Qed.

End RoundTrip.

(** ** A second injection onto the output of a first *)

Section SecondInjection.

Context (host : Host) (laws : CodecLaws host).

(** The object graph a first injection leaves on a document without a
    name tree. *)
Lemma finishInjection_fresh pdfDoc data options dataBytes :
  assoc "Names" (catalog pdfDoc) = None ->
  context (finishInjection host pdfDoc data options dataBytes)
  = freshNameTree host (context pdfDoc) EMBEDDED_FILE_NAME dataBytes MIME_TYPE
  /\ catalog (finishInjection host pdfDoc data options dataBytes)
     = assoc_set "Names" (PDFRef (3 + largestObjectNumber (context pdfDoc)))
         (catalog pdfDoc).
Proof.
  intros Hn. unfold finishInjection.
  rewrite !(proj1 (graph_addMetadata _ _ _)), !(proj2 (graph_addMetadata _ _ _)).
  replace (if overwrite options
           then fst (EmbeddedFileManager.removeFile pdfDoc EMBEDDED_FILE_NAME)
           else pdfDoc) with pdfDoc
    by (destruct (overwrite options); [by rewrite (proj2 (no_name_tree _ Hn))|done]).
  rewrite (embedFile_fresh host _ _ _ _ Hn). split; reflexivity.
Qed.

(** [removeFile] on a name tree that holds the single pair of the
    reserved name. *)
Lemma removeFile_single store L cat kw cr r2 r3 r4 fileName :
  assoc "Names" cat = Some (PDFRef r3) ->
  store !! r3 = Some (PDFDict [("EmbeddedFiles", PDFRef r4)]) ->
  store !! r4 = Some (PDFDict [("Names", PDFArray [PDFString fileName; PDFRef r2])]) ->
  EmbeddedFileManager.removeFile (mkDocument (mkContext store L) cat kw cr) fileName
  = (mkDocument
       (mkContext (<[r4 := PDFDict [("Names", PDFArray [])]]> store) L) cat kw cr,
     true).
Proof.
  intros Hc H3 H4.
  unfold EmbeddedFileManager.removeFile. cbn [context catalog].
  unfold Dict_lookup_typed at 1, Dict_get, lookup_typed, Pdf.lookup.
  rewrite Hc. cbn [indirectObjects]. rewrite H3. cbn [is_PDFDict Js.bind].
  unfold Dict_lookup_typed at 1, Dict_get, lookup_typed, Pdf.lookup.
  cbn [assoc String.eqb Ascii.eqb Bool.eqb indirectObjects].
  rewrite H4. cbn [is_PDFDict Js.bind].
  unfold Dict_lookup_typed at 1, Dict_get, lookup_typed, Pdf.lookup.
  cbn [assoc String.eqb Ascii.eqb Bool.eqb is_PDFArray Js.bind].
  cbn [EmbeddedFileManager.rewriteNames Pdf.lookup fmap option_fmap option_map].
  rewrite bool_decide_eq_true_2 by reflexivity. cbn [negb].
  unfold Place.child. rewrite Hc. cbn [assoc String.eqb Ascii.eqb Bool.eqb].
  by rewrite (set_object _ _ _ _ _ r4 _ _ _ H4).
Qed.

(** [embedFile] on a name tree whose pair array is empty. *)
Lemma embedFile_empty_array store L cat kw cr r3 r4 fileName fileData mimeType :
  assoc "Names" cat = Some (PDFRef r3) ->
  store !! r3 = Some (PDFDict [("EmbeddedFiles", PDFRef r4)]) ->
  store !! r4 = Some (PDFDict [("Names", PDFArray [])]) ->
  (r3 <= L)%nat -> (r4 <= L)%nat ->
  EmbeddedFileManager.embedFile host (mkDocument (mkContext store L) cat kw cr)
    fileName fileData mimeType
  = mkDocument
      (mkContext
         (<[r4 := PDFDict [("Names", PDFArray [PDFString fileName; PDFRef (S (S L))])]]>
            (<[S (S L) := EmbeddedFileManager.fileSpec fileName (S L)]>
               (<[S L := EmbeddedFileManager.fileStream host fileData mimeType]> store)))
         (S (S L)))
      cat kw cr.
Proof.
  intros Hc H3 H4 Hle3 Hle4.
  unfold EmbeddedFileManager.embedFile.
  rewrite !register_in_eq.
  erewrite (getOrCreate_existing _ _ _ _ _ rootPlace cat "Names" _ r3);
    [|reflexivity|exact Hc|rewrite !lookup_insert_ne by lia; exact H3].
  erewrite (getOrCreate_existing _ _ _ _ _ (objectPlace r3)
              [("EmbeddedFiles", PDFRef r4)] "EmbeddedFiles" _ r4);
    [| |reflexivity|rewrite !lookup_insert_ne by lia; exact H4].
  2:{ cbn [Place.read Place.base Place.path context indirectObjects].
      rewrite !lookup_insert_ne by lia. rewrite H3. reflexivity. }
  erewrite namesArrayAt_object; [|rewrite !lookup_insert_ne by lia; exact H4].
  cbn [EmbeddedFileManager.rewriteNames fst app].
  rewrite (set_object _ _ _ _ _ r4 [("Names", PDFArray [])]); [reflexivity|].
  rewrite !lookup_insert_ne by lia. exact H4.
Qed.

(** X2. A second injection onto the output of a first one (made on a
    document without a name tree): without [overwrite] it throws the
    "already contains" error; with [overwrite: true] it succeeds, the
    extraction that follows returns the second envelope, and the pair
    array holds the newly written pair and nothing else. *)
Theorem second_injection pdfDoc data1 options1 dataBytes1 data2 options2 payload0 payload2
    dataBytes2 willCompress :
  assoc "Names" (catalog pdfDoc) = None ->
  let pdfDoc1 := finishInjection host pdfDoc data1 options1 dataBytes1 in
  let pdfDoc2 := finishInjection host pdfDoc1 data2 options2 dataBytes2 in
  StructPDFInjector.preparePayload host data2 options2 = Ok payload0 ->
  StructPDFInjector.serializePayload host payload0 options2
  = Ok (payload2, dataBytes2, willCompress) ->
  Z.of_nat (length dataBytes2) <= MAX_PAYLOAD_SIZE ->
  jsonFaithful host payload2 ->
  (overwrite options2 = false ->
   StructPDFInjector.injectDocument host pdfDoc1 data2 options2
   = Throw (new_Error
              "PDF already contains StructPDF data. Use overwrite option to replace."))
  /\ (overwrite options2 = true ->
      StructPDFInjector.injectDocument host pdfDoc1 data2 options2
      = Ok (pdfDoc2, payload2, willCompress)
      /\ StructPDFExtractor.extractDocument host pdfDoc2 defaultExtractionOptions
         = Ok (succeeded payload2)
      /\ payloadOf payload2 = Some data2
      /\ namesArrayOf pdfDoc2
         = Some [PDFString EMBEDDED_FILE_NAME;
                 PDFRef (6 + largestObjectNumber (context pdfDoc))]).
Proof.
  intros Hn pdfDoc1 pdfDoc2 Hp Hs Hsize Hj.
  destruct (finishInjection_fresh pdfDoc data1 options1 dataBytes1 Hn) as [Hctx Hcat].
  fold pdfDoc1 in Hctx, Hcat.
  assert (Hst1 : storedBytes pdfDoc1 = Some (pako_deflate host dataBytes1)).
  { unfold pdfDoc1, finishInjection. rewrite !storedBytes_addMetadata.
    destruct (no_name_tree _ Hn) as [_ Hrm].
    destruct (overwrite options1); [rewrite Hrm; cbn [fst]|];
      by apply storedBytes_embedFile_fresh. }
  split; intros Hov.
  - unfold StructPDFInjector.injectDocument.
    rewrite hasStructPDFData_stored, Hst1, Hov.
    rewrite bool_decide_eq_true_2 by eauto. reflexivity.
  - destruct (domainOf_prepared host _ _ _ _ _ _ Hp Hs) as [Hdom Hpay].
    assert (Hinj : StructPDFInjector.injectDocument host pdfDoc1 data2 options2
                   = Ok (pdfDoc2, payload2, willCompress)).
    { unfold StructPDFInjector.injectDocument. rewrite Hov. cbn [negb andb].
      rewrite Hp. cbn [Js.bind]. rewrite Hs. cbn [Js.bind].
      destruct (Z.gtb_spec (Z.of_nat (length dataBytes2)) MAX_PAYLOAD_SIZE) as [?|_];
        [lia|].
      unfold pdfDoc2, finishInjection. by rewrite Hov, Hdom. }
    split; [exact Hinj|].
    (* the graph of the second output *)
    set (L := largestObjectNumber (context pdfDoc)) in *.
    assert (Hg : context pdfDoc2
                 = replacedNameTree host (context pdfDoc1) EMBEDDED_FILE_NAME
                     dataBytes2 MIME_TYPE
                 /\ catalog pdfDoc2 = catalog pdfDoc1).
    { unfold pdfDoc2, finishInjection.
      rewrite !(proj1 (graph_addMetadata _ _ _)), !(proj2 (graph_addMetadata _ _ _)).
      rewrite Hov. clearbody pdfDoc1.
      destruct pdfDoc1 as [[store1 L1] cat1 kw1 cr1].
      cbn [context catalog] in Hctx, Hcat. unfold freshNameTree in Hctx.
      injection Hctx as Hstore HL. fold L in Hstore, HL.
      erewrite (removeFile_single store1 L1 cat1 kw1 cr1 (S (S L)) (S (S (S L)))
                  (S (S (S (S L)))));
        [|rewrite Hcat; apply assoc_assoc_set_eq
         |rewrite Hstore, lookup_insert_ne by lia; by rewrite lookup_insert_eq
         |rewrite Hstore; by rewrite lookup_insert_eq].
      cbn [fst].
      erewrite (embedFile_empty_array _ L1 cat1 kw1 cr1 (S (S (S L))) (S (S (S (S L)))));
        [|rewrite Hcat; apply assoc_assoc_set_eq
         |rewrite lookup_insert_ne by lia;
          rewrite Hstore, lookup_insert_ne by lia; by rewrite lookup_insert_eq
         |by rewrite lookup_insert_eq|lia|lia].
      unfold replacedNameTree. cbn [context catalog largestObjectNumber indirectObjects].
      subst L1. split; reflexivity. }
    destruct Hg as [Hctx2 Hcat2].
    assert (Hrun : PDFHandler.getEmbeddedFiles_run pdfDoc2
                   = ({[ PDFHandler.embeddedName EMBEDDED_FILE_NAME
                         := pako_deflate host dataBytes2 ]}, [])
                   /\ namesArrayOf pdfDoc2
                      = Some [PDFString EMBEDDED_FILE_NAME; PDFRef (6 + L)]).
    { clearbody pdfDoc2 pdfDoc1.
      destruct pdfDoc2 as [[store2 L2] cat2 kw2 cr2].
      cbn [context catalog] in Hctx2, Hcat2.
      unfold replacedNameTree in Hctx2. rewrite Hctx in Hctx2.
      unfold freshNameTree in Hctx2.
      cbn [largestObjectNumber indirectObjects] in Hctx2. fold L in Hctx2.
      injection Hctx2 as Hstore2 HL2.
      assert (H3 : store2 !! S (S (S L)) = Some (PDFDict [("EmbeddedFiles",
                                                            PDFRef (S (S (S (S L)))))])).
      { rewrite Hstore2. rewrite !lookup_insert_ne by lia.
        rewrite lookup_insert_eq. reflexivity. }
      assert (H4 : store2 !! S (S (S (S L)))
                   = Some (PDFDict [("Names",
                                     PDFArray [PDFString EMBEDDED_FILE_NAME;
                                               PDFRef (S (S (S (S (S (S L))))))])])).
      { rewrite Hstore2. by rewrite lookup_insert_eq. }
      assert (Hc2 : assoc "Names" cat2 = Some (PDFRef (S (S (S L))))).
      { rewrite Hcat2, Hcat. apply assoc_assoc_set_eq. }
      split.
      - eapply getEmbeddedFiles_run_single; [exact Hc2|exact H3|exact H4| |].
        + rewrite Hstore2. rewrite lookup_insert_ne by lia.
          by rewrite lookup_insert_eq.
        + rewrite Hstore2. rewrite !lookup_insert_ne by lia.
          by rewrite lookup_insert_eq.
      - unfold namesArrayOf. cbn [context catalog].
        unfold Dict_lookup_typed, Dict_get, lookup_typed, Pdf.lookup.
        rewrite Hc2. cbn [indirectObjects]. rewrite H3.
        cbn [is_PDFDict Js.bind assoc String.eqb Ascii.eqb Bool.eqb]. rewrite H4.
        reflexivity. }
    destruct Hrun as [Hrun Harr].
    assert (Hst2 : storedBytes pdfDoc2 = Some (pako_deflate host dataBytes2)).
    { unfold storedBytes, PDFHandler.getEmbeddedFiles. rewrite Hrun.
      apply lookup_singleton_eq. }
    split; [|split; [exact Hpay|exact Harr]].
    rewrite (extractDocument_stored host _ _ _ Hst2).
    rewrite (parseStored_injected host laws _ _ _ _ _ defaultExtractionOptions Hs Hj);
      [reflexivity|discriminate].
Qed.

End SecondInjection.

(** ** From the loaded document to the public entry points *)

Section EntryPoints.

Context (host : Host).

(** Once the path validates and the file loads, [extract] is
    [extractDocument] under the handler. *)
Lemma extract_loaded fs pdfPath options validated pdfBytes pdfDoc :
  PathValidator.validatePath host pdfPath = Ok validated ->
  fs !! validated = Some (Fs.File pdfBytes) ->
  PDFDocument_load host pdfBytes = Ok pdfDoc ->
  StructPDFExtractor.extract host fs pdfPath options
  = caught (StructPDFExtractor.extractDocument host pdfDoc options).
Proof.
  intros Hv Hf Hl. unfold StructPDFExtractor.extract, caught.
  rewrite Hv. cbn [Js.bind].
  unfold PathValidator.validateFileExists, Fs.access, Fs.readFile. rewrite Hf.
  cbn [Js.try_catch Js.bind]. rewrite Hl. reflexivity.
Qed.

(** A failure of [injectDocument] reaches the caller of [inject] as an
    [InjectionError] that keeps the message. *)
Lemma inject_wraps fs pdfPath data outputPath options validatedIn validatedOut fs'
    pdfBytes pdfDoc error :
  StructPDFInjector.validateInputs host data options = Ok tt ->
  PathValidator.validatePath host pdfPath = Ok validatedIn ->
  PathValidator.validatePath host outputPath = Ok validatedOut ->
  PathValidator.validateFileExists fs validatedIn = Ok tt ->
  PathValidator.validateOutputPath host fs validatedOut = Ok fs' ->
  Fs.readFile fs' validatedIn = Ok pdfBytes ->
  PDFDocument_load host pdfBytes = Ok pdfDoc ->
  StructPDFInjector.injectDocument host pdfDoc data options = Throw (new_Error error) ->
  StructPDFInjector.inject host fs pdfPath data outputPath options
  = Throw (new_InjectionError error).
Proof.
  intros Hi Hv1 Hv2 He Ho Hr Hl Hd. unfold StructPDFInjector.inject.
  rewrite Hi. cbn [Js.bind]. rewrite Hv1. cbn [Js.bind]. rewrite Hv2. cbn [Js.bind].
  rewrite He. cbn [Js.bind]. rewrite Ho. cbn [Js.bind]. rewrite Hr. cbn [Js.bind].
  rewrite Hl. cbn [Js.bind]. rewrite Hd. reflexivity.
Qed.

(** A successful [injectDocument] is saved and written to the output
    path. *)
Lemma inject_saves fs pdfPath data outputPath options validatedIn validatedOut fs'
    pdfBytes pdfDoc pdfDoc' payload willCompress :
  StructPDFInjector.validateInputs host data options = Ok tt ->
  PathValidator.validatePath host pdfPath = Ok validatedIn ->
  PathValidator.validatePath host outputPath = Ok validatedOut ->
  PathValidator.validateFileExists fs validatedIn = Ok tt ->
  PathValidator.validateOutputPath host fs validatedOut = Ok fs' ->
  Fs.readFile fs' validatedIn = Ok pdfBytes ->
  PDFDocument_load host pdfBytes = Ok pdfDoc ->
  StructPDFInjector.injectDocument host pdfDoc data options
  = Ok (pdfDoc', payload, willCompress) ->
  fs' !! validatedOut <> Some Fs.Directory ->
  StructPDFInjector.inject host fs pdfPath data outputPath options
  = Ok (<[validatedOut := Fs.File (PDFDocument_save host pdfDoc')]> fs',
        mkInjectionResult true outputPath (StructPDFInjector.metadataOf payload)
          (if willCompress then Some ["Data was compressed"] else None)).
Proof.
  intros Hi Hv1 Hv2 He Ho Hr Hl Hd Hw. unfold StructPDFInjector.inject.
  rewrite Hi. cbn [Js.bind]. rewrite Hv1. cbn [Js.bind]. rewrite Hv2. cbn [Js.bind].
  rewrite He. cbn [Js.bind]. rewrite Ho. cbn [Js.bind]. rewrite Hr. cbn [Js.bind].
  rewrite Hl. cbn [Js.bind]. rewrite Hd. cbn [Js.bind].
  unfold Fs.writeFile.
  destruct (fs' !! validatedOut) as [[]|]; try reflexivity. congruence.
Qed.

End EntryPoints.

Lemma round_trip_witness :
  exists pdfDoc payload,
    StructPDFInjector.injectDocument RefHost.host RefHost.emptyDocument
      (paddedPayload 900) (exampleOptions true true false)
    = Ok (pdfDoc, payload, true)
    /\ StructPDFExtractor.extractDocument RefHost.host pdfDoc defaultExtractionOptions
       = Ok (succeeded payload)
    /\ payloadOf payload = Some (paddedPayload 900).
Proof.
  eexists _, _.
  refine (round_trip_without_name_tree RefHost.host RefHost_laws RefHost.emptyDocument
            (paddedPayload 900) (exampleOptions true true false) _ _ _ true
            eq_refl _ _ _ _).
  - vm_compute. reflexivity.
  - vm_compute. reflexivity.
  - vm_compute. discriminate.
  - split; vm_compute; reflexivity.
Defined.

Lemma second_injection_witness :
  StructPDFInjector.injectDocument RefHost.host
    (finishInjection RefHost.host RefHost.emptyDocument firstPayload
       (exampleOptions false false false) adaPlain)
    secondPayload (exampleOptions false false false)
  = Throw (new_Error
             "PDF already contains StructPDF data. Use overwrite option to replace.")
  /\ exists pdfDoc2 payload2,
       StructPDFInjector.injectDocument RefHost.host
         (finishInjection RefHost.host RefHost.emptyDocument firstPayload
            (exampleOptions false false false) adaPlain)
         secondPayload (exampleOptions false false true)
       = Ok (pdfDoc2, payload2, false)
       /\ StructPDFExtractor.extractDocument RefHost.host pdfDoc2
            defaultExtractionOptions
          = Ok (succeeded payload2)
       /\ payloadOf payload2 = Some secondPayload
       /\ namesArrayOf pdfDoc2 = Some [PDFString EMBEDDED_FILE_NAME; PDFRef 7].
Proof.
  split.
  - refine (proj1 (second_injection RefHost.host RefHost_laws RefHost.emptyDocument
                     firstPayload (exampleOptions false false false) adaPlain
                     secondPayload (exampleOptions false false false) _ _ _ false
                     eq_refl _ _ _ _) eq_refl).
    + vm_compute. reflexivity.
    + vm_compute. reflexivity.
    + vm_compute. discriminate.
    + split; vm_compute; reflexivity.
  - eexists _, _.
    refine (proj2 (second_injection RefHost.host RefHost_laws RefHost.emptyDocument
                     firstPayload (exampleOptions false false false) adaPlain
                     secondPayload (exampleOptions false false true) _ _ _ false
                     eq_refl _ _ _ _) eq_refl).
    + vm_compute. reflexivity.
    + vm_compute. reflexivity.
    + vm_compute. discriminate.
    + split; vm_compute; reflexivity.
Defined.

(** ** Places: reading after writing *)

Section Places.

Lemma descend_app p q d :
  Place.descend (p ++ q) d
  = match Place.descend p d with
    | Some d' => Place.descend q d'
    | None => None
    end.
Proof.
  revert d. induction p as [|k p IH]; intros d; simpl; [reflexivity|].
  destruct (assoc k d) as [[]|]; try reflexivity. apply IH.
Qed.

Lemma descend_update_path p f d x :
  Place.descend p d = Some x ->
  Place.descend p (Place.update_path p f d) = Some (f x).
Proof.
  revert d. induction p as [|k p IH]; intros d; simpl.
  - by intros [= ->].
  - destruct (assoc k d) as [[]|] eqn:E; try discriminate.
    intros H. rewrite assoc_assoc_set_eq. by apply IH.
Qed.

(** Along a path of tree keys, an update changes only a tree key of
    the dictionary it starts from. *)
Lemma update_path_other p f d k :
  (forall x k', ~ treeKey k' -> assoc k' (f x) = assoc k' x) ->
  Forall treeKey p ->
  ~ treeKey k ->
  assoc k (Place.update_path p f d) = assoc k d.
Proof.
  intros Hf Hp Hk. destruct p as [|k0 p]; simpl; [by apply Hf|].
  destruct (assoc k0 d) as [[]|] eqn:E; try reflexivity.
  apply assoc_assoc_set_ne. intros ->. apply Hk. by inversion Hp.
Qed.

Lemma read_update pdfDoc pl f d :
  Place.read pdfDoc pl = Some d ->
  Place.read (Place.update pdfDoc pl f) pl = Some (f d).
Proof.
  unfold Place.read, Place.update. destruct (Place.base pl) as [|n].
  - cbn [catalog]. apply descend_update_path.
  - destruct (indirectObjects (context pdfDoc) !! n) as [[]|] eqn:E; try discriminate.
    cbn [context indirectObjects]. rewrite lookup_insert_eq. apply descend_update_path.
Qed.

End Places.

(** ** Frames: what the name-tree writes leave in place *)

Section Frames.

Lemma sameExcept_refl o : sameExcept o o.
Proof. destruct o; simpl; auto. Qed.

Lemma sameExcept_trans o1 o2 o3 :
  sameExcept o1 o2 -> sameExcept o2 o3 -> sameExcept o1 o3.
Proof.
  destruct o1, o2; simpl; try discriminate; try (intros -> ; done);
    destruct o3; simpl; try discriminate; try congruence.
  intros H1 H2 k Hn He. by rewrite H2, H1.
Qed.

Lemma framed_refl ctx : framed ctx ctx.
Proof. intros n o H. exists o. split; [exact H|apply sameExcept_refl]. Qed.

Lemma framed_trans c1 c2 c3 : framed c1 c2 -> framed c2 c3 -> framed c1 c3.
Proof.
  intros H12 H23 n o H.
  destruct (H12 n o H) as (o2 & H2 & S2).
  destruct (H23 n o2 H2) as (o3 & H3 & S3).
  exists o3. split; [exact H3|]. by apply (sameExcept_trans _ o2).
Qed.

Lemma framed_register ctx o :
  indirectObjects ctx !! S (largestObjectNumber ctx) = None ->
  framed ctx (fst (register ctx o)).
Proof.
  intros Hfresh n x H. exists x. split; [|apply sameExcept_refl].
  unfold register. cbn [fst indirectObjects].
  rewrite lookup_insert_ne; [exact H|]. intros <-. congruence.
Qed.

(** A write of a tree key, at a place reached through tree keys. *)
Lemma framed_set pdfDoc pl key value :
  Forall treeKey (Place.path pl) ->
  treeKey key ->
  framed (context pdfDoc) (context (Place.set pdfDoc pl key value)).
Proof.
  intros Hp Hk. unfold Place.set, Place.update.
  destruct (Place.base pl) as [|n]; [apply framed_refl|].
  destruct (indirectObjects (context pdfDoc) !! n) as [[]|] eqn:E;
    try apply framed_refl.
  intros m o H. cbn [context indirectObjects].
  destruct (decide (m = n)) as [->|Hne].
  - rewrite lookup_insert_eq. eexists. split; [reflexivity|].
    rewrite E in H. injection H as <-. simpl. intros k Hn He.
    apply update_path_other; [|exact Hp|].
    + intros x k' Hk'. apply assoc_assoc_set_ne. intros ->. exact (Hk' Hk).
    + unfold treeKey. intros [?|?]; contradiction.
  - rewrite lookup_insert_ne by done. exists o. split; [exact H|apply sameExcept_refl].
Qed.

Lemma framed_dict ctx ctx' n d :
  framed ctx ctx' ->
  indirectObjects ctx !! n = Some (PDFDict d) ->
  exists d',
    indirectObjects ctx' !! n = Some (PDFDict d')
    /\ forall k, ~ treeKey k -> assoc k d' = assoc k d.
Proof.
  intros Hf H. destruct (Hf n _ H) as (o' & H' & S).
  destruct o'; simpl in S; try discriminate.
  eexists. split; [exact H'|]. intros k Hk. apply S.
  - intros ->. apply Hk. by left.
  - intros ->. apply Hk. by right.
Qed.

Lemma framed_stream ctx ctx' n sd contents :
  framed ctx ctx' ->
  indirectObjects ctx !! n = Some (PDFRawStream sd contents) ->
  indirectObjects ctx' !! n = Some (PDFRawStream sd contents).
Proof.
  intros Hf H. destruct (Hf n _ H) as (o' & H' & S).
  simpl in S. by subst o'.
Qed.

End Frames.

(** ** The walk over a rewritten pair array *)

Section Walk.

(** Induction over a list two elements at a time, as the loops read
    the pair array. *)
Lemma pair_induction {A : Type} (P : list A -> Prop) :
  P [] ->
  (forall a, P [a]) ->
  (forall a b l, P l -> P (a :: b :: l)) ->
  forall l, P l.
Proof.
  intros H0 H1 H2.
  assert (H : forall l, P l /\ forall a, P (a :: l)).
  { induction l as [|b l [IH1 IH2]]; [split; auto|].
    split; [apply IH2|]. intros a. by apply H2. }
  intros l. apply H.
Qed.

(** Whether the walk is ended by an exception does not depend on the
    files collected before. *)
Lemma walkNames_snd ctx namesArray :
  forall files1 files2,
    snd (PDFHandler.walkNames ctx namesArray files1)
    = snd (PDFHandler.walkNames ctx namesArray files2).
Proof.
  induction namesArray as [|a|a b l IH] using pair_induction; intros f1 f2.
  - reflexivity.
  - reflexivity.
  - cbn [PDFHandler.walkNames head].
    destruct (lookup_typed is_PDFDict "PDFDict" ctx (Some b)) as [fileSpec|e];
      [|reflexivity].
    destruct fileSpec; try apply IH.
    destruct (Dict_lookup_typed is_PDFDict "PDFDict" ctx dict "EF") as [[ef|]|e];
      [|apply IH|reflexivity].
    destruct ef; try apply IH.
    destruct (Dict_lookup ctx dict0 "F") as [fileStream|]; [|apply IH].
    destruct (lookup ctx (Some fileStream)) as [[]|]; apply IH.
Qed.

(** One pair that resolves, in terms of what the walk made of it. *)
Lemma walkNames_step ctx a b l files :
  snd (PDFHandler.walkNames ctx (a :: b :: l) files) = None ->
  (exists sd x,
      lookup ctx (Some b) = Some (PDFDict sd)
      /\ lookup ctx (Dict_get sd "EF") = Some x /\ is_PDFDict x = true)
  /\ snd (PDFHandler.walkNames ctx l files) = None.
Proof.
  cbn [PDFHandler.walkNames head]. unfold lookup_typed.
  destruct (lookup ctx (Some b)) as [fileSpec|] eqn:Hb; [|discriminate].
  destruct (is_PDFDict fileSpec) eqn:Hd; [|discriminate].
  destruct fileSpec; try discriminate.
  unfold Dict_lookup_typed, lookup_typed.
  destruct (lookup ctx (Dict_get dict "EF")) as [x|] eqn:Hef; [|discriminate].
  destruct (is_PDFDict x) eqn:Hx; [|discriminate].
  cbn [Js.bind]. intros H. split; [by eexists _, _|].
  destruct x; try discriminate.
  destruct (Dict_lookup ctx dict0 "F") as [fileStream|];
    [destruct (lookup ctx (Some fileStream)) as [[]|]|];
    (exact H || (erewrite walkNames_snd; exact H)).
Qed.

(** The pairs [rewriteNames] keeps from an array whose walk completes
    are walked without exception in any later table that keeps the
    objects of the first up to name-tree entries; the walk then goes on
    with whatever follows them. *)
Lemma walkNames_rewritten ctx ctx2 ctx' fileName namesArray :
  framed ctx ctx2 ->
  framed ctx ctx' ->
  forall files0,
    snd (PDFHandler.walkNames ctx namesArray files0) = None ->
    forall tail files,
      exists files',
        PDFHandler.walkNames ctx'
          (fst (EmbeddedFileManager.rewriteNames ctx2 fileName namesArray) ++ tail) files
        = PDFHandler.walkNames ctx' tail files'.
Proof.
  intros H2 H'.
  assert (HEF : ~ treeKey "EF") by (intros [?|?]; discriminate).
  induction namesArray as [|a|a b l IH] using pair_induction;
    intros files0 Hwalk tail files.
  - by exists files.
  - discriminate.
  - apply walkNames_step in Hwalk as ((sd & x & Hb & Hef & Hx) & Hrest).
    cbn [EmbeddedFileManager.rewriteNames head].
    destruct (EmbeddedFileManager.rewriteNames ctx2 fileName l) as [kept removed] eqn:Hk.
    cbn [fst] in IH.
    destruct (negb _); cbn [fst]; [|by apply (IH files0)].
    (* the pair is kept: its second slot is the dictionary itself *)
    assert (Hb2 : exists sd', obj_of (lookup ctx2 (Some b)) = PDFDict sd'
                              /\ assoc "EF" sd' = assoc "EF" sd).
    { destruct b; simpl in Hb; try discriminate;
        try (simplify_eq; by exists sd).
      destruct (framed_dict _ _ _ _ H2 Hb) as (sd' & Hsd' & Hsame).
      exists sd'. simpl. rewrite Hsd'. split; [reflexivity|by apply Hsame]. }
    destruct Hb2 as (sd' & -> & HsameEF).
    assert (Hef' : exists x', lookup ctx' (Dict_get sd' "EF") = Some x'
                              /\ is_PDFDict x' = true).
    { unfold Dict_get in *. rewrite HsameEF.
      destruct x; try discriminate.
      destruct (assoc "EF" sd) as [e|]; [|discriminate].
      destruct e; simpl in Hef; try discriminate;
        try (simplify_eq; by exists (PDFDict dict)).
      destruct (framed_dict _ _ _ _ H' Hef) as (d' & Hd' & _). simpl. rewrite Hd'.
      by exists (PDFDict d'). }
    destruct Hef' as (x' & Hef' & Hx').
    cbn [app PDFHandler.walkNames head]. unfold lookup_typed at 1.
    change (lookup ctx' (Some (PDFDict sd'))) with (Some (PDFDict sd')).
    cbn [is_PDFDict].
    unfold Dict_lookup_typed, lookup_typed. rewrite Hef', Hx'. cbn [Js.bind].
    destruct x'; try discriminate.
    destruct (Dict_lookup ctx' dict "F") as [fileStream|];
      [destruct (lookup ctx' (Some fileStream)) as [[]|]|];
      by apply (IH files0).
Qed.

(** The pair [embedFile] appends, walked in a table that still holds
    its file specification and stream. *)
Lemma walkNames_new_pair ctx fileName r1 r2 sd ssd contents files :
  indirectObjects ctx !! r2 = Some (PDFDict sd) ->
  assoc "EF" sd = Some (PDFDict [("F", PDFRef r1)]) ->
  indirectObjects ctx !! r1 = Some (PDFRawStream ssd contents) ->
  PDFHandler.walkNames ctx [PDFString fileName; PDFRef r2] files
  = (<[PDFHandler.embeddedName fileName := contents]> files, None).
Proof.
  intros H2 Hef H1. cbn [PDFHandler.walkNames head].
  unfold lookup_typed, Pdf.lookup. rewrite H2. cbn [is_PDFDict].
  unfold Dict_lookup_typed, Dict_lookup, Dict_get, lookup_typed, Pdf.lookup.
  rewrite Hef. cbn [is_PDFDict Js.bind assoc String.eqb Ascii.eqb Bool.eqb].
  rewrite H1. reflexivity.
Qed.

End Walk.

(** ** The name tree under the writes of [embedFile] *)

Section NameTree.

Lemma Dict_lookup_typed_dict ctx d key r :
  Dict_lookup_typed is_PDFDict "PDFDict" ctx d key = Ok r ->
  exists cd,
    r = Some (PDFDict cd)
    /\ (assoc key d = Some (PDFDict cd)
        \/ exists n, assoc key d = Some (PDFRef n)
                     /\ indirectObjects ctx !! n = Some (PDFDict cd)).
Proof.
  unfold Dict_lookup_typed, lookup_typed, Dict_get, Pdf.lookup.
  destruct (assoc key d) as [[ |?|?|?|?|?|n|?|cd|? ?]|] eqn:E; cbn; try discriminate.
  - destruct (indirectObjects ctx !! n) as [[]|] eqn:En; cbn; try discriminate.
    intros [= <-]. eexists. split; [reflexivity|]. right. by eexists.
  - intros [= <-]. eexists. split; [reflexivity|]. by left.
Qed.

Lemma Dict_lookup_typed_direct ctx d key cd :
  assoc key d = Some (PDFDict cd) ->
  Dict_lookup_typed is_PDFDict "PDFDict" ctx d key = Ok (Some (PDFDict cd)).
Proof.
  intros H. unfold Dict_lookup_typed, lookup_typed, Dict_get, Pdf.lookup.
  by rewrite H.
Qed.

Lemma Dict_lookup_typed_ref ctx d key n cd :
  assoc key d = Some (PDFRef n) ->
  indirectObjects ctx !! n = Some (PDFDict cd) ->
  Dict_lookup_typed is_PDFDict "PDFDict" ctx d key = Ok (Some (PDFDict cd)).
Proof.
  intros H Hn. unfold Dict_lookup_typed, lookup_typed, Dict_get, Pdf.lookup.
  by rewrite H, Hn.
Qed.

(** A place that reads as a dictionary is in the catalog or at an
    object of the table. *)
Lemma read_base pdfDoc pl d :
  Place.read pdfDoc pl = Some d ->
  match Place.base pl with
  | Place.AtCatalog => True
  | Place.AtObject n => exists o, indirectObjects (context pdfDoc) !! n = Some (PDFDict o)
  end.
Proof.
  unfold Place.read. destruct (Place.base pl); [done|].
  destruct (indirectObjects (context pdfDoc) !! n) as [[]|]; try discriminate.
  intros _. by eexists.
Qed.

Lemma tableBounded_fresh pdfDoc :
  tableBounded pdfDoc ->
  indirectObjects (context pdfDoc) !! S (largestObjectNumber (context pdfDoc)) = None.
Proof.
  intros Hb.
  destruct (indirectObjects (context pdfDoc) !! S (largestObjectNumber (context pdfDoc)))
    eqn:E; [|reflexivity].
  apply Hb in E. lia.
Qed.

Lemma tableBounded_register pdfDoc o :
  tableBounded pdfDoc -> tableBounded (fst (Place.register_in pdfDoc o)).
Proof.
  intros Hb n x. unfold Place.register_in, register.
  cbn [fst context indirectObjects largestObjectNumber].
  destruct (decide (n = S (largestObjectNumber (context pdfDoc)))) as [->|Hne].
  - intros _. lia.
  - rewrite lookup_insert_ne by done. intros H. apply Hb in H. lia.
Qed.

Lemma tableBounded_set pdfDoc pl key value :
  tableBounded pdfDoc -> tableBounded (Place.set pdfDoc pl key value).
Proof.
  intros Hb. unfold Place.set, Place.update.
  destruct (Place.base pl) as [|m]; [exact Hb|].
  destruct (indirectObjects (context pdfDoc) !! m) as [[]|] eqn:Em; try exact Hb.
  intros n x. cbn [context indirectObjects largestObjectNumber].
  destruct (decide (n = m)) as [->|Hne].
  - intros _. by apply Hb in Em.
  - rewrite lookup_insert_ne by done. apply Hb.
Qed.

Lemma read_register pdfDoc pl d o :
  tableBounded pdfDoc ->
  Place.read pdfDoc pl = Some d ->
  Place.read (fst (Place.register_in pdfDoc o)) pl = Some d.
Proof.
  intros Hb. unfold Place.read, Place.register_in, register.
  cbn [fst context catalog indirectObjects].
  destruct (Place.base pl) as [|n]; [done|].
  destruct (indirectObjects (context pdfDoc) !! n) as [x|] eqn:En; [|discriminate].
  rewrite lookup_insert_ne; [by rewrite En|].
  apply Hb in En. lia.
Qed.

(** A write at a place leaves the other objects of the table alone. *)
Lemma set_lookup_other pdfDoc pl key value n :
  Place.base pl <> Place.AtObject n ->
  indirectObjects (context (Place.set pdfDoc pl key value)) !! n
  = indirectObjects (context pdfDoc) !! n.
Proof.
  intros Hne. unfold Place.set, Place.update.
  destruct (Place.base pl) as [|m]; [reflexivity|].
  destruct (indirectObjects (context pdfDoc) !! m) as [[]|]; try reflexivity.
  cbn [context indirectObjects]. apply lookup_insert_ne. congruence.
Qed.

Lemma read_child pdfDoc pl pd key cd :
  Place.read pdfDoc pl = Some pd ->
  Dict_lookup_typed is_PDFDict "PDFDict" (context pdfDoc) pd key
  = Ok (Some (PDFDict cd)) ->
  Place.read pdfDoc (Place.child pl pd key) = Some cd.
Proof.
  intros Hr Hl. apply Dict_lookup_typed_dict in Hl as (cd' & [= <-] & [Hd|(n & Hn & Ho)]).
  - unfold Place.child. rewrite Hd. unfold Place.read in *.
    cbn [Place.base Place.path].
    destruct (Place.base pl) as [|m].
    + rewrite descend_app, Hr. simpl. by rewrite Hd.
    + destruct (indirectObjects (context pdfDoc) !! m) as [[]|]; try discriminate.
      rewrite descend_app, Hr. simpl. by rewrite Hd.
  - unfold Place.child. rewrite Hn. unfold Place.read.
    cbn [Place.base Place.path]. by rewrite Ho.
Qed.

Lemma reaches_root pdfDoc key pl' cd :
  reaches pdfDoc rootPlace key pl' cd ->
  Dict_lookup_typed is_PDFDict "PDFDict" (context pdfDoc) (catalog pdfDoc) key
  = Ok (Some (PDFDict cd)).
Proof. by intros (pd & [= <-] & Hl & _). Qed.

Lemma reaches_read pdfDoc pl key pl' cd :
  reaches pdfDoc pl key pl' cd -> Place.read pdfDoc pl' = Some cd.
Proof. by intros (pd & _ & _ & _ & H). Qed.

(** The second level of the tree, read from the dictionary the first
    level reached. *)
Lemma reaches_from pdfDoc pl key pl' cd pd :
  Place.read pdfDoc pl = Some pd ->
  reaches pdfDoc pl key pl' cd ->
  Dict_lookup_typed is_PDFDict "PDFDict" (context pdfDoc) pd key
  = Ok (Some (PDFDict cd)).
Proof. intros Hr (pd' & Hr' & Hl & _). congruence. Qed.

Lemma reaches_register pdfDoc pl key pl' cd o :
  tableBounded pdfDoc ->
  reaches pdfDoc pl key pl' cd ->
  reaches (fst (Place.register_in pdfDoc o)) pl key pl' cd.
Proof.
  intros Hb (pd & Hr & Hl & -> & Hc). exists pd.
  split; [by apply read_register|]. split; [|split; [reflexivity|by apply read_register]].
  apply Dict_lookup_typed_dict in Hl as (cd' & [= <-] & [Hd|(n & Hn & Ho)]).
  - by apply Dict_lookup_typed_direct.
  - apply (Dict_lookup_typed_ref _ _ _ n); [exact Hn|].
    unfold Place.register_in, register. cbn [fst context indirectObjects].
    rewrite lookup_insert_ne; [exact Ho|]. apply Hb in Ho. lia.
Qed.

(** "Get or create" returns a dictionary the typed lookup reaches: the
    one that was there, or a fresh registered one. *)
Lemma getOrCreate_reaches pdfDoc pl key initial pd pdfDoc' pl' :
  tableBounded pdfDoc ->
  Place.read pdfDoc pl = Some pd ->
  EmbeddedFileManager.getOrCreate pdfDoc pl key initial = (pdfDoc', pl') ->
  (exists cd,
      Dict_lookup_typed is_PDFDict "PDFDict" (context pdfDoc) pd key
      = Ok (Some (PDFDict cd))
      /\ pdfDoc' = pdfDoc /\ reaches pdfDoc' pl key pl' cd)
  \/ ((forall r, Dict_lookup_typed is_PDFDict "PDFDict" (context pdfDoc) pd key <> Ok r)
      /\ pdfDoc' = Place.set (fst (Place.register_in pdfDoc (PDFDict initial))) pl key
                     (PDFRef (S (largestObjectNumber (context pdfDoc))))
      /\ pl' = objectPlace (S (largestObjectNumber (context pdfDoc)))
      /\ reaches pdfDoc' pl key pl' initial).
Proof.
  intros Hb Hr. unfold EmbeddedFileManager.getOrCreate. rewrite Hr.
  destruct (Dict_lookup_typed is_PDFDict "PDFDict" (context pdfDoc) pd key)
    as [r|e] eqn:Hl.
  { destruct (Dict_lookup_typed_dict _ _ _ _ Hl) as (cd & -> & _).
    intros [= <- <-]. left. exists cd. split; [reflexivity|]. split; [reflexivity|].
    exists pd. split; [exact Hr|]. split; [exact Hl|]. split; [reflexivity|].
    by apply read_child. }
  intros Hg. right. split; [discriminate|].
  set (r := S (largestObjectNumber (context pdfDoc))) in *.
  set (doc1 := fst (Place.register_in pdfDoc (PDFDict initial))).
  assert (Hg' : (pdfDoc', pl') = (Place.set doc1 pl key (PDFRef r), objectPlace r))
    by (rewrite <- Hg; reflexivity).
  injection Hg' as -> ->. clear Hg.
  split; [reflexivity|]. split; [reflexivity|].
  assert (Hr1 : Place.read doc1 pl = Some pd) by by apply read_register.
  assert (Hbase : Place.base pl <> Place.AtObject r).
  { intros Hpl. apply read_base in Hr. rewrite Hpl in Hr. destruct Hr as (o & Ho).
    apply Hb in Ho. unfold r in Ho. lia. }
  assert (Hnew : indirectObjects (context (Place.set doc1 pl key (PDFRef r))) !! r
                 = Some (PDFDict initial)).
  { rewrite set_lookup_other by exact Hbase.
    unfold doc1, Place.register_in, register. cbn [fst context indirectObjects].
    apply lookup_insert_eq. }
  exists (assoc_set key (PDFRef r) pd).
  split; [by apply read_update|].
  split; [apply (Dict_lookup_typed_ref _ _ _ r); [apply assoc_assoc_set_eq|exact Hnew]|].
  split; [unfold Place.child; by rewrite assoc_assoc_set_eq|].
  unfold Place.read. cbn [Place.base Place.path]. by rewrite Hnew.
Qed.

Lemma descend_update_path_app p key f d pd cd :
  Place.descend p d = Some pd ->
  assoc key pd = Some (PDFDict cd) ->
  Place.descend p (Place.update_path (p ++ [key]) f d)
  = Some (assoc_set key (PDFDict (f cd)) pd).
Proof.
  revert d. induction p as [|k p IH]; intros d; simpl.
  - intros [= <-] Hk. by rewrite Hk.
  - destruct (assoc k d) as [[ |?|?|?|?|?|?|?|d0|? ?]|]; try discriminate.
    intros Hd Hk. rewrite assoc_assoc_set_eq. by apply IH.
Qed.

Lemma reaches_intro pdfDoc pl key pd cd :
  Place.read pdfDoc pl = Some pd ->
  Dict_lookup_typed is_PDFDict "PDFDict" (context pdfDoc) pd key
  = Ok (Some (PDFDict cd)) ->
  reaches pdfDoc pl key (Place.child pl pd key) cd.
Proof.
  intros Hr Hl. exists pd. split; [exact Hr|]. split; [exact Hl|].
  split; [reflexivity|by apply read_child].
Qed.

Lemma set_catalog_object pdfDoc pl key value m :
  Place.base pl = Place.AtObject m ->
  catalog (Place.set pdfDoc pl key value) = catalog pdfDoc.
Proof.
  intros Hb. unfold Place.set, Place.update. rewrite Hb.
  by destruct (indirectObjects (context pdfDoc) !! m) as [[]|].
Qed.

Lemma set_keeps_dict pdfDoc pl key value n d :
  indirectObjects (context pdfDoc) !! n = Some (PDFDict d) ->
  exists d', indirectObjects (context (Place.set pdfDoc pl key value)) !! n
             = Some (PDFDict d').
Proof.
  intros Hn. unfold Place.set, Place.update.
  destruct (Place.base pl) as [|m]; [by exists d|].
  destruct (indirectObjects (context pdfDoc) !! m) as [[ |?|?|?|?|?|?|?|d0|? ?]|] eqn:Em;
    try by exists d.
  cbn [context indirectObjects].
  destruct (decide (n = m)) as [->|Hne].
  - rewrite lookup_insert_eq. by eexists.
  - rewrite lookup_insert_ne by done. by exists d.
Qed.

(** A write into the dictionary a lookup reached leaves it reached,
    with the entry written. *)
Lemma reaches_set_child pdfDoc pl key pl' cd key2 value :
  shallow pl ->
  key <> key2 ->
  reaches pdfDoc pl key pl' cd ->
  reaches (Place.set pdfDoc pl' key2 value) pl key pl' (assoc_set key2 value cd).
Proof.
  intros Hs Hne (pd & Hr & Hl & -> & Hc).
  assert (Hc' := read_update _ _ (assoc_set key2 value) _ Hc).
  fold (Place.set pdfDoc (Place.child pl pd key) key2 value) in Hc'.
  apply Dict_lookup_typed_dict in Hl as (cd' & [= <-] & [Hd|(n & Hn & Ho)]).
  - assert (Hch : Place.child pl pd key
                  = Place.mk (Place.base pl) (Place.path pl ++ [key]))
      by (unfold Place.child; by rewrite Hd).
    rewrite Hch in *.
    exists (assoc_set key (PDFDict (assoc_set key2 value cd)) pd).
    split; [|split; [apply Dict_lookup_typed_direct, assoc_assoc_set_eq|
                     split; [unfold Place.child; by rewrite assoc_assoc_set_eq|exact Hc']]].
    unfold Place.set, Place.update, Place.read in *. cbn [Place.base Place.path] in *.
    destruct (Place.base pl) as [|m].
    + cbn [catalog]. by apply descend_update_path_app.
    + destruct (indirectObjects (context pdfDoc) !! m)
        as [[ |?|?|?|?|?|?|?|d0|? ?]|]; try discriminate.
      cbn [context indirectObjects]. rewrite lookup_insert_eq.
      by apply descend_update_path_app.
  - assert (Hch : Place.child pl pd key = objectPlace n)
      by (unfold Place.child; by rewrite Hn).
    rewrite Hch in *.
    assert (Hn' : indirectObjects (context (Place.set pdfDoc (objectPlace n) key2 value))
                    !! n = Some (PDFDict (assoc_set key2 value cd))).
    { unfold Place.set, Place.update. cbn [Place.base Place.path]. rewrite Ho.
      cbn [context indirectObjects Place.update_path]. apply lookup_insert_eq. }
    assert (Hcat : catalog (Place.set pdfDoc (objectPlace n) key2 value)
                   = catalog pdfDoc) by by apply (set_catalog_object _ _ _ _ n).
    destruct (Place.base pl) as [|m] eqn:Hb.
    + exists pd.
      split; [unfold Place.read in *; rewrite Hb in *; by rewrite Hcat|].
      split; [by apply (Dict_lookup_typed_ref _ _ _ n)|].
      split; [unfold Place.child; by rewrite Hn|exact Hc'].
    + destruct Hs as [Hs|Hs]; [congruence|].
      destruct (decide (m = n)) as [->|Hmn].
      * assert (pd = cd) as ->.
        { unfold Place.read in Hr. rewrite Hb, Ho, Hs in Hr. by injection Hr. }
        exists (assoc_set key2 value cd).
        split; [unfold Place.read; by rewrite Hb, Hn', Hs|].
        split; [apply (Dict_lookup_typed_ref _ _ _ n);
                [by rewrite assoc_assoc_set_ne|exact Hn']|].
        split; [unfold Place.child; by rewrite assoc_assoc_set_ne, Hn|exact Hc'].
      * exists pd.
        split; [unfold Place.read in *; rewrite Hb in *;
                rewrite set_lookup_other by (cbn; congruence); exact Hr|].
        split; [by apply (Dict_lookup_typed_ref _ _ _ n)|].
        split; [unfold Place.child; by rewrite Hn|exact Hc'].
Qed.

(** A write into the second level of the tree leaves the first level
    reached from the catalog. *)
Lemma reaches_set_grandchild pdfDoc k1 p1 d1 k2 p2 d2 key value :
  reaches pdfDoc rootPlace k1 p1 d1 ->
  reaches pdfDoc p1 k2 p2 d2 ->
  exists d1', reaches (Place.set pdfDoc p2 key value) rootPlace k1 p1 d1'.
Proof.
  intros (pd & [= <-] & Hl1 & -> & Hc1) (pd2 & Hr2 & Hl2 & -> & Hc2).
  assert (pd2 = d1) as -> by congruence.
  apply Dict_lookup_typed_dict in Hl1 as (cd' & [= <-] & [Hd1|(n & Hn1 & Ho1)]).
  - assert (Hp1 : Place.child rootPlace (catalog pdfDoc) k1
                  = Place.mk Place.AtCatalog [k1])
      by (unfold Place.child; by rewrite Hd1).
    rewrite Hp1 in *.
    apply Dict_lookup_typed_dict in Hl2 as (cd' & [= <-] & [Hd2|(m & Hn2 & Ho2)]).
    + assert (Hp2 : Place.child (Place.mk Place.AtCatalog [k1]) d1 k2
                    = Place.mk Place.AtCatalog [k1; k2])
        by (unfold Place.child; by rewrite Hd2).
      rewrite Hp2 in *.
      exists (Place.update_path [k2] (assoc_set key value) d1).
      assert (Hcat : assoc k1 (catalog (Place.set pdfDoc (Place.mk Place.AtCatalog [k1; k2])
                                          key value))
                     = Some (PDFDict (Place.update_path [k2] (assoc_set key value) d1))).
      { unfold Place.set, Place.update.
        cbn [Place.base Place.path catalog Place.update_path]. rewrite Hd1.
        by rewrite assoc_assoc_set_eq. }
      replace (Place.mk Place.AtCatalog [k1])
        with (Place.child rootPlace
                (catalog (Place.set pdfDoc (Place.mk Place.AtCatalog [k1; k2]) key value))
                k1)
        by (unfold Place.child; by rewrite Hcat).
      apply reaches_intro; [reflexivity|by apply Dict_lookup_typed_direct].
    + assert (Hp2 : Place.child (Place.mk Place.AtCatalog [k1]) d1 k2 = objectPlace m)
        by (unfold Place.child; by rewrite Hn2).
      rewrite Hp2 in *.
      assert (Hcat : catalog (Place.set pdfDoc (objectPlace m) key value)
                     = catalog pdfDoc) by by apply (set_catalog_object _ _ _ _ m).
      exists d1. rewrite <- Hp1, <- Hcat.
      apply reaches_intro; [reflexivity|].
      apply Dict_lookup_typed_direct. by rewrite Hcat.
  - assert (Hp1 : Place.child rootPlace (catalog pdfDoc) k1 = objectPlace n)
      by (unfold Place.child; by rewrite Hn1).
    rewrite Hp1 in *.
    set (p2 := Place.child (objectPlace n) d1 k2) in *.
    assert (Hb2 : exists m, Place.base p2 = Place.AtObject m).
    { unfold p2, Place.child. destruct (assoc k2 d1) as [[]|]; by eexists. }
    destruct Hb2 as (m & Hb2).
    assert (Hcat : catalog (Place.set pdfDoc p2 key value) = catalog pdfDoc)
      by by apply (set_catalog_object _ _ _ _ m).
    destruct (set_keeps_dict pdfDoc p2 key value n d1 Ho1) as (d1' & Hd1').
    exists d1'. rewrite <- Hp1, <- Hcat.
    apply reaches_intro; [reflexivity|].
    apply (Dict_lookup_typed_ref _ _ _ n); [by rewrite Hcat|exact Hd1'].
Qed.

Lemma Dict_lookup_typed_array ctx d key r :
  Dict_lookup_typed is_PDFArray "PDFArray" ctx d key = Ok r ->
  exists a,
    r = Some (PDFArray a)
    /\ (assoc key d = Some (PDFArray a)
        \/ exists n, assoc key d = Some (PDFRef n)
                     /\ indirectObjects ctx !! n = Some (PDFArray a)).
Proof.
  unfold Dict_lookup_typed, lookup_typed, Dict_get, Pdf.lookup.
  destruct (assoc key d) as [[ |?|?|?|?|?|n|a|?|? ?]|] eqn:E; cbn; try discriminate.
  - destruct (indirectObjects ctx !! n) as [[]|] eqn:En; cbn; try discriminate.
    intros [= <-]. eexists. split; [reflexivity|]. right. by eexists.
  - intros [= <-]. eexists. split; [reflexivity|]. by left.
Qed.

Lemma Dict_lookup_typed_array_direct ctx d key a :
  assoc key d = Some (PDFArray a) ->
  Dict_lookup_typed is_PDFArray "PDFArray" ctx d key = Ok (Some (PDFArray a)).
Proof.
  intros H. unfold Dict_lookup_typed, lookup_typed, Dict_get, Pdf.lookup.
  by rewrite H.
Qed.

Lemma Dict_lookup_typed_array_ref ctx d key n a :
  assoc key d = Some (PDFRef n) ->
  indirectObjects ctx !! n = Some (PDFArray a) ->
  Dict_lookup_typed is_PDFArray "PDFArray" ctx d key = Ok (Some (PDFArray a)).
Proof.
  intros H Hn. unfold Dict_lookup_typed, lookup_typed, Dict_get, Pdf.lookup.
  by rewrite H, Hn.
Qed.

(** [getEmbeddedFiles] on a document whose tree is reached and whose
    pair array is written in the [EmbeddedFiles] dictionary. *)
Lemma getEmbeddedFiles_run_tree pdfDoc pN pE N E namesArray :
  reaches pdfDoc rootPlace "Names" pN N ->
  reaches pdfDoc pN "EmbeddedFiles" pE E ->
  assoc "Names" E = Some (PDFArray namesArray) ->
  PDFHandler.getEmbeddedFiles_run pdfDoc
  = reported (PDFHandler.walkNames (context pdfDoc) namesArray ∅).
Proof.
  intros HN HE Ha. unfold PDFHandler.getEmbeddedFiles_run.
  rewrite (reaches_root _ _ _ _ HN).
  rewrite (reaches_from _ _ _ _ _ _ (reaches_read _ _ _ _ _ HN) HE).
  by rewrite (Dict_lookup_typed_array_direct _ _ _ _ Ha).
Qed.

(** [getEmbeddedFiles] in terms of the pair array it finds. *)
Lemma getEmbeddedFiles_run_array pdfDoc :
  PDFHandler.getEmbeddedFiles_run pdfDoc
  = match namesArrayOf pdfDoc with
    | Some namesArray => reported (PDFHandler.walkNames (context pdfDoc) namesArray ∅)
    | None => (∅, [])
    end.
Proof.
  unfold PDFHandler.getEmbeddedFiles_run, namesArrayOf.
  destruct (Dict_lookup_typed is_PDFDict "PDFDict" (context pdfDoc) (catalog pdfDoc)
              "Names") as [[[ |?|?|?|?|?|?|?|N|? ?]|]|]; try reflexivity.
  destruct (Dict_lookup_typed is_PDFDict "PDFDict" (context pdfDoc) N "EmbeddedFiles")
    as [[[ |?|?|?|?|?|?|?|E|? ?]|]|]; try reflexivity.
  by destruct (Dict_lookup_typed is_PDFArray "PDFArray" (context pdfDoc) E "Names")
    as [[[]|]|].
Qed.

Lemma reported_snd walk : snd (reported walk) = [] -> snd walk = None.
Proof. by destruct walk as [files [e|]]. Qed.

(** The array [embedFile] rewrites, in terms of the array
    [getEmbeddedFiles] walks. *)
Lemma namesArrayAt_tree pdfDoc pN pE N E :
  reaches pdfDoc rootPlace "Names" pN N ->
  reaches pdfDoc pN "EmbeddedFiles" pE E ->
  EmbeddedFileManager.namesArrayAt pdfDoc pE = default [] (namesArrayOf pdfDoc).
Proof.
  intros HN HE. unfold EmbeddedFileManager.namesArrayAt, namesArrayOf.
  rewrite (reaches_read _ _ _ _ _ HE), (reaches_root _ _ _ _ HN).
  rewrite (reaches_from _ _ _ _ _ _ (reaches_read _ _ _ _ _ HN) HE).
  by destruct (Dict_lookup_typed is_PDFArray "PDFArray" (context pdfDoc) E "Names")
    as [[[]|]|].
Qed.

(** Registering an inert object adds no pair array. *)
Lemma namesArrayOf_register pdfDoc o namesArray :
  tableBounded pdfDoc ->
  inert o ->
  namesArrayOf (fst (Place.register_in pdfDoc o)) = Some namesArray ->
  namesArrayOf pdfDoc = Some namesArray.
Proof.
  intros Hb Hi. unfold namesArrayOf, Place.register_in, register.
  cbn [fst context catalog indirectObjects].
  set (r := S (largestObjectNumber (context pdfDoc))).
  set (ctx' := mkContext (<[r := o]> (indirectObjects (context pdfDoc))) r).
  assert (Hold : forall n x, indirectObjects ctx' !! n = Some x ->
                 (n = r /\ x = o) \/ indirectObjects (context pdfDoc) !! n = Some x).
  { intros n x. unfold ctx'. cbn [indirectObjects].
    destruct (decide (n = r)) as [->|Hne].
    - rewrite lookup_insert_eq. intros [= <-]. by left.
    - rewrite lookup_insert_ne by done. by right. }
  destruct (Dict_lookup_typed is_PDFDict "PDFDict" ctx' (catalog pdfDoc) "Names")
    as [r1|] eqn:H1; [|discriminate].
  apply Dict_lookup_typed_dict in H1 as (N & -> & HN).
  destruct (Dict_lookup_typed is_PDFDict "PDFDict" ctx' N "EmbeddedFiles")
    as [r2|] eqn:H2; [|discriminate].
  apply Dict_lookup_typed_dict in H2 as (E & -> & HE).
  destruct (Dict_lookup_typed is_PDFArray "PDFArray" ctx' E "Names")
    as [r3|] eqn:H3; [|discriminate].
  apply Dict_lookup_typed_array in H3 as (a & -> & Ha).
  intros [= <-].
  assert (HN' : Dict_lookup_typed is_PDFDict "PDFDict" (context pdfDoc) (catalog pdfDoc)
                  "Names" = Ok (Some (PDFDict N))).
  { destruct HN as [HN|(n & HN & Hn)]; [by apply Dict_lookup_typed_direct|].
    apply Hold in Hn as [[-> <-]|Hn]; [|by apply (Dict_lookup_typed_ref _ _ _ n)].
    destruct Hi as [_ Hi]. destruct HE as [HE|(m & HE & _)]; congruence. }
  assert (HE' : Dict_lookup_typed is_PDFDict "PDFDict" (context pdfDoc) N
                  "EmbeddedFiles" = Ok (Some (PDFDict E))).
  { destruct HE as [HE|(n & HE & Hn)]; [by apply Dict_lookup_typed_direct|].
    apply Hold in Hn as [[-> <-]|Hn]; [|by apply (Dict_lookup_typed_ref _ _ _ n)].
    destruct Hi as [Hi _]. destruct Ha as [Ha|(m & Ha & _)]; congruence. }
  assert (Ha' : Dict_lookup_typed is_PDFArray "PDFArray" (context pdfDoc) E "Names"
                = Ok (Some (PDFArray a))).
  { destruct Ha as [Ha|(n & Ha & Hn)]; [by apply Dict_lookup_typed_array_direct|].
    apply Hold in Hn as [[-> <-]|Hn]; [|by apply (Dict_lookup_typed_array_ref _ _ _ n)].
    destruct Hi. }
  by rewrite HN', HE', Ha'.
Qed.

Lemma reaches_path pdfDoc pl key pl' cd :
  reaches pdfDoc pl key pl' cd ->
  Forall treeKey (Place.path pl) ->
  treeKey key ->
  Forall treeKey (Place.path pl').
Proof.
  intros (pd & _ & _ & -> & _) Hp Hk. unfold Place.child.
  destruct (assoc key pd) as [[]|]; cbn [Place.path];
    try (apply Forall_app; split; [exact Hp|by constructor]).
  constructor.
Qed.

Lemma reaches_shallow pdfDoc pl key pl' cd :
  reaches pdfDoc pl key pl' cd ->
  Place.base pl = Place.AtCatalog ->
  shallow pl'.
Proof.
  intros (pd & _ & _ & -> & _) Hb. unfold Place.child, shallow.
  destruct (assoc key pd) as [[]|]; cbn [Place.base Place.path]; auto.
Qed.

Lemma register_in_pair pdfDoc o :
  Place.register_in pdfDoc o
  = (fst (Place.register_in pdfDoc o), S (largestObjectNumber (context pdfDoc))).
Proof. reflexivity. Qed.

Lemma framed_register_in pdfDoc o :
  tableBounded pdfDoc ->
  framed (context pdfDoc) (context (fst (Place.register_in pdfDoc o))).
Proof. intros Hb. apply (framed_register (context pdfDoc) o), tableBounded_fresh, Hb. Qed.

(** "Get or create" along the tree writes tree entries only, and keeps
    the table within its counter. *)
Lemma getOrCreate_frame pdfDoc pl key initial pd pdfDoc' pl' :
  tableBounded pdfDoc ->
  Place.read pdfDoc pl = Some pd ->
  Forall treeKey (Place.path pl) ->
  treeKey key ->
  EmbeddedFileManager.getOrCreate pdfDoc pl key initial = (pdfDoc', pl') ->
  framed (context pdfDoc) (context pdfDoc') /\ tableBounded pdfDoc'.
Proof.
  intros Hb Hr Hp Hk Hg.
  destruct (getOrCreate_reaches _ _ _ _ _ _ _ Hb Hr Hg)
    as [(cd & _ & -> & _)|(_ & -> & _ & _)].
  - split; [apply framed_refl|exact Hb].
  - split; [|by apply tableBounded_set, tableBounded_register].
    eapply framed_trans; [by apply framed_register_in|by apply framed_set].
Qed.

End NameTree.

(** ** [embedFile] on a document whose pairs all resolve *)

Section EmbedFile.

Context (host : Host).

Lemma treeKey_Names : treeKey "Names".
Proof. by left. Qed.

Lemma treeKey_EmbeddedFiles : treeKey "EmbeddedFiles".
Proof. by right. Qed.

Lemma treePath_root : Forall treeKey (Place.path rootPlace).
Proof. constructor. Qed.

(** The two levels of the tree after the two "get or create" steps,
    and the array found there: the one [getEmbeddedFiles] walked before,
    or an empty one. *)
Lemma getOrCreate_tree pdfDoc0 pdfDoc pdfDoc3 pN pdfDoc4 pE :
  tableBounded pdfDoc ->
  (forall a, namesArrayOf pdfDoc = Some a -> namesArrayOf pdfDoc0 = Some a) ->
  snd (PDFHandler.getEmbeddedFiles_run pdfDoc0) = [] ->
  EmbeddedFileManager.getOrCreate pdfDoc rootPlace "Names" [] = (pdfDoc3, pN) ->
  EmbeddedFileManager.getOrCreate pdfDoc3 pN "EmbeddedFiles" [("Names", PDFArray [])]
  = (pdfDoc4, pE) ->
  (exists N E,
      reaches pdfDoc4 rootPlace "Names" pN N
      /\ reaches pdfDoc4 pN "EmbeddedFiles" pE E)
  /\ snd (PDFHandler.walkNames (context pdfDoc0)
            (EmbeddedFileManager.namesArrayAt pdfDoc4 pE) ∅) = None
  /\ framed (context pdfDoc) (context pdfDoc4)
  /\ tableBounded pdfDoc4.
Proof.
  intros Hb Harr Hwalk HgN HgE.
  assert (Hroot : Place.read pdfDoc rootPlace = Some (catalog pdfDoc)) by reflexivity.
  destruct (getOrCreate_frame _ _ _ _ _ _ _ Hb Hroot treePath_root treeKey_Names HgN)
    as [F3 Hb3].
  assert (HN : exists N3, reaches pdfDoc3 rootPlace "Names" pN N3
                          /\ (pdfDoc3 = pdfDoc \/ N3 = [])).
  { destruct (getOrCreate_reaches _ _ _ _ _ _ _ Hb Hroot HgN)
      as [(cd & _ & -> & Hr)|(_ & _ & _ & Hr)]; eexists; eauto. }
  destruct HN as (N3 & HN & Hcase).
  assert (HrN := reaches_read _ _ _ _ _ HN).
  assert (HpN : Forall treeKey (Place.path pN))
    by exact (reaches_path _ _ _ _ _ HN treePath_root treeKey_Names).
  destruct (getOrCreate_frame _ _ _ _ _ _ _ Hb3 HrN HpN treeKey_EmbeddedFiles HgE)
    as [F4 Hb4].
  split; [|split; [|split; [by eapply framed_trans|exact Hb4]]];
    destruct (getOrCreate_reaches _ _ _ _ _ _ _ Hb3 HrN HgE)
      as [(E & HlE & -> & HE)|(_ & -> & -> & HE)].
  - by exists N3, E.
  - eexists _, _. split; [|exact HE].
    apply reaches_set_child; [by left|discriminate|].
    by apply reaches_register.
  - rewrite (namesArrayAt_tree _ _ _ _ _ HN HE).
    destruct Hcase as [->| ->]; [|discriminate].
    destruct (namesArrayOf pdfDoc) as [a|]; [|reflexivity].
    rewrite getEmbeddedFiles_run_array, (Harr a eq_refl) in Hwalk.
    by apply reported_snd.
  - unfold EmbeddedFileManager.namesArrayAt.
    by rewrite (reaches_read _ _ _ _ _ HE).
Qed.

(** [embedFile] on a document whose table is within its counter and
    whose walk ends without an exception: the walk of the result ends
    without one too, and gives the new entry the deflated bytes. *)
Lemma embedFile_walk pdfDoc fileName fileData mimeType :
  tableBounded pdfDoc ->
  snd (PDFHandler.getEmbeddedFiles_run pdfDoc) = [] ->
  exists files,
    PDFHandler.getEmbeddedFiles_run
      (EmbeddedFileManager.embedFile host pdfDoc fileName fileData mimeType)
    = (<[PDFHandler.embeddedName fileName := pako_deflate host fileData]> files, []).
Proof.
  intros Hb Hwalk. unfold EmbeddedFileManager.embedFile.
  set (stream := EmbeddedFileManager.fileStream host fileData mimeType).
  rewrite (register_in_pair pdfDoc stream).
  set (doc1 := fst (Place.register_in pdfDoc stream)).
  set (r1 := S (largestObjectNumber (context pdfDoc))).
  rewrite (register_in_pair doc1 (EmbeddedFileManager.fileSpec fileName r1)).
  set (doc2 := fst (Place.register_in doc1 (EmbeddedFileManager.fileSpec fileName r1))).
  set (r2 := S (largestObjectNumber (context doc1))).
  assert (Hb1 : tableBounded doc1) by by apply tableBounded_register.
  assert (Hb2 : tableBounded doc2) by by apply tableBounded_register.
  assert (H1 : indirectObjects (context doc2) !! r1 = Some stream).
  { unfold doc2, doc1, Place.register_in, register.
    cbn [fst context indirectObjects largestObjectNumber].
    rewrite lookup_insert_ne by (unfold r1; lia). apply lookup_insert_eq. }
  assert (H2 : indirectObjects (context doc2) !! r2
               = Some (EmbeddedFileManager.fileSpec fileName r1)).
  { unfold doc2, Place.register_in, register.
    cbn [fst context indirectObjects]. apply lookup_insert_eq. }
  assert (F2 : framed (context pdfDoc) (context doc2)).
  { eapply framed_trans; by apply framed_register_in. }
  assert (Harr : forall a, namesArrayOf doc2 = Some a -> namesArrayOf pdfDoc = Some a).
  { intros a Ha.
    apply (namesArrayOf_register pdfDoc stream); [exact Hb|exact I|].
    apply (namesArrayOf_register doc1 (EmbeddedFileManager.fileSpec fileName r1));
      [exact Hb1|by split|exact Ha]. }
  destruct (EmbeddedFileManager.getOrCreate doc2 rootPlace "Names" [])
    as [doc3 pN] eqn:HgN.
  destruct (EmbeddedFileManager.getOrCreate doc3 pN "EmbeddedFiles"
              [("Names", PDFArray [])]) as [doc4 pE] eqn:HgE.
  destruct (getOrCreate_tree _ _ _ _ _ _ Hb2 Harr Hwalk HgN HgE)
    as ((N & E & HN & HE) & Hold & F4 & Hb4).
  set (namesArray := EmbeddedFileManager.namesArrayAt doc4 pE) in *.
  set (newNamesArray :=
         (fst (EmbeddedFileManager.rewriteNames (context doc4) fileName namesArray)
            ++ [PDFString fileName; PDFRef r2])%list).
  set (doc5 := Place.set doc4 pE "Names" (PDFArray newNamesArray)).
  assert (HpN : Forall treeKey (Place.path pN))
    by exact (reaches_path _ _ _ _ _ HN treePath_root treeKey_Names).
  assert (HpE : Forall treeKey (Place.path pE))
    by exact (reaches_path _ _ _ _ _ HE HpN treeKey_EmbeddedFiles).
  assert (F5 : framed (context doc4) (context doc5))
    by exact (framed_set _ _ _ _ HpE treeKey_Names).
  assert (HE5 : reaches doc5 pN "EmbeddedFiles" pE
                  (assoc_set "Names" (PDFArray newNamesArray) E)).
  { apply reaches_set_child; [|discriminate|exact HE].
    by apply (reaches_shallow _ _ _ _ _ HN). }
  destruct (reaches_set_grandchild _ _ _ _ _ _ _ "Names" (PDFArray newNamesArray) HN HE)
    as (N5 & HN5).
  fold doc5 in HN5.
  rewrite (getEmbeddedFiles_run_tree _ _ _ _ _ _ HN5 HE5 (assoc_assoc_set_eq _ _ _)).
  unfold newNamesArray.
  destruct (walkNames_rewritten (context pdfDoc) (context doc4) (context doc5) fileName
              namesArray (framed_trans _ _ _ F2 F4)
              (framed_trans _ _ _ (framed_trans _ _ _ F2 F4) F5) ∅ Hold
              [PDFString fileName; PDFRef r2] ∅) as (files & ->).
  assert (F25 := framed_trans _ _ _ F4 F5).
  destruct (framed_dict _ _ _ _ F25 H2) as (sd & Hsd & Hsame).
  exists files.
  rewrite (walkNames_new_pair _ fileName r1 r2 sd
             [("Filter", PDFName "FlateDecode"); ("Type", PDFName "EmbeddedFile");
              ("Subtype", PDFName mimeType);
              ("Length", PDFNumber (Z.of_nat (length fileData)))]
             (pako_deflate host fileData) files Hsd).
  - reflexivity.
  - rewrite Hsame; [reflexivity|]. intros [?|?]; discriminate.
  - exact (framed_stream _ _ _ _ _ F25 H1).
Qed.

(** [removeFile] keeps a walk that ends without an exception one. *)
Lemma removeFile_walk pdfDoc fileName :
  tableBounded pdfDoc ->
  snd (PDFHandler.getEmbeddedFiles_run pdfDoc) = [] ->
  tableBounded (fst (EmbeddedFileManager.removeFile pdfDoc fileName))
  /\ snd (PDFHandler.getEmbeddedFiles_run
            (fst (EmbeddedFileManager.removeFile pdfDoc fileName))) = [].
Proof.
  intros Hb Hwalk. unfold EmbeddedFileManager.removeFile.
  destruct (Dict_lookup_typed is_PDFDict "PDFDict" (context pdfDoc) (catalog pdfDoc)
              "Names") as [[[ |?|?|?|?|?|?|?|N|? ?]|]|] eqn:HlN; try by split.
  destruct (Dict_lookup_typed is_PDFDict "PDFDict" (context pdfDoc) N "EmbeddedFiles")
    as [[[ |?|?|?|?|?|?|?|E|? ?]|]|] eqn:HlE; try by split.
  destruct (Dict_lookup_typed is_PDFArray "PDFArray" (context pdfDoc) E "Names")
    as [[[ |?|?|?|?|?|?|namesArray|?|? ?]|]|] eqn:HlA; try by split.
  destruct (EmbeddedFileManager.rewriteNames (context pdfDoc) fileName namesArray)
    as [newNamesArray removed] eqn:Hrw.
  destruct removed; [|by split].
  cbn [fst]. split; [by apply tableBounded_set|].
  assert (Hold : snd (PDFHandler.walkNames (context pdfDoc) namesArray ∅) = None).
  { rewrite getEmbeddedFiles_run_array in Hwalk. unfold namesArrayOf in Hwalk.
    rewrite HlN, HlE, HlA in Hwalk. by apply reported_snd. }
  set (pN := Place.child rootPlace (catalog pdfDoc) "Names").
  set (pE := Place.child pN N "EmbeddedFiles").
  assert (HN : reaches pdfDoc rootPlace "Names" pN N) by by apply reaches_intro.
  assert (HE : reaches pdfDoc pN "EmbeddedFiles" pE E)
    by (apply reaches_intro; [exact (reaches_read _ _ _ _ _ HN)|exact HlE]).
  set (doc' := Place.set pdfDoc pE "Names" (PDFArray newNamesArray)).
  assert (HpN : Forall treeKey (Place.path pN))
    by exact (reaches_path _ _ _ _ _ HN treePath_root treeKey_Names).
  assert (HpE : Forall treeKey (Place.path pE))
    by exact (reaches_path _ _ _ _ _ HE HpN treeKey_EmbeddedFiles).
  assert (F : framed (context pdfDoc) (context doc'))
    by exact (framed_set _ _ _ _ HpE treeKey_Names).
  assert (HE' : reaches doc' pN "EmbeddedFiles" pE
                  (assoc_set "Names" (PDFArray newNamesArray) E)).
  { apply reaches_set_child; [|discriminate|exact HE].
    by apply (reaches_shallow _ _ _ _ _ HN). }
  destruct (reaches_set_grandchild _ _ _ _ _ _ _ "Names" (PDFArray newNamesArray) HN HE)
    as (N' & HN').
  fold doc' in HN'.
  rewrite (getEmbeddedFiles_run_tree _ _ _ _ _ _ HN' HE' (assoc_assoc_set_eq _ _ _)).
  destruct (walkNames_rewritten (context pdfDoc) (context pdfDoc) (context doc') fileName
              namesArray (framed_refl _) F ∅ Hold [] ∅) as (files & Hfiles).
  rewrite Hrw, app_nil_r in Hfiles. cbn [fst] in Hfiles. by rewrite Hfiles.
Qed.

End EmbedFile.

(** ** Round trip on a document whose pairs all resolve *)

Section RoundTripResolvable.

Context (host : Host) (laws : CodecLaws host).

Lemma storedBytes_finishInjection pdfDoc data options dataBytes :
  tableBounded pdfDoc ->
  snd (PDFHandler.getEmbeddedFiles_run pdfDoc) = [] ->
  storedBytes (finishInjection host pdfDoc data options dataBytes)
  = Some (pako_deflate host dataBytes).
Proof.
  intros Hb Hw. unfold finishInjection. rewrite !storedBytes_addMetadata.
  set (doc' := if overwrite options
               then fst (EmbeddedFileManager.removeFile pdfDoc EMBEDDED_FILE_NAME)
               else pdfDoc).
  assert (H' : tableBounded doc' /\ snd (PDFHandler.getEmbeddedFiles_run doc') = []).
  { unfold doc'. destruct (overwrite options); [by apply removeFile_walk|by split]. }
  destruct H' as [Hb' Hw'].
  destruct (embedFile_walk host doc' EMBEDDED_FILE_NAME dataBytes MIME_TYPE Hb' Hw')
    as (files & Hrun).
  unfold storedBytes, PDFHandler.getEmbeddedFiles. rewrite Hrun.
  apply lookup_insert_eq.
Qed.

(** X3. Injection into a document whose object table is within its
    counter and whose embedded-file walk ends without an exception,
    followed by extraction with default options, returns the envelope
    whose [payload] is the injected value: the document holds no payload
    yet or [overwrite] is set, the host's codecs obey [CodecLaws], the
    serialized envelope reads back ([jsonFaithful]) and the bytes to
    embed are within the size limit. *)
Theorem round_trip_resolvable pdfDoc data options payload0 payload dataBytes
    willCompress :
  tableBounded pdfDoc ->
  snd (PDFHandler.getEmbeddedFiles_run pdfDoc) = [] ->
  overwrite options = true \/ storedBytes pdfDoc = None ->
  StructPDFInjector.preparePayload host data options = Ok payload0 ->
  StructPDFInjector.serializePayload host payload0 options
  = Ok (payload, dataBytes, willCompress) ->
  Z.of_nat (length dataBytes) <= MAX_PAYLOAD_SIZE ->
  jsonFaithful host payload ->
  StructPDFInjector.injectDocument host pdfDoc data options
  = Ok (finishInjection host pdfDoc data options dataBytes, payload, willCompress)
  /\ StructPDFExtractor.extractDocument host
       (finishInjection host pdfDoc data options dataBytes) defaultExtractionOptions
     = Ok (succeeded payload)
  /\ payloadOf payload = Some data.
Proof.
  intros Hb Hw Hguard Hp Hs Hsize Hj.
  destruct (domainOf_prepared host _ _ _ _ _ _ Hp Hs) as [Hdom Hpay].
  split; [|split; [|exact Hpay]].
  - unfold StructPDFInjector.injectDocument.
    assert (Hg : negb (overwrite options) && PDFHandler.hasStructPDFData pdfDoc = false).
    { destruct Hguard as [->|Hn]; [reflexivity|].
      rewrite hasStructPDFData_stored, Hn. apply andb_false_r. }
    rewrite Hg, Hp. cbn [Js.bind].
    rewrite Hs. cbn [Js.bind].
    destruct (Z.gtb_spec (Z.of_nat (length dataBytes)) MAX_PAYLOAD_SIZE) as [?|_]; [lia|].
    unfold finishInjection. by rewrite Hdom.
  - rewrite (extractDocument_stored host _ _ _
               (storedBytes_finishInjection _ data options dataBytes Hb Hw)).
    rewrite (parseStored_injected host laws _ _ _ _ _ defaultExtractionOptions Hs Hj);
      [reflexivity|discriminate].
Qed.

End RoundTripResolvable.

Lemma round_trip_resolvable_witness :
  exists pdfDoc payload,
    StructPDFInjector.injectDocument RefHost.host documentWithAttachment
      (paddedPayload 900) (exampleOptions true true false)
    = Ok (pdfDoc, payload, true)
    /\ StructPDFExtractor.extractDocument RefHost.host pdfDoc defaultExtractionOptions
       = Ok (succeeded payload)
    /\ payloadOf payload = Some (paddedPayload 900).
Proof.
  eexists _, _.
  refine (round_trip_resolvable RefHost.host RefHost_laws documentWithAttachment
            (paddedPayload 900) (exampleOptions true true false) _ _ _ true
            _ _ _ _ _ _ _).
  - apply (bool_decide_unpack _). vm_compute. exact I.
  - vm_compute. reflexivity.
  - right. vm_compute. reflexivity.
  - vm_compute. reflexivity.
  - vm_compute. reflexivity.
  - vm_compute. discriminate.
  - split; vm_compute; reflexivity.
Defined.

(** * Further properties of the sources *)

(** ** [compress] and [decompress] *)

Section CodecErrors.

Context (host : Host).

(** X4. What [compress] returns carries the gzip magic number, and
    [decompress] gives the data back: the host's codecs obey
    [CodecLaws]. *)
Theorem compress_then_decompress (laws : CodecLaws host) data c :
  compress host data = Ok c ->
  isGzip c = true /\ decompress host c = Ok data.
Proof.
  intros Hc. apply compress_Ok in Hc. split.
  - exact (gzip_header host laws _ _ Hc).
  - by apply decompress_gzip.
Qed.

(** X5. [decompress] on input it cannot handle: fewer than two bytes,
    or two bytes that are neither [1F 8B] nor [78 9C]; and whatever it
    throws is a plain [Error] whose message starts with
    [Decompression failed: ]. *)
Theorem decompress_rejects data :
  ((length data < 2)%nat ->
   decompress host data
   = Throw (new_Error "Decompression failed: Data too small for compression detection"))
  /\ ((2 <= length data)%nat -> isGzip data = false -> isZlib data = false ->
      decompress host data
      = Throw (new_Error "Decompression failed: Unknown compression format"))
  /\ forall e,
       decompress host data = Throw e ->
       cls e = PlainError
       /\ exists reason, message e = "Decompression failed: " +:+ reason.
Proof.
  unfold decompress, COMPRESSION_SETTINGS_DETECTION_THRESHOLD.
  split; [|split].
  - intros Hlen. apply Nat.ltb_lt in Hlen. by rewrite Hlen.
  - intros Hlen Hg Hz. apply Nat.ltb_ge in Hlen. by rewrite Hlen, Hg, Hz.
  - intros e.
    destruct (length data <? 2)%nat; [intros [= <-]; split; [reflexivity|by eexists]|].
    destruct (isGzip data).
    { destruct (pako_ungzip host data) as [out|e0]; [discriminate|].
      intros [= <-]. split; [reflexivity|by eexists]. }
    destruct (isZlib data).
    { destruct (pako_inflate host data) as [out|e0]; [discriminate|].
      intros [= <-]. split; [reflexivity|by eexists]. }
    intros [= <-]. split; [reflexivity|by eexists].
Qed.

End CodecErrors.

Lemma compress_then_decompress_witness :
  isGzip (x1f :: x8b :: adaPlain) = true
  /\ decompress RefHost.host (x1f :: x8b :: adaPlain) = Ok adaPlain.
Proof. exact (compress_then_decompress RefHost.host RefHost_laws adaPlain _ eq_refl). Defined.

Lemma decompress_rejects_witness :
  decompress RefHost.host [x1f]
  = Throw (new_Error "Decompression failed: Data too small for compression detection")
  /\ decompress RefHost.host [x78; xda; x00]
     = Throw (new_Error "Decompression failed: Unknown compression format").
Proof.
  split.
  - apply (decompress_rejects RefHost.host [x1f]). simpl. lia.
  - apply (decompress_rejects RefHost.host [x78; xda; x00]);
      [simpl; lia|reflexivity|reflexivity].
Defined.

(** ** Extraction options on an injected document *)

Section ExtractionOptions.

Context (host : Host) (laws : CodecLaws host).

(** The integrity block [preparePayload] writes verifies: the digest is
    taken of the same serialization on both sides. *)
Lemma verify_prepared data options payload0 payload dataBytes willCompress xoptions :
  StructPDFInjector.preparePayload host data options = Ok payload0 ->
  StructPDFInjector.serializePayload host payload0 options
  = Ok (payload, dataBytes, willCompress) ->
  StructPDFExtractor.verify host payload xoptions = Ok None.
Proof.
  intros Hp Hs.
  assert (Hshape : payload = payload0
                   \/ payload = StructPDFInjector.setCompressed payload0).
  { apply serializePayload_Ok in Hs as [(_ & -> & _)|(_ & -> & _)]; auto. }
  clear Hs. unfold StructPDFInjector.preparePayload in Hp.
  unfold StructPDFExtractor.verify.
  destruct (verifyIntegrity xoptions); [|reflexivity].
  destruct (addIntegrity options).
  - destruct (crypto_createHash_hex host "sha256" (JSON_stringify host data))
      as [hash|e] eqn:Hh; [|discriminate].
    cbn [Js.bind] in Hp. injection Hp as <-.
    destruct Hshape as [-> | ->]; cbn; rewrite Hh; cbn; by rewrite String.eqb_refl.
  - cbn [Js.bind] in Hp. injection Hp as <-.
    by destruct Hshape as [-> | ->].
Qed.

(** X6. Extraction after injection with integrity verification switched
    on: the document's table is within its counter, its walk ends
    without an exception and the serialized envelope reads back.  The
    result is success with the injected envelope, whether the injection
    added an integrity block (it is verified) or not (nothing to
    verify), for every [decompress] option but [false]. *)
Theorem extraction_verifies_injected pdfDoc data options pdfDoc' payload willCompress
    xoptions :
  tableBounded pdfDoc ->
  snd (PDFHandler.getEmbeddedFiles_run pdfDoc) = [] ->
  StructPDFInjector.injectDocument host pdfDoc data options
  = Ok (pdfDoc', payload, willCompress) ->
  jsonFaithful host payload ->
  decompress_opt xoptions <> Some false ->
  StructPDFExtractor.extractDocument host pdfDoc' xoptions = Ok (succeeded payload)
  /\ payloadOf payload = Some data.
Proof.
  intros Hb Hw Hi Hj Hx.
  apply injectDocument_Ok in Hi as (payload0 & dataBytes & _ & Hp & Hs & _ & ->).
  split; [|exact (proj2 (domainOf_prepared host _ _ _ _ _ _ Hp Hs))].
  rewrite (extractDocument_stored host _ _ _
             (storedBytes_finishInjection host _ data options dataBytes Hb Hw)).
  rewrite (parseStored_injected host laws _ _ _ _ _ xoptions Hs Hj Hx).
  by rewrite (verify_prepared _ _ _ _ _ _ xoptions Hp Hs).
Qed.

(** X7. Extraction with [decompress: false] fails on what an injection
    makes of a document whose table is within its counter and whose
    walk ends without an exception, whether or not the injector
    compressed: the extractor finds the entry, the stream writer has
    deflated what was embedded, and the extractor takes the zlib header
    for compression. *)
Theorem decompress_false_fails_after_injection pdfDoc data options pdfDoc' payload
    willCompress verifyIntegrity :
  tableBounded pdfDoc ->
  snd (PDFHandler.getEmbeddedFiles_run pdfDoc) = [] ->
  StructPDFInjector.injectDocument host pdfDoc data options
  = Ok (pdfDoc', payload, willCompress) ->
  StructPDFExtractor.extractDocument host pdfDoc'
    (mkExtractionOptions (Some false) verifyIntegrity)
  = Ok (StructPDFExtractor.failure
          "Failed to parse StructPDF data: Data is compressed but decompress option is false").
Proof.
  intros Hb Hw Hi.
  apply injectDocument_Ok in Hi as (payload0 & dataBytes & _ & _ & _ & _ & ->).
  rewrite (extractDocument_stored host _ _ _
             (storedBytes_finishInjection host _ data options dataBytes Hb Hw)).
  unfold StructPDFExtractor.parseStored, isStillCompressed.
  rewrite (deflate_header host laws), orb_true_r. reflexivity.
Qed.

End ExtractionOptions.

Lemma extraction_verifies_injected_witness :
  exists pdfDoc payload,
    StructPDFInjector.injectDocument RefHost.host documentWithAttachment
      (paddedPayload 900) (exampleOptions true true false)
    = Ok (pdfDoc, payload, true)
    /\ StructPDFExtractor.extractDocument RefHost.host pdfDoc verifyingOptions
       = Ok (succeeded payload)
    /\ payloadOf payload = Some (paddedPayload 900).
Proof.
  eexists _, _. split; [vm_compute; reflexivity|].
  eapply (extraction_verifies_injected RefHost.host RefHost_laws documentWithAttachment
           (paddedPayload 900) (exampleOptions true true false) _ _ true
           verifyingOptions).
  - apply (bool_decide_unpack _). vm_compute. exact I.
  - vm_compute. reflexivity.
  - vm_compute. reflexivity.
  - split; vm_compute; reflexivity.
  - discriminate.
Defined.

Lemma decompress_false_fails_witness :
  exists pdfDoc payload,
    StructPDFInjector.injectDocument RefHost.host documentWithAttachment adaPayload
      (exampleOptions false false false)
    = Ok (pdfDoc, payload, false)
    /\ StructPDFExtractor.extractDocument RefHost.host pdfDoc
         (mkExtractionOptions (Some false) false)
       = Ok (StructPDFExtractor.failure
               "Failed to parse StructPDF data: Data is compressed but decompress option is false").
Proof.
  eexists _, _. split; [vm_compute; reflexivity|].
  eapply (decompress_false_fails_after_injection RefHost.host RefHost_laws
           documentWithAttachment adaPayload (exampleOptions false false false) _ _
           false false).
  - apply (bool_decide_unpack _). vm_compute. exact I.
  - vm_compute. reflexivity.
  - vm_compute. reflexivity.
Defined.

(** ** The compression threshold *)

Section SizeBoundary.

Context (host : Host) (laws : CodecLaws host).

(** An injection past the guard and the size check builds
    [finishInjection]. *)
Lemma injectDocument_finish pdfDoc data options payload0 payload dataBytes
    willCompress :
  overwrite options = true \/ storedBytes pdfDoc = None ->
  StructPDFInjector.preparePayload host data options = Ok payload0 ->
  StructPDFInjector.serializePayload host payload0 options
  = Ok (payload, dataBytes, willCompress) ->
  Z.of_nat (length dataBytes) <= MAX_PAYLOAD_SIZE ->
  StructPDFInjector.injectDocument host pdfDoc data options
  = Ok (finishInjection host pdfDoc data options dataBytes, payload, willCompress).
Proof.
  intros Hguard Hp Hs Hsize.
  destruct (domainOf_prepared host _ _ _ _ _ _ Hp Hs) as [Hdom _].
  unfold StructPDFInjector.injectDocument.
  assert (Hg : negb (overwrite options) && PDFHandler.hasStructPDFData pdfDoc = false).
  { destruct Hguard as [->|Hn]; [reflexivity|].
    rewrite hasStructPDFData_stored, Hn. apply andb_false_r. }
  rewrite Hg, Hp. cbn [Js.bind]. rewrite Hs. cbn [Js.bind].
  destruct (Z.gtb_spec (Z.of_nat (length dataBytes)) MAX_PAYLOAD_SIZE) as [?|_]; [lia|].
  unfold finishInjection. by rewrite Hdom.
Qed.

(** The envelope [setCompressed] returns, against the envelope it was
    given. *)
Lemma setCompressed_flaggedAs data options payload :
  StructPDFInjector.preparePayload host data options = Ok payload ->
  metadataField payload "compressed" = Some (JBool false)
  /\ flaggedAs true payload (StructPDFInjector.setCompressed payload).
Proof.
  unfold StructPDFInjector.preparePayload, flaggedAs, metadataField, fieldOf.
  assert (Hfield : forall (k : string) (x y : JSONValue) pre,
             k <> "metadata" ->
             assoc k (pre ++ [("metadata", x)]) = assoc k (pre ++ [("metadata", y)])).
  { intros k x y pre Hk. induction pre as [|[k' v] pre IH]; cbn [app assoc].
    - by destruct (String.eqb_spec k "metadata").
    - by rewrite IH. }
  destruct (addIntegrity options).
  - destruct (crypto_createHash_hex host "sha256" _) as [hash|e]; cbn [Js.bind];
      [|discriminate].
    intros [= <-]. cbn. repeat split.
    + intros k Hk.
      exact (Hfield k _ _ [("domain", _); ("version", _); ("schema", _); ("payload", _)]
               Hk).
    + intros k Hk.
      repeat match goal with
             | |- context [String.eqb k ?x] =>
                 destruct (String.eqb_spec k x) as [->|?]; [done|]
             end; reflexivity.
  - cbn [Js.bind]. intros [= <-]. cbn. repeat split.
    + intros k Hk.
      exact (Hfield k _ _ [("domain", _); ("version", _); ("schema", _); ("payload", _)]
               Hk).
    + intros k Hk.
      repeat match goal with
             | |- context [String.eqb k ?x] =>
                 destruct (String.eqb_spec k x) as [->|?]; [done|]
             end; reflexivity.
Qed.

(** C3 (amended). With [compress: true], on a document whose walk ends
    without an exception and that passes the guard.  An envelope whose
    serialization is exactly 1024 bytes long is not compressed by the
    injector: [metadata.compressed] stays [false], and what is stored
    under the reserved name is that serialization as the stream writer
    deflates it.  At 1025 bytes the envelope is the same (keys, order
    and values) but for [metadata.compressed], which [setCompressed]
    has made [true]; it is serialized again,
    that serialization is gzipped, and what is stored is the gzipped
    bytes as the stream writer deflates them.  In both cases extraction
    with default options returns the envelope with the flag as it was
    persisted. *)
Theorem compression_size_boundary
    (pdfDoc : PDFDocument) (data : JSONValue) (options : InjectionOptions)
    (payload : JSONValue) :
  tableBounded pdfDoc ->
  snd (PDFHandler.getEmbeddedFiles_run pdfDoc) = [] ->
  overwrite options = true \/ storedBytes pdfDoc = None ->
  compress_opt options = true ->
  StructPDFInjector.preparePayload host data options = Ok payload ->
  let serialize v := TextEncoder_encode host (JSON_stringify_indent2 host v) in
  (Z.of_nat (length (serialize payload)) = 1024 ->
   metadataField payload "compressed" = Some (JBool false)
   /\ exists pdfDoc',
        StructPDFInjector.injectDocument host pdfDoc data options
        = Ok (pdfDoc', payload, false)
        /\ storedBytes pdfDoc' = Some (pako_deflate host (serialize payload))
        /\ (jsonFaithful host payload ->
            StructPDFExtractor.extractDocument host pdfDoc' defaultExtractionOptions
            = Ok (succeeded payload)))
  /\ (Z.of_nat (length (serialize payload)) = 1025 ->
      let envelope := StructPDFInjector.setCompressed payload in
      flaggedAs true payload envelope
      /\ forall gz,
           compress host (serialize envelope) = Ok gz ->
           Z.of_nat (length gz) <= MAX_PAYLOAD_SIZE ->
           isGzip gz = true
           /\ exists pdfDoc',
                StructPDFInjector.injectDocument host pdfDoc data options
                = Ok (pdfDoc', envelope, true)
                /\ storedBytes pdfDoc' = Some (pako_deflate host gz)
                /\ (jsonFaithful host envelope ->
                    StructPDFExtractor.extractDocument host pdfDoc'
                      defaultExtractionOptions
                    = Ok (succeeded envelope))).
Proof.
  intros Hb Hw Hguard Hc Hp serialize.
  destruct (setCompressed_flaggedAs _ _ _ Hp) as [Hfalse Hflagged].
  assert (Hextract : forall envelope dataBytes willCompress,
             StructPDFInjector.serializePayload host payload options
             = Ok (envelope, dataBytes, willCompress) ->
             jsonFaithful host envelope ->
             StructPDFExtractor.extractDocument host
               (finishInjection host pdfDoc data options dataBytes)
               defaultExtractionOptions
             = Ok (succeeded envelope)).
  { intros envelope dataBytes willCompress Hs Hj.
    rewrite (extractDocument_stored host _ _ _
               (storedBytes_finishInjection host _ data options dataBytes Hb Hw)).
    rewrite (parseStored_injected host laws _ _ _ _ _ defaultExtractionOptions Hs Hj);
      [reflexivity|discriminate]. }
  split; intros Hlen.
  - split; [exact Hfalse|].
    assert (Hs : StructPDFInjector.serializePayload host payload options
                 = Ok (payload, serialize payload, false)).
    { unfold StructPDFInjector.serializePayload. fold (serialize payload).
      rewrite Hc, Hlen. reflexivity. }
    exists (finishInjection host pdfDoc data options (serialize payload)).
    split; [|split].
    + apply (injectDocument_finish _ _ _ payload); try assumption.
      rewrite Hlen. unfold MAX_PAYLOAD_SIZE. lia.
    + exact (storedBytes_finishInjection host _ data options _ Hb Hw).
    + exact (Hextract _ _ _ Hs).
  - cbv zeta. split; [exact Hflagged|].
    intros gz Hgz Hsize.
    assert (Hs : StructPDFInjector.serializePayload host payload options
                 = Ok (StructPDFInjector.setCompressed payload, gz, true)).
    { transitivity (let! dataBytes :=
                      compress host (serialize (StructPDFInjector.setCompressed payload)) in
                    Ok (StructPDFInjector.setCompressed payload, dataBytes, true)).
      - unfold StructPDFInjector.serializePayload. fold (serialize payload).
        rewrite Hc, Hlen. reflexivity.
      - by rewrite Hgz. }
    split; [exact (gzip_header host laws _ _ (compress_Ok host _ _ Hgz))|].
    exists (finishInjection host pdfDoc data options gz).
    split; [|split].
    + by apply (injectDocument_finish _ _ _ payload).
    + exact (storedBytes_finishInjection host _ data options _ Hb Hw).
    + exact (Hextract _ _ _ Hs).
Qed.

End SizeBoundary.

(** C3 (counterexample). An envelope whose serialization is exactly
    1024 bytes long, injected with [compress: true]: the injector does
    not compress, yet the bytes stored under the reserved name (those
    the extractor inspects for a compression header) are not the plain
    serialization.  They are its deflate, which starts with [78 9C],
    and extraction with [decompress: false] refuses them as
    compressed. *)
Lemma stored_bytes_at_threshold_not_plain :
  exists pdfDoc envelope,
    StructPDFInjector.injectDocument RefHost.host RefHost.emptyDocument
      (paddedPayload 820) (exampleOptions true false false)
    = Ok (pdfDoc, envelope, false)
    /\ length (list_byte_of_string (RefHost.print envelope)) = 1024%nat
    /\ metadataField envelope "compressed" = Some (JBool false)
    /\ storedBytes pdfDoc <> Some (list_byte_of_string (RefHost.print envelope))
    /\ storedBytes pdfDoc
       = Some (x78 :: x9c :: list_byte_of_string (RefHost.print envelope))
    /\ StructPDFExtractor.extractDocument RefHost.host pdfDoc
         (mkExtractionOptions (Some false) false)
       = Ok (StructPDFExtractor.failure
               "Failed to parse StructPDF data: Data is compressed but decompress option is false").
Proof.
  destruct (StructPDFInjector.injectDocument RefHost.host RefHost.emptyDocument
              (paddedPayload 820) (exampleOptions true false false))
    as [[[pdfDoc envelope] wc]|e] eqn:H; vm_compute in H; [|discriminate].
  injection H as <- <- <-.
  eexists _, _. split; [reflexivity|].
  split; [vm_compute; reflexivity|]. split; [reflexivity|].
  split; [|split; vm_compute; reflexivity].
  intros Heq. apply (f_equal (fmap (M:=option) length)) in Heq.
  vm_compute in Heq. discriminate.
Qed.

Lemma compression_size_boundary_witness :
  (exists pdfDoc payload,
      StructPDFInjector.injectDocument RefHost.host documentWithAttachment
        (paddedPayload 820) (exampleOptions true false false)
      = Ok (pdfDoc, payload, false)
      /\ length (list_byte_of_string (RefHost.print payload)) = 1024%nat
      /\ storedBytes pdfDoc
         = Some (RefHost.deflate (list_byte_of_string (RefHost.print payload)))
      /\ StructPDFExtractor.extractDocument RefHost.host pdfDoc defaultExtractionOptions
         = Ok (succeeded payload)
      /\ metadataField payload "compressed" = Some (JBool false))
  /\ (exists pdfDoc envelope,
         StructPDFInjector.injectDocument RefHost.host documentWithAttachment
           (paddedPayload 821) (exampleOptions true false false)
         = Ok (pdfDoc, envelope, true)
         /\ storedBytes pdfDoc
            = Some (RefHost.deflate
                      (x1f :: x8b :: list_byte_of_string (RefHost.print envelope)))
         /\ StructPDFExtractor.extractDocument RefHost.host pdfDoc
              defaultExtractionOptions
            = Ok (succeeded envelope)
         /\ metadataField envelope "compressed" = Some (JBool true)).
Proof.
  split.
  - destruct (StructPDFInjector.preparePayload RefHost.host (paddedPayload 820)
                (exampleOptions true false false)) as [payload|e] eqn:Hp;
      vm_compute in Hp; [|discriminate].
    injection Hp as Hpayload.
    destruct (proj1 (compression_size_boundary RefHost.host RefHost_laws
                       documentWithAttachment (paddedPayload 820)
                       (exampleOptions true false false) payload
                       documentWithAttachment_bounded eq_refl
                       (or_intror eq_refl) eq_refl
                       ltac:(rewrite <- Hpayload; vm_compute; reflexivity)))
      as (Hflag & pdfDoc & Hi & Hst & Hx).
    { rewrite <- Hpayload. vm_compute. reflexivity. }
    exists pdfDoc, payload. split; [exact Hi|].
    split; [rewrite <- Hpayload; vm_compute; reflexivity|].
    split; [exact Hst|]. split; [|exact Hflag].
    apply Hx. rewrite <- Hpayload. split; vm_compute; reflexivity.
  - destruct (StructPDFInjector.preparePayload RefHost.host (paddedPayload 821)
                (exampleOptions true false false)) as [payload|e] eqn:Hp;
      vm_compute in Hp; [|discriminate].
    injection Hp as Hpayload.
    destruct (proj2 (compression_size_boundary RefHost.host RefHost_laws
                       documentWithAttachment (paddedPayload 821)
                       (exampleOptions true false false) payload
                       documentWithAttachment_bounded eq_refl
                       (or_intror eq_refl) eq_refl
                       ltac:(rewrite <- Hpayload; vm_compute; reflexivity)))
      as (Hflagged & Hgz).
    { rewrite <- Hpayload. vm_compute. reflexivity. }
    destruct (Hgz (x1f :: x8b
                     :: list_byte_of_string
                          (RefHost.print (StructPDFInjector.setCompressed payload)))
                eq_refl) as (_ & pdfDoc & Hi & Hst & Hx).
    { rewrite <- Hpayload. vm_compute. discriminate. }
    exists pdfDoc, (StructPDFInjector.setCompressed payload).
    split; [exact Hi|]. split; [exact Hst|].
    split; [|exact (proj2 (proj2 (proj2 (proj2 Hflagged))))].
    apply Hx. rewrite <- Hpayload. split; vm_compute; reflexivity.
Defined.

(** ** Presence detection *)

Section Presence.

Context (host : Host) (laws : CodecLaws host).


End Presence.


(** ** Input validation *)

Section Validation.

Context (host : Host).

(** Induction on a JSON value, with the hypothesis for every element of
    an array and every value of an object. *)
Lemma JSONValue_nested_ind (P : JSONValue -> Prop) :
  P JNull ->
  (forall b, P (JBool b)) ->
  (forall n, P (JNumber n)) ->
  (forall s, P (JString s)) ->
  (forall items, Forall P items -> P (JArray items)) ->
  (forall fields, Forall (fun kv => P (snd kv)) fields -> P (JObject fields)) ->
  forall v, P v.
Proof.
  intros HN HB HZ HS HA HO.
  fix IH 1. intros [ |b|n|s|items|fields].
  - exact HN.
  - apply HB.
  - apply HZ.
  - apply HS.
  - apply HA. induction items as [|x items IHl]; constructor; [apply IH|exact IHl].
  - apply HO. induction fields as [|[k x] fields IHl]; constructor;
      [apply IH|exact IHl].
Qed.

Lemma forallb_false_In {A : Type} (f : A -> bool) l :
  forallb f l = false <-> exists x, In x l /\ f x = false.
Proof.
  induction l as [|a l IH]; simpl.
  - split; [discriminate|]. by intros (x & [] & _).
  - rewrite andb_false_iff, IH. split.
    + intros [Ha|(x & Hx & Hf)]; [by exists a; auto|exists x; auto].
    + intros (x & [->|Hx] & Hf); [by left|right; by exists x].
Qed.

(** X8. [validateJSON] rejects a value exactly when an object with an
    own key [constructor] occurs in it, at any depth. *)
Theorem validateJSON_rejects_constructor_key data :
  JSONValidator.validateJSON data = false
  <-> exists v, subvalue v data /\ hasConstructorKey v.
Proof.
  induction data as [ |b|n|s|items IH|fields IH] using JSONValue_nested_ind.
  1-4: split; [discriminate|];
       intros (v & Hsub & fields & -> & _); inversion Hsub.
  - cbn [JSONValidator.validateJSON]. rewrite forallb_false_In.
    assert (IH' : forall x, In x items ->
                  JSONValidator.validateJSON x = false
                  <-> exists v, subvalue v x /\ hasConstructorKey v).
    { intros x Hx. rewrite List.Forall_forall in IH. by apply IH. }
    clear IH. rename IH' into IH. split.
    + intros (x & Hx & Hf). apply (IH x Hx) in Hf as (v & Hsub & Hv).
      exists v. split; [by apply (subvalue_item v items x)|exact Hv].
    + intros (v & Hsub & Hv). inversion Hsub as [Heq|items' x Hx Hsub' Heq|]; subst.
      * by destruct Hv as (fields & [=] & _).
      * exists x. split; [exact Hx|]. apply (IH x Hx). by exists v.
  - cbn [JSONValidator.validateJSON].
    assert (IH' : forall kv, In kv fields ->
                  JSONValidator.validateJSON (snd kv) = false
                  <-> exists v, subvalue v (snd kv) /\ hasConstructorKey v).
    { intros x Hx. rewrite List.Forall_forall in IH. by apply IH. }
    clear IH. rename IH' into IH. split.
    + destruct (assoc "constructor" fields) as [c|] eqn:Hc.
      * intros _. exists (JObject fields). split; [constructor|].
        exists fields. by rewrite Hc.
      * rewrite forallb_false_In. intros ([k x] & Hx & Hf).
        apply (IH _ Hx) in Hf as (v & Hsub & Hv).
        exists v. split; [by apply (subvalue_field v fields k x)|exact Hv].
    + intros (v & Hsub & Hv).
      inversion Hsub as [Heq| |fields' k x Hx Hsub' Heq]; subst.
      * destruct Hv as (fields' & [= <-] & [c Hc]). by rewrite Hc.
      * destruct (assoc "constructor" fields); [reflexivity|].
        apply forallb_false_In. exists (k, x). split; [exact Hx|].
        apply (IH _ Hx). by exists v.
Qed.

(** X9. [validateInputs] accepts exactly the inputs whose data passes
    [validateJSON] and whose schema URL parses: the localhost and
    non-HTTPS advisories of [validateSchemaURL] never reject; the data
    is checked before the URL. *)
Theorem validateInputs_accepts data options :
  (StructPDFInjector.validateInputs host data options = Ok tt
   <-> JSONValidator.validateJSON data = true
       /\ URLValidator.validateURL host (schemaUrl options) = true)
  /\ (JSONValidator.validateJSON data = false ->
      StructPDFInjector.validateInputs host data options
      = Throw (mkError ValidationError "Validation failed: Invalid JSON data provided"))
  /\ (JSONValidator.validateJSON data = true ->
      URLValidator.validateURL host (schemaUrl options) = false ->
      StructPDFInjector.validateInputs host data options
      = Throw (mkError ValidationError "Validation failed: Invalid schema URL provided")).
Proof.
  unfold StructPDFInjector.validateInputs, URLValidator.validateSchemaURL.
  destruct (JSONValidator.validateJSON data); cbn [negb].
  2:{ split; [split; [discriminate|by intros [? _]]|].
      split; [reflexivity|discriminate]. }
  destruct (URLValidator.validateURL host (schemaUrl options)); cbn [negb].
  2:{ split; [split; [discriminate|by intros [_ ?]]|].
      split; [discriminate|reflexivity]. }
  assert (Hv : URLValidator.valid
                 (if includes (schemaUrl options) "localhost"
                     || includes (schemaUrl options) "127.0.0.1"
                  then URLValidator.mkValidation true
                         (Some "Schema URL points to localhost - may not be accessible in production")
                  else if negb (startsWith (schemaUrl options) "https://")
                       then URLValidator.mkValidation true
                              (Some "Schema URL is not using HTTPS - consider using a secure connection")
                       else URLValidator.mkValidation true None) = true).
  { destruct (_ || _); [reflexivity|]. by destruct (negb _). }
  rewrite Hv. cbn [negb].
  split; [by split|]. split; discriminate.
Qed.

End Validation.

(** ** What the entry points throw and report *)

Section EntryErrors.

Context (host : Host).

(** [validatePath] throws plain [Error]s only. *)
Lemma validatePath_throws_plain filePath e :
  PathValidator.validatePath host filePath = Throw e -> cls e = PlainError.
Proof.
  unfold PathValidator.validatePath.
  repeat match goal with
         | |- context [if ?c then _ else _] => destruct c
         end; by intros [= <-].
Qed.

(** [validateInputs] throws [ValidationError]s only. *)
Lemma validateInputs_throws_ValidationError data options e :
  StructPDFInjector.validateInputs host data options = Throw e ->
  cls e = ValidationError.
Proof.
  unfold StructPDFInjector.validateInputs.
  repeat match goal with
         | |- context [if ?c then _ else _] => destruct c
         end; by intros [= <-].
Qed.

(** X10. Whatever [inject] throws is an instance of [StructPDFError].
    A rejection by [validateInputs] comes out as the [ValidationError]
    it is; once the inputs are accepted, a rejected input path comes out
    as an [InjectionError] whose message is the validator's behind
    [Injection failed: ]. *)
Theorem inject_error_classes fs pdfPath data outputPath options :
  (forall e,
      StructPDFInjector.inject host fs pdfPath data outputPath options = Throw e ->
      instanceof_StructPDFError e = true)
  /\ (forall e,
        StructPDFInjector.validateInputs host data options = Throw e ->
        StructPDFInjector.inject host fs pdfPath data outputPath options = Throw e)
  /\ (forall e,
        StructPDFInjector.validateInputs host data options = Ok tt ->
        PathValidator.validatePath host pdfPath = Throw e ->
        StructPDFInjector.inject host fs pdfPath data outputPath options
        = Throw (mkError InjectionError ("Injection failed: " +:+ message e))).
Proof.
  unfold StructPDFInjector.inject. split; [|split].
  - intros e. unfold try_catch.
    match goal with |- match ?body with _ => _ end = _ -> _ =>
      destruct body as [r|e0] end; [discriminate|].
    destruct (instanceof_StructPDFError e0) eqn:He; by intros [= <-].
  - intros e Hv. rewrite Hv. cbn [Js.bind try_catch].
    apply validateInputs_throws_ValidationError in Hv.
    unfold instanceof_StructPDFError. by rewrite Hv.
  - intros e Hv Hp. rewrite Hv, Hp. cbn [Js.bind try_catch].
    apply validatePath_throws_plain in Hp.
    unfold instanceof_StructPDFError. by rewrite Hp.
Qed.

(** X11. The failures [extract] reports before it has a document: a
    rejected path, a file that is not there, bytes the parser rejects
    with a plain error.  Each is [success: false] with the reason behind
    [Extraction failed: ]. *)
Theorem extract_entry_failures fs pdfPath options :
  (forall e,
      PathValidator.validatePath host pdfPath = Throw e ->
      StructPDFExtractor.extract host fs pdfPath options
      = StructPDFExtractor.failure ("Extraction failed: " +:+ message e))
  /\ (forall validated,
        PathValidator.validatePath host pdfPath = Ok validated ->
        fs !! validated = None ->
        StructPDFExtractor.extract host fs pdfPath options
        = StructPDFExtractor.failure
            ("Extraction failed: File not found or not readable: " +:+ validated))
  /\ (forall validated pdfBytes e,
        PathValidator.validatePath host pdfPath = Ok validated ->
        fs !! validated = Some (Fs.File pdfBytes) ->
        PDFDocument_load host pdfBytes = Throw e ->
        instanceof_StructPDFError e = false ->
        StructPDFExtractor.extract host fs pdfPath options
        = StructPDFExtractor.failure ("Extraction failed: " +:+ message e)).
Proof.
  unfold StructPDFExtractor.extract. split; [|split].
  - intros e Hp. rewrite Hp. cbn [Js.bind try_return].
    apply validatePath_throws_plain in Hp.
    unfold instanceof_StructPDFError. by rewrite Hp.
  - intros validated Hp Hf. rewrite Hp. cbn [Js.bind].
    unfold PathValidator.validateFileExists, Fs.access. by rewrite Hf.
  - intros validated pdfBytes e Hp Hf Hl He. rewrite Hp. cbn [Js.bind].
    unfold PathValidator.validateFileExists, Fs.access, Fs.readFile. rewrite Hf.
    cbn [try_catch Js.bind]. rewrite Hl. cbn [Js.bind try_return]. by rewrite He.
Qed.

(** X12. The second presence check of [extract] never fires: no result
    carries the reason [StructPDF file not found in embedded files]. *)
Theorem extractDocument_never_reports_missing_entry pdfDoc options r :
  StructPDFExtractor.extractDocument host pdfDoc options = Ok r ->
  errors r <> Some ["StructPDF file not found in embedded files"].
Proof.
  unfold StructPDFExtractor.extractDocument, PDFHandler.hasStructPDFData.
  destruct (bool_decide _) eqn:Hhas; cbn [negb]; [|by intros [= <-]].
  apply bool_decide_eq_true in Hhas as [stored Hst]. rewrite Hst.
  destruct (StructPDFExtractor.parseStored host stored options) as [payload|e];
    [|by intros [= <-]].
  unfold StructPDFExtractor.verify.
  destruct (verifyIntegrity options); cbn [negb Js.bind]; [|by intros [= <-]].
  destruct (get payload "metadata") as [metadata|e]; cbn [Js.bind]; [|discriminate].
  destruct (truthy (get_opt metadata "integrity")); cbn [negb Js.bind];
    [|by intros [= <-]].
  match goal with |- context [existsb ?f SUPPORTED_HASH_ALGORITHMS] =>
    destruct (existsb f SUPPORTED_HASH_ALGORITHMS) end; cbn [negb Js.bind];
    [|by intros [= <-]].
  destruct (get payload "payload") as [pp|e]; cbn [Js.bind Js.try_return];
    [|by intros [= <-]].
  match goal with |- context [Js.bind ?m _] => destruct m as [hash|e] end;
    cbn [Js.bind Js.try_return]; [|by intros [= <-]].
  destruct (strict_eq_string hash _); cbn [negb]; by intros [= <-].
Qed.

End EntryErrors.

(** ** The contract of [extract] *)

Section ExtractContract.

Context (host : Host).

Lemma readFile_Ok fs p b : Fs.readFile fs p = Ok b -> fs !! p = Some (Fs.File b).
Proof.
  unfold Fs.readFile. destruct (fs !! p) as [[c|]|]; [|discriminate..]. by intros [= ->].
Qed.

(** On a file that holds a document, [extract] is [extractDocument]
    under the handler. *)
Lemma extract_holds fs pdfPath options pdfDoc :
  holdsDocument host fs pdfPath pdfDoc ->
  StructPDFExtractor.extract host fs pdfPath options
  = caught (StructPDFExtractor.extractDocument host pdfDoc options).
Proof.
  intros (validated & pdfBytes & Hv & Hr & Hl).
  exact (extract_loaded host fs pdfPath options _ _ _ Hv (readFile_Ok _ _ _ Hr) Hl).
Qed.

(** A result with [success: true] comes from a run in which nothing
    failed. *)
Lemma extractDocument_success pdfDoc options r :
  StructPDFExtractor.extractDocument host pdfDoc options = Ok r ->
  success r = true ->
  exists stored payload,
    storedBytes pdfDoc = Some stored
    /\ StructPDFExtractor.parseStored host stored options = Ok payload
    /\ StructPDFExtractor.verify host payload options = Ok None
    /\ r = succeeded payload.
Proof.
  unfold StructPDFExtractor.extractDocument, PDFHandler.hasStructPDFData.
  fold (storedBytes pdfDoc).
  destruct (storedBytes pdfDoc) as [stored|] eqn:Hst.
  2:{ rewrite bool_decide_eq_false_2 by (by intros [? ?]). by intros [= <-]. }
  rewrite bool_decide_eq_true_2 by eauto. cbn [negb].
  destruct (StructPDFExtractor.parseStored host stored options) as [payload|e] eqn:Hp;
    [|by intros [= <-]].
  destruct (StructPDFExtractor.verify host payload options) as [[verdict|]|e] eqn:Hv;
    cbn [Js.bind]; [| |discriminate].
  - intros [= <-] Hs. apply verify_verdict in Hv as [reason ->]. discriminate.
  - intros [= <-] _. by exists stored, payload.
Qed.

(** C5. [extract] returns a result object for every host, file system,
    path and option combination: a success that carries the envelope,
    or [success: false] with one reason.  It is a success only when no
    step failed.  Each failure comes back as a result: a rejected path,
    a file that cannot be read, bytes that do not parse, a document
    without payload, stored bytes that cannot be decoded, compressed
    bytes with [decompress: false], an integrity verdict (which keeps
    the decoded envelope as [data]), and an exception raised while
    verifying. *)
Theorem extract_never_throws fs pdfPath options :
  let r := StructPDFExtractor.extract host fs pdfPath options in
  let thrown e :=
    StructPDFExtractor.failure
      (if instanceof_StructPDFError e then message e
       else "Extraction failed: " +:+ message e) in
  (isSuccess r \/ isFailure r)
  /\ (success r = true ->
      exists pdfDoc stored payload,
        holdsDocument host fs pdfPath pdfDoc
        /\ storedBytes pdfDoc = Some stored
        /\ StructPDFExtractor.parseStored host stored options = Ok payload
        /\ StructPDFExtractor.verify host payload options = Ok None
        /\ r = succeeded payload)
  /\ (forall e,
        PathValidator.validatePath host pdfPath = Throw e ->
        r = StructPDFExtractor.failure ("Extraction failed: " +:+ message e))
  /\ (forall validated e,
        PathValidator.validatePath host pdfPath = Ok validated ->
        Fs.readFile fs validated = Throw e ->
        exists reason,
          r = StructPDFExtractor.failure ("Extraction failed: " +:+ reason))
  /\ (forall validated pdfBytes e,
        PathValidator.validatePath host pdfPath = Ok validated ->
        Fs.readFile fs validated = Ok pdfBytes ->
        PDFDocument_load host pdfBytes = Throw e ->
        r = thrown e)
  /\ (forall pdfDoc,
        holdsDocument host fs pdfPath pdfDoc ->
        (storedBytes pdfDoc = None ->
         r = StructPDFExtractor.failure "No StructPDF data found in PDF")
        /\ forall stored,
             storedBytes pdfDoc = Some stored ->
             (forall e,
                 StructPDFExtractor.parseStored host stored options = Throw e ->
                 r = StructPDFExtractor.failure
                       ("Failed to parse StructPDF data: " +:+ message e))
             /\ (isStillCompressed stored = true ->
                 decompress_opt options = Some false ->
                 r = StructPDFExtractor.failure
                       "Failed to parse StructPDF data: Data is compressed but decompress option is false")
             /\ forall payload,
                  StructPDFExtractor.parseStored host stored options = Ok payload ->
                  (forall verdict,
                      StructPDFExtractor.verify host payload options = Ok (Some verdict) ->
                      r = verdict
                      /\ success verdict = false
                      /\ data verdict = Some payload
                      /\ exists reason, errors verdict = Some [reason])
                  /\ (forall e,
                        StructPDFExtractor.verify host payload options = Throw e ->
                        r = thrown e)).
Proof.
  cbv zeta. split; [|split; [|split; [|split; [|split]]]].
  - unfold StructPDFExtractor.extract, try_return.
    destruct (Js.bind (PathValidator.validatePath host pdfPath) _) as [r|e] eqn:Hbody.
    + destruct (PathValidator.validatePath host pdfPath) as [validated|e];
        simpl in Hbody; [|discriminate].
      destruct (PathValidator.validateFileExists fs validated); simpl in Hbody;
        [|discriminate].
      destruct (Fs.readFile fs validated) as [pdfBytes|e]; simpl in Hbody;
        [|discriminate].
      destruct (PDFDocument_load host pdfBytes) as [pdfDoc|e]; simpl in Hbody;
        [|discriminate].
      by apply extractDocument_shape in Hbody.
    + right. destruct (instanceof_StructPDFError e); apply failure_isFailure.
  - unfold StructPDFExtractor.extract.
    destruct (PathValidator.validatePath host pdfPath) as [validated|e] eqn:Hv;
      cbn [Js.bind try_return];
      [|destruct (instanceof_StructPDFError e); discriminate].
    destruct (PathValidator.validateFileExists fs validated) as [[]|e];
      cbn [Js.bind try_return];
      [|destruct (instanceof_StructPDFError e); discriminate].
    destruct (Fs.readFile fs validated) as [pdfBytes|e] eqn:Hr;
      cbn [Js.bind try_return];
      [|destruct (instanceof_StructPDFError e); discriminate].
    destruct (PDFDocument_load host pdfBytes) as [pdfDoc|e] eqn:Hl;
      cbn [Js.bind try_return];
      [|destruct (instanceof_StructPDFError e); discriminate].
    destruct (StructPDFExtractor.extractDocument host pdfDoc options) as [r|e] eqn:Hx;
      cbn [try_return]; [|destruct (instanceof_StructPDFError e); discriminate].
    intros Hs.
    destruct (extractDocument_success _ _ _ Hx Hs) as (stored & payload & H1 & H2 & H3 & ->).
    exists pdfDoc, stored, payload. repeat split; try assumption.
    by exists validated, pdfBytes.
  - intros e Hv. unfold StructPDFExtractor.extract. rewrite Hv. cbn [Js.bind try_return].
    apply validatePath_throws_plain in Hv.
    unfold instanceof_StructPDFError. by rewrite Hv.
  - intros validated e Hv Hr. unfold StructPDFExtractor.extract. rewrite Hv.
    cbn [Js.bind]. unfold PathValidator.validateFileExists, Fs.access.
    unfold Fs.readFile in Hr |- *.
    destruct (fs !! validated) as [[b|]|]; [discriminate| |].
    + injection Hr as <-. by eexists.
    + by eexists.
  - intros validated pdfBytes e Hv Hr Hl. unfold StructPDFExtractor.extract.
    rewrite Hv. cbn [Js.bind]. unfold PathValidator.validateFileExists, Fs.access.
    rewrite (readFile_Ok _ _ _ Hr). cbn [try_catch Js.bind]. rewrite Hr. cbn [Js.bind].
    rewrite Hl. cbn [Js.bind try_return]. by destruct (instanceof_StructPDFError e).
  - intros pdfDoc Hh. rewrite (extract_holds _ _ _ _ Hh). split.
    + intros Hn. unfold StructPDFExtractor.extractDocument.
      rewrite hasStructPDFData_stored, Hn.
      rewrite bool_decide_eq_false_2 by (by intros [? ?]). reflexivity.
    + intros stored Hst. rewrite (extractDocument_stored host _ _ _ Hst).
      split; [|split].
      * intros e Hp. by rewrite Hp.
      * intros Hc Hd. unfold StructPDFExtractor.parseStored.
        rewrite Hc, Hd. reflexivity.
      * intros payload Hp. rewrite Hp. split.
        -- intros verdict Hv. rewrite Hv. cbn [Js.bind caught try_return].
           apply verify_verdict in Hv as [reason ->].
           repeat split. by exists reason.
        -- intros e Hv. rewrite Hv. cbn [Js.bind caught try_return].
           by destruct (instanceof_StructPDFError e).
Qed.

End ExtractContract.

Lemma extract_never_throws_witness :
  StructPDFExtractor.extract RefHost.host fsWithGarbage "" defaultExtractionOptions
  = StructPDFExtractor.failure
      "Extraction failed: Invalid path: path must be a non-empty string"
  /\ StructPDFExtractor.extract RefHost.host fsWithGarbage "/tmp/invalid.pdf"
       defaultExtractionOptions
     = StructPDFExtractor.failure
         "Extraction failed: Failed to parse PDF document (line:0 col:0 offset=0): No PDF header found"
  /\ StructPDFExtractor.extract ArchiveHost.host fsWithDocument "/tmp/in.pdf"
       defaultExtractionOptions
     = StructPDFExtractor.failure "No StructPDF data found in PDF"
  /\ StructPDFExtractor.extract ArchiveHost.host fsWithPayload "/tmp/in.pdf"
       (mkExtractionOptions (Some false) false)
     = StructPDFExtractor.failure
         "Failed to parse StructPDF data: Data is compressed but decompress option is false"
  /\ StructPDFExtractor.extract ArchiveHost.host fsWithTampered "/tmp/in.pdf"
       verifyingOptions
     = mkExtractionResult false (Some (envelopeWithIntegrity "sha256" "00"))
         (Some ["Integrity check failed: data may have been modified"]) None
  /\ StructPDFExtractor.extract ArchiveHost.host fsWithPayload "/tmp/in.pdf"
       defaultExtractionOptions
     = succeeded adaEnvelope.
Proof.
  assert (Hdoc : holdsDocument ArchiveHost.host fsWithDocument "/tmp/in.pdf"
                   RefHost.emptyDocument)
    by (exists "/tmp/in.pdf", ArchiveHost.header; repeat split; vm_compute; reflexivity).
  assert (Hpay : holdsDocument ArchiveHost.host fsWithPayload "/tmp/in.pdf"
                   (ArchiveHost.holding (RefHost.deflate adaPlain)))
    by (eexists "/tmp/in.pdf", _; repeat split; vm_compute; reflexivity).
  assert (Htam : holdsDocument ArchiveHost.host fsWithTampered "/tmp/in.pdf"
                   (ArchiveHost.holding tamperedStored))
    by (eexists "/tmp/in.pdf", _; repeat split; vm_compute; reflexivity).
  split; [|split; [|split; [|split; [|split]]]].
  - apply (proj1 (proj2 (proj2 (extract_never_throws RefHost.host fsWithGarbage ""
                                  defaultExtractionOptions)))
             (new_Error "Invalid path: path must be a non-empty string")).
    reflexivity.
  - apply (proj1 (proj2 (proj2 (proj2 (proj2
             (extract_never_throws RefHost.host fsWithGarbage "/tmp/invalid.pdf"
                defaultExtractionOptions)))))
             "/tmp/invalid.pdf" (list_byte_of_string "Not a PDF file")
             (new_Error "Failed to parse PDF document (line:0 col:0 offset=0): No PDF header found"));
      vm_compute; reflexivity.
  - apply (proj2 (proj2 (proj2 (proj2 (proj2
             (extract_never_throws ArchiveHost.host fsWithDocument "/tmp/in.pdf"
                defaultExtractionOptions))))) _ Hdoc).
    vm_compute. reflexivity.
  - apply (proj2 (proj2 (proj2 (proj2 (proj2
             (extract_never_throws ArchiveHost.host fsWithPayload "/tmp/in.pdf"
                (mkExtractionOptions (Some false) false)))))) _ Hpay)
            with (stored := RefHost.deflate adaPlain);
      vm_compute; reflexivity.
  - apply (proj2 (proj2 (proj2 (proj2 (proj2
             (extract_never_throws ArchiveHost.host fsWithTampered "/tmp/in.pdf"
                verifyingOptions))))) _ Htam)
            with (stored := tamperedStored)
                 (payload := envelopeWithIntegrity "sha256" "00");
      vm_compute; reflexivity.
  - destruct (proj1 (proj2 (extract_never_throws ArchiveHost.host fsWithPayload
                              "/tmp/in.pdf" defaultExtractionOptions)))
      as (pdfDoc & stored & payload & _ & _ & _ & _ & Hr);
      [vm_compute; reflexivity|].
    rewrite Hr. vm_compute in Hr. by injection Hr as <-.
Defined.

(** ** Round trip through the file system *)

Section FileRoundTrip.

Context (host : Host) (laws : CodecLaws host).

(** What a successful [inject] went through. *)
Lemma inject_Ok fs pdfPath data outputPath options fs' result :
  StructPDFInjector.inject host fs pdfPath data outputPath options = Ok (fs', result) ->
  exists validatedIn validatedOut fs1 pdfBytes pdfDoc pdfDoc' payload willCompress,
    PathValidator.validatePath host outputPath = Ok validatedOut
    /\ PathValidator.validatePath host pdfPath = Ok validatedIn
    /\ PathValidator.validateOutputPath host fs validatedOut = Ok fs1
    /\ Fs.readFile fs1 validatedIn = Ok pdfBytes
    /\ PDFDocument_load host pdfBytes = Ok pdfDoc
    /\ StructPDFInjector.injectDocument host pdfDoc data options
       = Ok (pdfDoc', payload, willCompress)
    /\ fs' = <[validatedOut := Fs.File (PDFDocument_save host pdfDoc')]> fs1
    /\ result = mkInjectionResult true outputPath (StructPDFInjector.metadataOf payload)
                  (if willCompress then Some ["Data was compressed"] else None).
Proof.
  unfold StructPDFInjector.inject, try_catch.
  match goal with |- match ?body with _ => _ end = _ -> _ =>
    destruct body as [r|e] eqn:Hbody end;
    [|destruct (instanceof_StructPDFError e); discriminate].
  intros [= ->].
  destruct (StructPDFInjector.validateInputs host data options); [|discriminate].
  cbn [Js.bind] in Hbody.
  destruct (PathValidator.validatePath host pdfPath) as [validatedIn|]; [|discriminate].
  cbn [Js.bind] in Hbody.
  destruct (PathValidator.validatePath host outputPath) as [validatedOut|];
    [|discriminate].
  cbn [Js.bind] in Hbody.
  destruct (PathValidator.validateFileExists fs validatedIn); [|discriminate].
  cbn [Js.bind] in Hbody.
  destruct (PathValidator.validateOutputPath host fs validatedOut) as [fs1|] eqn:Hout;
    [|discriminate].
  cbn [Js.bind] in Hbody.
  destruct (Fs.readFile fs1 validatedIn) as [pdfBytes|] eqn:Hr; [|discriminate].
  cbn [Js.bind] in Hbody.
  destruct (PDFDocument_load host pdfBytes) as [pdfDoc|] eqn:Hl; [|discriminate].
  cbn [Js.bind] in Hbody.
  destruct (StructPDFInjector.injectDocument host pdfDoc data options)
    as [[[pdfDoc' payload] willCompress]|] eqn:Hi; [|discriminate].
  cbn [Js.bind] in Hbody.
  unfold Fs.writeFile in Hbody.
  exists validatedIn, validatedOut, fs1, pdfBytes, pdfDoc, pdfDoc', payload, willCompress.
  destruct (fs1 !! validatedOut) as [[]|]; cbn [Js.bind] in Hbody;
    try discriminate; injection Hbody as <- <-; by repeat split.
Qed.

(** Making the output directory leaves the files that are there. *)
Lemma validateOutputPath_readFile fs outputPath fs1 p b :
  PathValidator.validateOutputPath host fs outputPath = Ok fs1 ->
  Fs.readFile fs p = Ok b ->
  Fs.readFile fs1 p = Ok b.
Proof.
  unfold PathValidator.validateOutputPath, Fs.access, Fs.mkdir, Fs.readFile.
  destruct (fs !! path_dirname host outputPath) as [node|] eqn:Hd;
    [by intros [= <-]|].
  cbn [try_catch]. intros [= <-].
  destruct (decide (p = path_dirname host outputPath)) as [->|Hne].
  - by rewrite Hd.
  - by rewrite lookup_insert_ne by congruence.
Qed.

(** X13. [inject] followed by [extract] on the file it wrote returns
    the injected value, for every [decompress] option but [false] and
    with or without integrity verification.  The document in the input
    file has its table within its counter and a walk that ends without
    an exception; saving and loading the document the injection built
    keeps the bytes stored under the reserved name; the host's codecs
    obey [CodecLaws]; and the serialized envelope reads back. *)
Theorem inject_then_extract fs pdfPath data outputPath options fs' result xoptions
    validatedIn pdfBytes pdfDoc :
  PathValidator.validatePath host pdfPath = Ok validatedIn ->
  Fs.readFile fs validatedIn = Ok pdfBytes ->
  PDFDocument_load host pdfBytes = Ok pdfDoc ->
  tableBounded pdfDoc ->
  snd (PDFHandler.getEmbeddedFiles_run pdfDoc) = [] ->
  (forall injectedDoc payload willCompress,
      StructPDFInjector.injectDocument host pdfDoc data options
      = Ok (injectedDoc, payload, willCompress) ->
      jsonFaithful host payload
      /\ exists reloaded,
           PDFDocument_load host (PDFDocument_save host injectedDoc) = Ok reloaded
           /\ storedBytes reloaded = storedBytes injectedDoc) ->
  StructPDFInjector.inject host fs pdfPath data outputPath options = Ok (fs', result) ->
  decompress_opt xoptions <> Some false ->
  exists payload,
    StructPDFExtractor.extract host fs' outputPath xoptions = succeeded payload
    /\ payloadOf payload = Some data
    /\ fieldOf payload "metadata" = Some (metadata result).
Proof.
  intros Hvi Hread Hload Hb Hw Hhost Hinj Hx.
  apply inject_Ok in Hinj
    as (validatedIn' & validatedOut & fs1 & pdfBytes' & pdfDoc0 & pdfDoc' & payload
        & willCompress & Hvo & Hvi' & Hout & Hr & Hl & Hi & -> & ->).
  rewrite Hvi in Hvi'. injection Hvi' as <-.
  rewrite (validateOutputPath_readFile _ _ _ _ _ Hout Hread) in Hr. injection Hr as <-.
  rewrite Hload in Hl. injection Hl as <-.
  destruct (Hhost _ _ _ Hi) as (Hj & reloaded & Hre & Hst).
  apply injectDocument_Ok in Hi as (payload0 & dataBytes & _ & Hp & Hs & _ & ->).
  rewrite (storedBytes_finishInjection host _ data options dataBytes Hb Hw) in Hst.
  exists payload.
  split; [|split; [exact (proj2 (domainOf_prepared host _ _ _ _ _ _ Hp Hs))|]].
  - rewrite (extract_loaded host _ _ xoptions _ _ _ Hvo (lookup_insert_eq _ _ _) Hre).
    rewrite (extractDocument_stored host _ _ _ Hst).
    rewrite (parseStored_injected host laws _ _ _ _ _ xoptions Hs Hj Hx).
    by rewrite (verify_prepared host _ _ _ _ _ _ xoptions Hp Hs).
  - cbn [metadata].
    apply preparePayload_shape in Hp as (dom & md & -> & _ & _).
    by apply serializePayload_Ok in Hs as [(_ & -> & _)|(_ & -> & _)].
Qed.

End FileRoundTrip.

Lemma ArchiveHost_save pdfDoc :
  exists reloaded,
    ArchiveHost.load (ArchiveHost.save pdfDoc) = Ok reloaded
    /\ storedBytes reloaded = storedBytes pdfDoc.
Proof.
  unfold ArchiveHost.save. destruct (storedBytes pdfDoc) as [stored|].
  - exists (ArchiveHost.holding stored). split; [reflexivity|].
    vm_compute. reflexivity.
  - exists RefHost.emptyDocument. split; reflexivity.
Qed.

Lemma inject_then_extract_witness :
  exists fs' result,
    StructPDFInjector.inject ArchiveHost.host fsWithDocument "/tmp/in.pdf" adaPayload
      "/tmp/out.pdf" (exampleOptions false true false) = Ok (fs', result)
    /\ exists payload,
         StructPDFExtractor.extract ArchiveHost.host fs' "/tmp/out.pdf" verifyingOptions
         = succeeded payload
         /\ payloadOf payload = Some adaPayload
         /\ fieldOf payload "metadata" = Some (metadata result).
Proof.
  eexists _, _. split; [vm_compute; reflexivity|].
  eapply (inject_then_extract ArchiveHost.host ArchiveHost_laws fsWithDocument
            "/tmp/in.pdf" adaPayload "/tmp/out.pdf" (exampleOptions false true false)
            _ _ verifyingOptions "/tmp/in.pdf" ArchiveHost.header RefHost.emptyDocument).
  - reflexivity.
  - vm_compute. reflexivity.
  - vm_compute. reflexivity.
  - apply (bool_decide_unpack _). vm_compute. exact I.
  - vm_compute. reflexivity.
  - intros injectedDoc payload willCompress Hi. split.
    + vm_compute in Hi. injection Hi as _ <- _. split; vm_compute; reflexivity.
    + apply ArchiveHost_save.
  - vm_compute. reflexivity.
  - discriminate.
Defined.

(** ** Keywords and the fast-detection check *)

Section Keywords.

Context (host : Host).

Lemma split_go_app_space cur a b :
  split_go cur (a +:+ " " +:+ b) = (split_go cur a ++ split_go "" b)%list.
Proof.
  revert cur. induction a as [|c a IH]; intros cur; simpl.
  - reflexivity.
  - destruct (Ascii.eqb c " "); simpl; by rewrite IH.
Qed.

(** Splitting what [join] glued: the tokens of the elements, in
    order. *)
Lemma split_space_join l :
  l <> [] -> split_space (join " " l) = flat_map split_space l.
Proof.
  induction l as [|x [|y r] IH]; intros Hne; [done| |].
  - simpl. by rewrite app_nil_r.
  - change (join " " (x :: y :: r)) with (x +:+ " " +:+ join " " (y :: r)).
    unfold split_space at 1. rewrite split_go_app_space.
    change (flat_map split_space (x :: y :: r))
      with (split_space x ++ flat_map split_space (y :: r))%list.
    f_equal. by apply IH.
Qed.

Lemma join_nonempty l x : x <> "" -> join " " (l ++ [x]) <> "".
Proof.
  intros Hx. induction l as [|y [|z r] IH]; simpl in *.
  - exact Hx.
  - destruct y; discriminate.
  - destruct y; discriminate.
Qed.

Lemma append_empty_r s : s +:+ "" = s.
Proof.
  induction s as [|c s IH]; [reflexivity|].
  change (String c s +:+ "") with (String c (s +:+ "")). by rewrite IH.
Qed.

Lemma append_snoc cur c s : (cur +:+ String c "") +:+ s = cur +:+ String c s.
Proof.
  induction cur as [|a cur IH]; [reflexivity|].
  change (String a ((cur +:+ String c "") +:+ s) = String a (cur +:+ String c s)).
  by rewrite IH.
Qed.

(** An element of a spread string is one byte and the continuation
    bytes after it. *)
Lemma spread_shape s x :
  In x (spread s) -> exists c rest, x = String c rest /\ continuationOnly rest = true.
Proof.
  revert x. induction s as [|c s IH]; intros x; cbn [spread]; [done|].
  destruct (spread s) as [|[|c' y] xs] eqn:Hs.
  - intros [<-|[]]. by exists c, "".
  - intros [<-|Hx]; [by exists c, ""|]. by apply IH.
  - destruct (is_continuation c') eqn:Hc.
    + intros [<-|Hx]; [|apply IH; by right].
      exists c, (String c' y). split; [reflexivity|].
      destruct (IH (String c' y) (or_introl eq_refl)) as (? & ? & [= <- <-] & Hy).
      cbn [continuationOnly]. by rewrite Hc.
    + intros [<-|Hx]; [by exists c, ""|]. by apply IH.
Qed.

Lemma split_go_continuation cur s :
  continuationOnly s = true -> split_go cur s = [cur +:+ s].
Proof.
  revert cur. induction s as [|c s IH]; intros cur; cbn [continuationOnly split_go].
  - intros _. by rewrite append_empty_r.
  - intros [Hc Hs]%andb_true_iff.
    destruct (Ascii.eqb_spec c " ") as [->|_]; [discriminate|].
    rewrite IH by exact Hs. by rewrite append_snoc.
Qed.

(** The tokens of a spread string are single characters or empty: after
    the first byte of a token come continuation bytes only. *)
Lemma spread_tokens s t :
  In t (flat_map split_space (spread s)) ->
  match t with
  | EmptyString => True
  | String _ rest => continuationOnly rest = true
  end.
Proof.
  intros (x & Hx & Ht)%in_flat_map.
  apply spread_shape in Hx as (c & rest & -> & Hrest).
  unfold split_space in Ht. cbn [split_go] in Ht.
  destruct (Ascii.eqb c " ").
  - rewrite (split_go_continuation "" rest Hrest) in Ht.
    destruct Ht as [<-|[<-|[]]]; [exact I|].
    change ("" +:+ rest) with rest. destruct rest as [|c1 r1]; [exact I|].
    cbn [continuationOnly] in Hrest. by apply andb_true_iff in Hrest as [_ ?].
  - rewrite (split_go_continuation _ rest Hrest) in Ht.
    destruct Ht as [<-|[]]. exact Hrest.
Qed.

Lemma includes_space_cons c s :
  includes (String c s) " " = Ascii.eqb c " " || includes s " ".
Proof.
  cbn [includes String.prefix].
  destruct (Ascii.ascii_dec " " c) as [<-|Hne].
  - rewrite Ascii.eqb_refl. by destruct s.
  - destruct (Ascii.eqb_spec c " ") as [->|_]; [contradiction|].
    by destruct s.
Qed.

(** A string without a space is one token. *)
Lemma split_go_no_space cur s :
  includes s " " = false -> split_go cur s = [cur +:+ s].
Proof.
  revert cur. induction s as [|c s IH]; intros cur.
  - intros _. cbn [split_go]. by rewrite append_empty_r.
  - rewrite includes_space_cons. cbn [split_go].
    destruct (Ascii.eqb c " "); [discriminate|].
    intros H. rewrite IH by exact H. by rewrite append_snoc.
Qed.

(** What [addMetadata] stores in the keyword field: the characters of
    the field as it was, then the new token. *)
Lemma addMetadata_keywords pdfDoc key value :
  getKeywords (PDFHandler.addMetadata pdfDoc key value)
  = Some (join " " ((if PDFHandler.truthy_string (getKeywords pdfDoc)
                     then spread (default "" (getKeywords pdfDoc)) else [])
                    ++ [key +:+ ":" +:+ value])).
Proof.
  unfold PDFHandler.addMetadata, getKeywords, setKeywords.
  destruct (negb (PDFHandler.truthy_string (getCreator pdfDoc))); cbn [Keywords setCreator].
  all: destruct (Keywords pdfDoc) as [existing|]; [|reflexivity].
  all: by destruct (PDFHandler.truthy_string (Some existing)).
Qed.

Lemma addMetadata_truthy pdfDoc key value :
  PDFHandler.truthy_string (getKeywords (PDFHandler.addMetadata pdfDoc key value)) = true.
Proof.
  rewrite addMetadata_keywords. unfold PDFHandler.truthy_string.
  apply negb_true_iff, String.eqb_neq, join_nonempty.
  destruct key; discriminate.
Qed.

Lemma addStructPDFMetadata_keywords pdfDoc domain specID specName :
  exists pre post,
    getKeywords (PDFHandler.addStructPDFMetadata pdfDoc domain specID specName)
    = Some (join " " (pre ++ "StructPDF:true" :: post)).
Proof.
  unfold PDFHandler.addStructPDFMetadata, getKeywords, setKeywords.
  set (newKeywords :=
         match specName with
         | Some name => if PDFHandler.truthy_string specName then _ else _
         | None => _
         end).
  assert (Hnew : exists post, newKeywords = "StructPDF:true" :: post).
  { unfold newKeywords.
    destruct specID as [id|]; [destruct (PDFHandler.truthy_string (Some id))|];
      (destruct specName as [name|];
       [destruct (PDFHandler.truthy_string (Some name))|]); by eexists. }
  destruct Hnew as (post & ->).
  destruct (negb (PDFHandler.truthy_string (getCreator pdfDoc))); cbn [Keywords setCreator].
  all: destruct (Keywords pdfDoc) as [existing|]; [|by exists [], post].
  all: destruct (PDFHandler.truthy_string (Some existing));
    [by exists (spread existing), post|by exists [], post].
Qed.

(** X14. After [addStructPDFMetadata], [hasStructPDFMetadata] answers
    [true], whatever the keyword field held before and whatever domain
    and specification are given. *)
Theorem addStructPDFMetadata_detected pdfDoc domain specID specName :
  PDFHandler.hasStructPDFMetadata
    (PDFHandler.addStructPDFMetadata pdfDoc domain specID specName) = true.
Proof.
  destruct (addStructPDFMetadata_keywords pdfDoc domain specID specName)
    as (pre & post & Hk).
  unfold PDFHandler.hasStructPDFMetadata. rewrite Hk.
  assert (Htok : existsb (fun keyword => startsWith keyword "StructPDF:true")
                   (split_space (join " " (pre ++ "StructPDF:true" :: post))) = true).
  { rewrite split_space_join by (by destruct pre).
    apply existsb_exists. exists "StructPDF:true". split; [|reflexivity].
    apply in_flat_map. exists "StructPDF:true". split; [|by left].
    apply in_app_iff. right. by left. }
  destruct (PDFHandler.truthy_string _) eqn:Ht; [exact Htok|].
  apply negb_false_iff, String.eqb_eq in Ht. rewrite Ht in Htok. discriminate.
Qed.

(** X15. An injection keeps the creator a document has and sets
    [@structcv/structpdf] when it has none (a missing or an empty
    one). *)
Theorem injection_keeps_creator pdfDoc data options pdfDoc' payload willCompress :
  StructPDFInjector.injectDocument host pdfDoc data options
  = Ok (pdfDoc', payload, willCompress) ->
  getCreator pdfDoc'
  = if PDFHandler.truthy_string (getCreator pdfDoc)
    then getCreator pdfDoc else Some GENERATOR.
Proof.
  intros Hi.
  apply injectDocument_Ok in Hi as (payload0 & dataBytes & _ & _ & _ & _ & ->).
  assert (Hadd : forall d key value,
             getCreator (PDFHandler.addMetadata d key value)
             = if PDFHandler.truthy_string (getCreator d)
               then getCreator d else Some GENERATOR).
  { intros d key value. unfold PDFHandler.addMetadata, getCreator.
    by destruct (PDFHandler.truthy_string (Creator d)). }
  unfold finishInjection. rewrite !Hadd.
  set (d := EmbeddedFileManager.embedFile host _ _ _ _).
  assert (Hc : getCreator d = getCreator pdfDoc).
  { unfold d. pose proof (info_embedFile host
      (if overwrite options
       then fst (EmbeddedFileManager.removeFile pdfDoc EMBEDDED_FILE_NAME) else pdfDoc)
      EMBEDDED_FILE_NAME dataBytes MIME_TYPE) as He.
    assert (Hr : info (if overwrite options
                       then fst (EmbeddedFileManager.removeFile pdfDoc EMBEDDED_FILE_NAME)
                       else pdfDoc) = info pdfDoc)
      by (destruct (overwrite options); [apply info_removeFile|reflexivity]).
    rewrite Hr in He. unfold info in He. by injection He. }
  rewrite Hc. destruct (getCreator pdfDoc) as [c|] eqn:E; [|reflexivity].
  destruct (PDFHandler.truthy_string (Some c)) eqn:Et;
    repeat (cbv iota; rewrite ?Et); reflexivity.
Qed.

(** X16. After an injection [hasStructPDFMetadata] answers [false],
    whatever the keyword field held before (even the signal itself): the
    domain written holds no space.  Each [addMetadata] spreads the field
    into its characters, and the last token starts with
    [StructPDFDomain:]. *)
Theorem injection_clears_detection_signal pdfDoc data options pdfDoc' payload
    willCompress :
  StructPDFInjector.injectDocument host pdfDoc data options
  = Ok (pdfDoc', payload, willCompress) ->
  includes (domainOrDefault options) " " = false ->
  PDFHandler.hasStructPDFMetadata pdfDoc' = false.
Proof.
  intros Hi Hd.
  apply injectDocument_Ok in Hi as (payload0 & dataBytes & _ & _ & _ & _ & ->).
  unfold finishInjection.
  set (d2 := PDFHandler.addMetadata _ STRUCTPDF_VERSION _).
  unfold PDFHandler.hasStructPDFMetadata.
  rewrite addMetadata_keywords.
  assert (Ht2 : PDFHandler.truthy_string (getKeywords d2) = true)
    by apply addMetadata_truthy.
  rewrite Ht2.
  set (K2 := default "" (getKeywords d2)).
  set (kw := STRUCTPDF_DOMAIN +:+ ":" +:+ domainOrDefault options).
  assert (Htok : existsb (fun keyword => startsWith keyword "StructPDF:true")
                   (split_space (join " " (spread K2 ++ [kw]))) = false).
  { rewrite split_space_join by (by destruct (spread K2)).
    rewrite flat_map_app. cbn [flat_map]. rewrite app_nil_r, existsb_app.
    apply orb_false_iff. split.
    - apply not_true_iff_false. intros H. apply existsb_exists in H as (t & Ht & Hs).
      apply spread_tokens in Ht.
      destruct t as [|c [|c' t]]; [discriminate Hs| |].
      + unfold startsWith in Hs. cbn [String.prefix] in Hs.
        destruct (Ascii.ascii_dec _ _); discriminate.
      + unfold startsWith in Hs. cbn [String.prefix] in Hs.
        destruct (Ascii.ascii_dec _ c); [|discriminate].
        destruct (Ascii.ascii_dec _ c') as [<-|]; [|discriminate].
        cbn [continuationOnly] in Ht. discriminate.
    - unfold split_space.
      rewrite (split_go_no_space "" kw)
        by (unfold kw, STRUCTPDF_DOMAIN; cbn; exact Hd).
      reflexivity. }
  rewrite Htok.
  match goal with |- (if ?c then _ else _) = _ => destruct c end; reflexivity.
Qed.

End Keywords.

Lemma injection_keeps_creator_witness :
  exists pdfDoc payload,
    StructPDFInjector.injectDocument RefHost.host documentWithKeywords adaPayload
      (exampleOptions false false false) = Ok (pdfDoc, payload, false)
    /\ getCreator pdfDoc = Some "Writer".
Proof.
  eexists _, _. split; [vm_compute; reflexivity|].
  eapply (injection_keeps_creator RefHost.host documentWithKeywords adaPayload
            (exampleOptions false false false)).
  vm_compute. reflexivity.
Defined.

Lemma injection_clears_detection_signal_witness :
  PDFHandler.hasStructPDFMetadata documentWithSignal = true
  /\ exists pdfDoc payload,
       StructPDFInjector.injectDocument RefHost.host documentWithSignal adaPayload
         (exampleOptions false false false) = Ok (pdfDoc, payload, false)
       /\ PDFHandler.hasStructPDFMetadata pdfDoc = false.
Proof.
  split; [reflexivity|].
  eexists _, _. split; [vm_compute; reflexivity|].
  eapply (injection_clears_detection_signal RefHost.host documentWithSignal adaPayload
            (exampleOptions false false false)).
  - vm_compute. reflexivity.
  - reflexivity.
Defined.

(** ** The custom metadata keys of an injection *)

Section CustomKeys.

Context (host : Host).







End CustomKeys.


(** ** Path validation *)

Section Paths.

Context (host : Host).

Lemma prefix_append p rest : String.prefix p (p +:+ rest) = true.
Proof.
  induction p as [|c p IH]; [by destruct rest|].
  change (String c p +:+ rest) with (String c (p +:+ rest)). cbn [String.prefix].
  by destruct (Ascii.ascii_dec c c).
Qed.

(** X17. What [validatePath] returns is the resolved form of the
    normalized path; the path given is not empty, its normalized form
    holds no [..], and when the path given is absolute the result,
    compared without case, starts with none of the system directories.
    So an absolute path that resolves below [/etc], [/sys], [/proc],
    [/dev], [C:\Windows] or [C:\System32] in any letter case, or to a
    name that merely begins like one of them, is never returned. *)
Theorem validatePath_guards filePath :
  (forall resolved,
      PathValidator.validatePath host filePath = Ok resolved ->
      resolved = path_resolve host (path_normalize host filePath)
      /\ filePath <> ""
      /\ includes (path_normalize host filePath) ".." = false
      /\ (path_isAbsolute host filePath = true ->
          forall dangerous,
            In dangerous PathValidator.dangerousPaths ->
            startsWith (PathValidator.toLowerCase resolved)
              (PathValidator.toLowerCase dangerous) = false))
  /\ (path_isAbsolute host filePath = true ->
      forall dangerous rest,
        In dangerous PathValidator.dangerousPaths ->
        PathValidator.toLowerCase (path_resolve host (path_normalize host filePath))
        = PathValidator.toLowerCase dangerous +:+ rest ->
        is_Ok (PathValidator.validatePath host filePath) = false).
Proof.
  assert (Hinv : forall resolved,
      PathValidator.validatePath host filePath = Ok resolved ->
      resolved = path_resolve host (path_normalize host filePath)
      /\ filePath <> ""
      /\ includes (path_normalize host filePath) ".." = false
      /\ (path_isAbsolute host filePath = true ->
          forall dangerous,
            In dangerous PathValidator.dangerousPaths ->
            startsWith (PathValidator.toLowerCase resolved)
              (PathValidator.toLowerCase dangerous) = false)).
  { intros resolved. unfold PathValidator.validatePath.
    destruct (String.eqb_spec filePath "") as [->|Hne]; [discriminate|].
    destruct (includes (path_normalize host filePath) ".."); [discriminate|].
    destruct (includes (path_normalize host filePath) "//" && _); [discriminate|].
    destruct (path_isAbsolute host filePath); cbn [andb].
    - destruct (existsb _ PathValidator.dangerousPaths) eqn:He; [discriminate|].
      intros [= <-]. repeat split; [exact Hne|]. intros _ dangerous Hin.
      apply not_true_iff_false. intros Hs.
      assert (Hex : existsb
                      (fun dangerous =>
                         startsWith
                           (PathValidator.toLowerCase
                              (path_resolve host (path_normalize host filePath)))
                           (PathValidator.toLowerCase dangerous))
                      PathValidator.dangerousPaths = true)
        by (apply existsb_exists; by exists dangerous).
      congruence.
    - intros [= <-]. repeat split; [exact Hne|discriminate]. }
  split; [exact Hinv|].
  intros Habs dangerous rest Hin Hlow.
  destruct (PathValidator.validatePath host filePath) as [resolved|e];
    [|reflexivity].
  destruct (Hinv _ eq_refl) as (-> & _ & _ & Hd).
  specialize (Hd Habs dangerous Hin). unfold startsWith in Hd.
  rewrite Hlow, prefix_append in Hd. discriminate.
Qed.

End Paths.

Lemma validatePath_guards_witness :
  PathValidator.validatePath RefHost.host "/tmp/report.pdf" = Ok "/tmp/report.pdf"
  /\ is_Ok (PathValidator.validatePath RefHost.host "/ETC/passwd") = false
  /\ is_Ok (PathValidator.validatePath RefHost.host "/development/app.pdf") = false.
Proof.
  split; [reflexivity|]. split.
  - apply (proj2 (validatePath_guards RefHost.host "/ETC/passwd") eq_refl "/etc" "/passwd");
      [by left|reflexivity].
  - apply (proj2 (validatePath_guards RefHost.host "/development/app.pdf") eq_refl
             "/dev" "elopment/app.pdf"); [simpl; tauto|reflexivity].
Defined.

(** ** The embedded files after [embedFile] and [removeFile] *)

Section EmbeddedFiles.

Context (host : Host).

(** One pair that gives a file, as the walk reads it. *)
Lemma walkNames_pair ctx slot_i fileSpec rest files name sd ef d contents :
  lookup ctx (Some slot_i) = Some name ->
  lookup ctx (Some fileSpec) = Some (PDFDict sd) ->
  lookup ctx (Dict_get sd "EF") = Some (PDFDict ef) ->
  lookup ctx (Dict_get ef "F") = Some (PDFRawStream d contents) ->
  PDFHandler.walkNames ctx (slot_i :: fileSpec :: rest) files
  = PDFHandler.walkNames ctx rest (<[toString name := contents]> files).
Proof.
  intros Hn Hs He Hf. cbn [PDFHandler.walkNames head].
  unfold lookup_typed. rewrite Hs. cbn [is_PDFDict].
  unfold Dict_lookup_typed, lookup_typed. rewrite He. cbn [is_PDFDict Js.bind].
  unfold Dict_lookup. rewrite Hf.
  change (lookup ctx (Some (PDFRawStream d contents)))
    with (Some (PDFRawStream d contents)).
  rewrite Hn. reflexivity.
Qed.

(** What [pairsResolve] says of the first pair. *)
Lemma pairsResolve_cons ctx slot_i fileSpec rest :
  pairsResolve ctx (slot_i :: fileSpec :: rest) = true ->
  (exists name sd ef d contents,
      lookup ctx (Some slot_i) = Some name /\ is_name name = true
      /\ lookup ctx (Some fileSpec) = Some (PDFDict sd)
      /\ lookup ctx (Dict_get sd "EF") = Some (PDFDict ef)
      /\ lookup ctx (Dict_get ef "F") = Some (PDFRawStream d contents))
  /\ pairsResolve ctx rest = true.
Proof.
  cbn [pairsResolve].
  destruct (lookup ctx (Some slot_i)) as [name|]; [|discriminate].
  destruct (lookup ctx (Some fileSpec)) as [[ |?|?|?|?|?|?|?|sd|? ?]|];
    try discriminate.
  destruct (is_name name) eqn:Hname; [|discriminate].
  destruct (lookup ctx (Dict_get sd "EF")) as [[ |?|?|?|?|?|?|?|ef|? ?]|] eqn:He;
    try discriminate.
  destruct (lookup ctx (Dict_get ef "F")) as [[ |?|?|?|?|?|?|?|?|d contents]|] eqn:Hf;
    try discriminate.
  cbn [andb]. intros Hrest. split; [|exact Hrest].
  by exists name, sd, ef, d, contents.
Qed.

(** Objects other than dictionaries are found unchanged behind a
    frame; dictionaries keep their entries other than the tree's. *)
Lemma framed_lookup ctx ctx' x o :
  framed ctx ctx' ->
  lookup ctx x = Some o ->
  (forall d, o <> PDFDict d) ->
  lookup ctx' x = Some o.
Proof.
  intros F Hx Hnd. destruct x as [[ |?|?|?|?|?|n|?|?|? ?]|]; try exact Hx.
  simpl in *. destruct (F _ _ Hx) as (o' & Ho' & Hsame).
  rewrite Ho'. f_equal. destruct o; simpl in Hsame; try exact Hsame.
  by destruct (Hnd dict).
Qed.

Lemma framed_lookup_dict ctx ctx' x d :
  framed ctx ctx' ->
  lookup ctx x = Some (PDFDict d) ->
  exists d',
    lookup ctx' x = Some (PDFDict d')
    /\ forall k, ~ treeKey k -> assoc k d' = assoc k d.
Proof.
  intros F Hx. destruct x as [[ |?|?|?|?|?|n|?|d0|? ?]|]; try discriminate.
  - simpl in *. exact (framed_dict _ _ _ _ F Hx).
  - injection Hx as ->. by exists d.
Qed.

Lemma Dict_get_same d d' k :
  assoc k d' = assoc k d -> Dict_get d' k = Dict_get d k.
Proof. unfold Dict_get. by intros ->. Qed.

Lemma is_name_lookup ctx name :
  is_name name = true ->
  lookup ctx (Some name) = Some name /\ forall d, name <> PDFDict d.
Proof. by destruct name. Qed.

Lemma not_treeKey_EF : ~ treeKey "EF".
Proof. intros [?|?]; discriminate. Qed.

Lemma not_treeKey_F : ~ treeKey "F".
Proof. intros [?|?]; discriminate. Qed.

(** The walk over the array [rewriteNames] leaves, in a later table,
    against the walk over the array it read: the same files but for the
    name rewritten, which is gone. *)
Lemma walkNames_rewritten_files ctx ctx2 ctx' fileName namesArray :
  framed ctx ctx2 ->
  framed ctx ctx' ->
  pairsResolve ctx namesArray = true ->
  let key := PDFHandler.embeddedName fileName in
  let rewritten := EmbeddedFileManager.rewriteNames ctx2 fileName namesArray in
  forall tail files0 files,
    delete key files = delete key files0 ->
    exists files',
      PDFHandler.walkNames ctx' (fst rewritten ++ tail) files
      = PDFHandler.walkNames ctx' tail files'
      /\ snd (PDFHandler.walkNames ctx namesArray files0) = None
      /\ delete key files'
         = delete key (fst (PDFHandler.walkNames ctx namesArray files0))
      /\ (files !! key = None -> files' !! key = None)
      /\ (is_Some (fst (PDFHandler.walkNames ctx namesArray files0) !! key)
          <-> snd rewritten = true \/ is_Some (files0 !! key))
      /\ pairsResolve ctx' (fst rewritten ++ tail) = pairsResolve ctx' tail.
Proof.
  intros F2 F' Hres key. cbv zeta.
  induction namesArray as [|a|a b l IH] using pair_induction;
    intros tail files0 files Hinv.
  - exists files. cbn.
    split; [reflexivity|]. split; [reflexivity|]. split; [exact Hinv|].
    split; [auto|]. split; [|reflexivity].
    split; [intros ?; by right|by intros [?|?]].
  - discriminate.
  - apply pairsResolve_cons in Hres
      as ((name & sd & ef & d & contents & Ha & Hname & Hb & He & Hf) & Hrest).
    specialize (IH Hrest).
    destruct (is_name_lookup ctx' name Hname) as [Hn' Hnd].
    rewrite (walkNames_pair ctx a b l files0 name sd ef d contents Ha Hb He Hf).
    (* the pair as [rewriteNames] sees it *)
    assert (Ha2 : lookup ctx2 (Some a) = Some name)
      by exact (framed_lookup _ _ _ _ F2 Ha Hnd).
    destruct (framed_lookup_dict _ _ _ _ F2 Hb) as (sd2 & Hb2 & Hsd2).
    cbn [EmbeddedFileManager.rewriteNames head]. rewrite Ha2, Hb2.
    destruct (EmbeddedFileManager.rewriteNames ctx2 fileName l) as [kept removed] eqn:Hk.
    cbn [fst snd] in IH. cbn [fmap option_fmap option_map obj_of].
    destruct (decide (toString name = key)) as [Heq|Hne].
    + (* the pair carries the name: it is dropped *)
      rewrite bool_decide_eq_true_2 by (unfold key in Heq; by rewrite Heq).
      cbn [negb fst snd].
      destruct (IH tail (<[toString name := contents]> files0) files)
        as (files' & Hw & Hs & Hd & Hnone & Hiff & Hpr).
      { by rewrite Heq, delete_insert_eq. }
      exists files'.
      split; [exact Hw|]. split; [exact Hs|]. split; [exact Hd|].
      split; [exact Hnone|]. split; [|exact Hpr]. split.
      * intros _. by left.
      * intros _. apply Hiff. right. rewrite Heq, lookup_insert_eq. by eexists.
    + (* the pair is kept, dereferenced *)
      rewrite bool_decide_eq_false_2 by (unfold key in Hne; congruence).
      cbn [negb fst snd].
      destruct (framed_lookup_dict _ _ _ _ F' He) as (ef' & He' & Hef').
      rewrite <- (Dict_get_same sd sd2 "EF" (Hsd2 _ not_treeKey_EF)) in He'.
      pose proof (framed_lookup _ _ _ _ F' Hf (fun d0 => ltac:(discriminate))) as Hf'.
      rewrite <- (Dict_get_same ef ef' "F" (Hef' _ not_treeKey_F)) in Hf'.
      assert (Hpair : forall rest fs,
                 PDFHandler.walkNames ctx' (name :: PDFDict sd2 :: rest) fs
                 = PDFHandler.walkNames ctx' rest (<[toString name := contents]> fs)).
      { intros rest fs.
        exact (walkNames_pair ctx' name (PDFDict sd2) rest fs name sd2 ef' d contents
                 Hn' eq_refl He' Hf'). }
      destruct (IH tail (<[toString name := contents]> files0)
                  (<[toString name := contents]> files))
        as (files' & Hw & Hs & Hd & Hnone & Hiff & Hpr).
      { rewrite !(delete_insert_ne _ key (toString name)) by congruence.
        by rewrite Hinv. }
      exists files'. cbn [app]. rewrite Hpair.
      split; [exact Hw|]. split; [exact Hs|]. split; [exact Hd|].
      split; [|split; [split|]].
      * intros H. apply Hnone. by rewrite lookup_insert_ne by congruence.
      * intros H. apply Hiff in H as [H|H]; [by left|right].
        by rewrite lookup_insert_ne in H by congruence.
      * intros [H|H]; apply Hiff; [by left|right].
        by rewrite lookup_insert_ne by congruence.
      * cbn [pairsResolve]. rewrite Hn'.
        change (lookup ctx' (Some (PDFDict sd2))) with (Some (PDFDict sd2)).
        cbv iota. rewrite Hname, He'. cbv iota. rewrite Hf'. exact Hpr.
Qed.

Lemma pairsResolve_walk ctx namesArray files :
  pairsResolve ctx namesArray = true ->
  snd (PDFHandler.walkNames ctx namesArray files) = None.
Proof.
  intros Hres.
  destruct (walkNames_rewritten_files ctx ctx ctx "" namesArray (framed_refl _)
              (framed_refl _) Hres [] files files eq_refl) as (_ & _ & Hs & _).
  exact Hs.
Qed.

Lemma namesArrayOf_tree pdfDoc pN pE N E namesArray :
  reaches pdfDoc rootPlace "Names" pN N ->
  reaches pdfDoc pN "EmbeddedFiles" pE E ->
  assoc "Names" E = Some (PDFArray namesArray) ->
  namesArrayOf pdfDoc = Some namesArray.
Proof.
  intros HN HE Ha. unfold namesArrayOf.
  rewrite (reaches_root _ _ _ _ HN).
  rewrite (reaches_from _ _ _ _ _ _ (reaches_read _ _ _ _ _ HN) HE).
  by rewrite (Dict_lookup_typed_array_direct _ _ _ _ Ha).
Qed.

(** The files of a document in terms of its pair array. *)
Lemma getEmbeddedFiles_array pdfDoc :
  PDFHandler.getEmbeddedFiles pdfDoc
  = fst (PDFHandler.walkNames (context pdfDoc) (default [] (namesArrayOf pdfDoc)) ∅).
Proof.
  unfold PDFHandler.getEmbeddedFiles. rewrite getEmbeddedFiles_run_array.
  destruct (namesArrayOf pdfDoc) as [namesArray|]; [|reflexivity].
  cbn [default]. by destruct (PDFHandler.walkNames _ _ _) as [files [e|]].
Qed.

Lemma resolvable_run pdfDoc :
  resolvable pdfDoc = true ->
  PDFHandler.getEmbeddedFiles_run pdfDoc = (PDFHandler.getEmbeddedFiles pdfDoc, []).
Proof.
  intros Hres. rewrite getEmbeddedFiles_array, getEmbeddedFiles_run_array.
  unfold resolvable in Hres.
  destruct (namesArrayOf pdfDoc) as [namesArray|]; [|reflexivity].
  cbn [default] in *.
  pose proof (pairsResolve_walk _ _ ∅ Hres) as Hs.
  destruct (PDFHandler.walkNames _ _ _) as [files [e|]]; [discriminate|reflexivity].
Qed.

(** The files after [removeFile], and the invariant. *)
Lemma removeFile_run pdfDoc fileName :
  tableBounded pdfDoc ->
  resolvable pdfDoc = true ->
  PDFHandler.getEmbeddedFiles_run (fst (EmbeddedFileManager.removeFile pdfDoc fileName))
  = (delete (PDFHandler.embeddedName fileName) (PDFHandler.getEmbeddedFiles pdfDoc), [])
  /\ snd (EmbeddedFileManager.removeFile pdfDoc fileName)
     = bool_decide (is_Some (PDFHandler.getEmbeddedFiles pdfDoc
                              !! PDFHandler.embeddedName fileName))
  /\ resolvable (fst (EmbeddedFileManager.removeFile pdfDoc fileName)) = true
  /\ tableBounded (fst (EmbeddedFileManager.removeFile pdfDoc fileName)).
Proof.
  intros Hb Hres.
  set (key := PDFHandler.embeddedName fileName).
  assert (Hsame : PDFHandler.getEmbeddedFiles pdfDoc !! key = None ->
            PDFHandler.getEmbeddedFiles_run pdfDoc
            = (delete key (PDFHandler.getEmbeddedFiles pdfDoc), [])
            /\ false = bool_decide (is_Some (PDFHandler.getEmbeddedFiles pdfDoc !! key))
            /\ resolvable pdfDoc = true /\ tableBounded pdfDoc).
  { intros Hnone. rewrite (delete_id _ _ Hnone), Hnone.
    split; [by apply resolvable_run|]. split; [|by split].
    symmetry. apply bool_decide_eq_false_2. by intros [? ?]. }
  assert (Hnone : namesArrayOf pdfDoc = None ->
                  PDFHandler.getEmbeddedFiles pdfDoc !! key = None).
  { intros Hn. rewrite getEmbeddedFiles_array, Hn. reflexivity. }
  unfold EmbeddedFileManager.removeFile.
  destruct (Dict_lookup_typed is_PDFDict "PDFDict" (context pdfDoc) (catalog pdfDoc)
              "Names") as [[[ |?|?|?|?|?|?|?|N|? ?]|]|] eqn:HlN;
    try (apply Hsame, Hnone; unfold namesArrayOf; by rewrite HlN).
  destruct (Dict_lookup_typed is_PDFDict "PDFDict" (context pdfDoc) N "EmbeddedFiles")
    as [[[ |?|?|?|?|?|?|?|E|? ?]|]|] eqn:HlE;
    try (apply Hsame, Hnone; unfold namesArrayOf; by rewrite HlN, HlE).
  destruct (Dict_lookup_typed is_PDFArray "PDFArray" (context pdfDoc) E "Names")
    as [[[ |?|?|?|?|?|?|namesArray|?|? ?]|]|] eqn:HlA;
    try (apply Hsame, Hnone; unfold namesArrayOf; by rewrite HlN, HlE, HlA).
  assert (Harr : namesArrayOf pdfDoc = Some namesArray)
    by (unfold namesArrayOf; by rewrite HlN, HlE, HlA).
  unfold resolvable in Hres. rewrite Harr in Hres. cbn [default] in Hres.
  set (pN := Place.child rootPlace (catalog pdfDoc) "Names").
  set (pE := Place.child pN N "EmbeddedFiles").
  assert (HN : reaches pdfDoc rootPlace "Names" pN N) by by apply reaches_intro.
  assert (HE : reaches pdfDoc pN "EmbeddedFiles" pE E)
    by (apply reaches_intro; [exact (reaches_read _ _ _ _ _ HN)|exact HlE]).
  assert (HpN : Forall treeKey (Place.path pN))
    by exact (reaches_path _ _ _ _ _ HN treePath_root treeKey_Names).
  assert (HpE : Forall treeKey (Place.path pE))
    by exact (reaches_path _ _ _ _ _ HE HpN treeKey_EmbeddedFiles).
  destruct (EmbeddedFileManager.rewriteNames (context pdfDoc) fileName namesArray)
    as [kept removed] eqn:Hrw.
  set (doc' := Place.set pdfDoc pE "Names" (PDFArray kept)).
  assert (F : framed (context pdfDoc) (context doc'))
    by exact (framed_set _ _ _ _ HpE treeKey_Names).
  destruct (walkNames_rewritten_files (context pdfDoc) (context pdfDoc) (context doc')
              fileName namesArray (framed_refl _) F Hres [] ∅ ∅ eq_refl)
    as (files' & Hw & _ & Hd & Hnone' & Hiff & Hpr).
  fold key in Hd, Hnone', Hiff. rewrite Hrw in Hw, Hpr, Hiff.
  cbn [fst snd] in Hw, Hpr, Hiff. rewrite app_nil_r in Hw, Hpr.
  assert (Hfiles : PDFHandler.getEmbeddedFiles pdfDoc
                   = fst (PDFHandler.walkNames (context pdfDoc) namesArray ∅))
    by (by rewrite getEmbeddedFiles_array, Harr).
  rewrite <- Hfiles in Hd, Hiff.
  destruct removed.
  - (* a pair was dropped: the array is written back *)
    cbn [fst snd]. fold doc'.
    assert (HE' : reaches doc' pN "EmbeddedFiles" pE
                    (assoc_set "Names" (PDFArray kept) E)).
    { apply reaches_set_child; [|discriminate|exact HE].
      by apply (reaches_shallow _ _ _ _ _ HN). }
    destruct (reaches_set_grandchild _ _ _ _ _ _ _ "Names" (PDFArray kept) HN HE)
      as (N' & HN').
    fold doc' in HN'.
    split; [|split; [|split; [|by apply tableBounded_set]]].
    + rewrite (getEmbeddedFiles_run_tree _ _ _ _ _ _ HN' HE' (assoc_assoc_set_eq _ _ _)).
      rewrite Hw. cbn. f_equal. rewrite <- Hd. symmetry. apply delete_id. by apply Hnone'.
    + symmetry. apply bool_decide_eq_true_2, Hiff. by left.
    + unfold resolvable.
      rewrite (namesArrayOf_tree _ _ _ _ _ _ HN' HE' (assoc_assoc_set_eq _ _ _)).
      exact Hpr.
  - (* nothing carried the name: the document is left as it is *)
    cbn [fst snd]. apply Hsame.
    destruct (PDFHandler.getEmbeddedFiles pdfDoc !! key) as [x|] eqn:Hx; [|reflexivity].
    assert (Hs : is_Some (Some x)) by by eexists.
    apply Hiff in Hs as [?|[? ?]]; discriminate.
Qed.

(** X18. [removeFile] on a document all of whose embedded files
    resolve: the files of the result are those of the document without
    the name, the other files are kept, the answer tells whether the
    name was there, and the result is again such a document. *)
Theorem removeFile_files pdfDoc fileName :
  tableBounded pdfDoc ->
  resolvable pdfDoc = true ->
  PDFHandler.getEmbeddedFiles_run (fst (EmbeddedFileManager.removeFile pdfDoc fileName))
  = (delete (PDFHandler.embeddedName fileName) (PDFHandler.getEmbeddedFiles pdfDoc), [])
  /\ snd (EmbeddedFileManager.removeFile pdfDoc fileName)
     = bool_decide (is_Some (PDFHandler.getEmbeddedFiles pdfDoc
                              !! PDFHandler.embeddedName fileName))
  /\ resolvable (fst (EmbeddedFileManager.removeFile pdfDoc fileName)) = true
  /\ tableBounded (fst (EmbeddedFileManager.removeFile pdfDoc fileName)).
Proof. exact (removeFile_run pdfDoc fileName). Qed.

(** Registering an object keeps the pair array a document has. *)
Lemma namesArrayOf_register_keeps pdfDoc o namesArray :
  tableBounded pdfDoc ->
  namesArrayOf pdfDoc = Some namesArray ->
  namesArrayOf (fst (Place.register_in pdfDoc o)) = Some namesArray.
Proof.
  intros Hb. unfold namesArrayOf, Place.register_in, register.
  cbn [fst context catalog indirectObjects].
  set (r := S (largestObjectNumber (context pdfDoc))).
  set (ctx' := mkContext (<[r := o]> (indirectObjects (context pdfDoc))) r).
  assert (Hkeep : forall n x, indirectObjects (context pdfDoc) !! n = Some x ->
                  indirectObjects ctx' !! n = Some x).
  { intros n x Hn. unfold ctx'. cbn [indirectObjects].
    rewrite lookup_insert_ne; [exact Hn|]. apply Hb in Hn. unfold r. lia. }
  destruct (Dict_lookup_typed is_PDFDict "PDFDict" (context pdfDoc) (catalog pdfDoc)
              "Names") as [r1|] eqn:H1; [|discriminate].
  apply Dict_lookup_typed_dict in H1 as (N & -> & HN).
  destruct (Dict_lookup_typed is_PDFDict "PDFDict" (context pdfDoc) N "EmbeddedFiles")
    as [r2|] eqn:H2; [|discriminate].
  apply Dict_lookup_typed_dict in H2 as (E & -> & HE).
  destruct (Dict_lookup_typed is_PDFArray "PDFArray" (context pdfDoc) E "Names")
    as [r3|] eqn:H3; [|discriminate].
  apply Dict_lookup_typed_array in H3 as (a & -> & Ha).
  intros [= <-].
  assert (HN' : Dict_lookup_typed is_PDFDict "PDFDict" ctx' (catalog pdfDoc) "Names"
                = Ok (Some (PDFDict N))).
  { destruct HN as [HN|(n & HN & Hn)]; [by apply Dict_lookup_typed_direct|].
    apply (Dict_lookup_typed_ref _ _ _ n); [exact HN|by apply Hkeep]. }
  assert (HE' : Dict_lookup_typed is_PDFDict "PDFDict" ctx' N "EmbeddedFiles"
                = Ok (Some (PDFDict E))).
  { destruct HE as [HE|(n & HE & Hn)]; [by apply Dict_lookup_typed_direct|].
    apply (Dict_lookup_typed_ref _ _ _ n); [exact HE|by apply Hkeep]. }
  assert (Ha' : Dict_lookup_typed is_PDFArray "PDFArray" ctx' E "Names"
                = Ok (Some (PDFArray a))).
  { destruct Ha as [Ha|(n & Ha & Hn)]; [by apply Dict_lookup_typed_array_direct|].
    apply (Dict_lookup_typed_array_ref _ _ _ n); [exact Ha|by apply Hkeep]. }
  by rewrite HN', HE', Ha'.
Qed.

Lemma namesArrayOf_register_eq pdfDoc o :
  tableBounded pdfDoc ->
  inert o ->
  namesArrayOf (fst (Place.register_in pdfDoc o)) = namesArrayOf pdfDoc.
Proof.
  intros Hb Hi.
  destruct (namesArrayOf (fst (Place.register_in pdfDoc o))) as [a|] eqn:H1.
  - symmetry. by apply (namesArrayOf_register pdfDoc o).
  - destruct (namesArrayOf pdfDoc) as [a|] eqn:H0; [|reflexivity].
    rewrite (namesArrayOf_register_keeps pdfDoc o a Hb H0) in H1. discriminate.
Qed.

(** The array [embedFile] rewrites is the one the document had, or an
    empty one when the tree was not complete. *)
Lemma getOrCreate_array pdfDoc pdfDoc3 pN pdfDoc4 pE :
  tableBounded pdfDoc ->
  EmbeddedFileManager.getOrCreate pdfDoc rootPlace "Names" [] = (pdfDoc3, pN) ->
  EmbeddedFileManager.getOrCreate pdfDoc3 pN "EmbeddedFiles" [("Names", PDFArray [])]
  = (pdfDoc4, pE) ->
  EmbeddedFileManager.namesArrayAt pdfDoc4 pE = default [] (namesArrayOf pdfDoc).
Proof.
  intros Hb HgN HgE.
  assert (Hroot : Place.read pdfDoc rootPlace = Some (catalog pdfDoc)) by reflexivity.
  destruct (getOrCreate_frame _ _ _ _ _ _ _ Hb Hroot treePath_root treeKey_Names HgN)
    as [_ Hb3].
  destruct (getOrCreate_reaches _ _ _ _ _ _ _ Hb Hroot HgN)
    as [(N & HlN & -> & HN)|(HnoN & _ & _ & HN)].
  - (* the Names dictionary was there *)
    assert (HrN := reaches_read _ _ _ _ _ HN).
    destruct (getOrCreate_reaches _ _ _ _ _ _ _ Hb3 HrN HgE)
      as [(E & HlE & -> & HE)|(HnoE & -> & -> & HE)].
    + exact (namesArrayAt_tree _ _ _ _ _ HN HE).
    + unfold EmbeddedFileManager.namesArrayAt. rewrite (reaches_read _ _ _ _ _ HE).
      unfold namesArrayOf. rewrite HlN.
      destruct (Dict_lookup_typed is_PDFDict "PDFDict" (context pdfDoc) N
                  "EmbeddedFiles") as [r|] eqn:Hr; [by destruct (HnoE r)|reflexivity].
  - (* the Names dictionary was created, and so is the other *)
    assert (HrN := reaches_read _ _ _ _ _ HN).
    assert (Hnone : namesArrayOf pdfDoc = None).
    { unfold namesArrayOf.
      destruct (Dict_lookup_typed is_PDFDict "PDFDict" (context pdfDoc)
                  (catalog pdfDoc) "Names") as [r|] eqn:Hr;
        [by destruct (HnoN r)|reflexivity]. }
    rewrite Hnone.
    destruct (getOrCreate_reaches _ _ _ _ _ _ _ Hb3 HrN HgE)
      as [(E & HlE & _ & _)|(_ & -> & -> & HE)]; [discriminate|].
    unfold EmbeddedFileManager.namesArrayAt. by rewrite (reaches_read _ _ _ _ _ HE).
Qed.

(** The names of the pairs [rewriteNames] keeps, read in a later table:
    those of the array it read, without the name rewritten. *)
Lemma pairNames_rewritten ctx ctx2 ctx' fileName namesArray :
  framed ctx ctx2 ->
  framed ctx ctx' ->
  pairsResolve ctx namesArray = true ->
  forall tail,
    pairNames ctx' (fst (EmbeddedFileManager.rewriteNames ctx2 fileName namesArray)
                    ++ tail)
    = (without (PDFHandler.embeddedName fileName) (pairNames ctx namesArray)
       ++ pairNames ctx' tail)%list.
Proof.
  intros F2 F' Hres.
  induction namesArray as [|a|a b l IH] using pair_induction; intros tail.
  - reflexivity.
  - discriminate.
  - apply pairsResolve_cons in Hres
      as ((name & sd & ef & d & contents & Ha & Hname & Hb & He & Hf) & Hrest).
    specialize (IH Hrest tail).
    destruct (is_name_lookup ctx' name Hname) as [Hn' Hnd].
    assert (Ha2 : lookup ctx2 (Some a) = Some name)
      by exact (framed_lookup _ _ _ _ F2 Ha Hnd).
    destruct (framed_lookup_dict _ _ _ _ F2 Hb) as (sd2 & Hb2 & Hsd2).
    cbn [EmbeddedFileManager.rewriteNames head pairNames]. rewrite Ha, Ha2, Hb2.
    destruct (EmbeddedFileManager.rewriteNames ctx2 fileName l) as [kept removed] eqn:Hk.
    cbn [fst] in IH. cbn [fmap option_fmap option_map obj_of].
    change (default "" (Some (toString name))) with (toString name).
    unfold without. cbn [List.filter]. fold (without (PDFHandler.embeddedName fileName)).
    destruct (String.eqb_spec (toString name) (PDFHandler.embeddedName fileName))
      as [Heq|Hne].
    + rewrite bool_decide_eq_true_2 by (by rewrite Heq). cbn [negb fst]. exact IH.
    + rewrite bool_decide_eq_false_2 by congruence. cbn [negb fst app pairNames].
      rewrite Hn'. cbn [fmap option_fmap option_map].
      change (default "" (Some (toString name))) with (toString name).
      by rewrite IH.
Qed.

(** The files after [embedFile], the invariant, and the pair names. *)
Lemma embedFile_run pdfDoc fileName fileData mimeType :
  tableBounded pdfDoc ->
  resolvable pdfDoc = true ->
  PDFHandler.getEmbeddedFiles_run
    (EmbeddedFileManager.embedFile host pdfDoc fileName fileData mimeType)
  = (<[PDFHandler.embeddedName fileName := pako_deflate host fileData]>
       (PDFHandler.getEmbeddedFiles pdfDoc), [])
  /\ resolvable (EmbeddedFileManager.embedFile host pdfDoc fileName fileData mimeType)
     = true
  /\ tableBounded (EmbeddedFileManager.embedFile host pdfDoc fileName fileData mimeType)
  /\ pairNamesOf (EmbeddedFileManager.embedFile host pdfDoc fileName fileData mimeType)
     = (without (PDFHandler.embeddedName fileName) (pairNamesOf pdfDoc)
        ++ [PDFHandler.embeddedName fileName])%list.
Proof.
  intros Hb Hres.
  assert (Hwalk : snd (PDFHandler.getEmbeddedFiles_run pdfDoc) = [])
    by by rewrite (resolvable_run _ Hres).
  unfold EmbeddedFileManager.embedFile.
  set (stream := EmbeddedFileManager.fileStream host fileData mimeType).
  rewrite (register_in_pair pdfDoc stream).
  set (doc1 := fst (Place.register_in pdfDoc stream)).
  set (r1 := S (largestObjectNumber (context pdfDoc))).
  rewrite (register_in_pair doc1 (EmbeddedFileManager.fileSpec fileName r1)).
  set (doc2 := fst (Place.register_in doc1 (EmbeddedFileManager.fileSpec fileName r1))).
  set (r2 := S (largestObjectNumber (context doc1))).
  assert (Hb1 : tableBounded doc1) by by apply tableBounded_register.
  assert (Hb2 : tableBounded doc2) by by apply tableBounded_register.
  assert (H1 : indirectObjects (context doc2) !! r1 = Some stream).
  { unfold doc2, doc1, Place.register_in, register.
    cbn [fst context indirectObjects largestObjectNumber].
    rewrite lookup_insert_ne by (unfold r1; lia). apply lookup_insert_eq. }
  assert (H2 : indirectObjects (context doc2) !! r2
               = Some (EmbeddedFileManager.fileSpec fileName r1)).
  { unfold doc2, Place.register_in, register.
    cbn [fst context indirectObjects]. apply lookup_insert_eq. }
  assert (F2 : framed (context pdfDoc) (context doc2)).
  { eapply framed_trans; by apply framed_register_in. }
  assert (Harr : namesArrayOf doc2 = namesArrayOf pdfDoc).
  { unfold doc2.
    rewrite (namesArrayOf_register_eq doc1 _ Hb1) by by split.
    exact (namesArrayOf_register_eq pdfDoc stream Hb I). }
  destruct (EmbeddedFileManager.getOrCreate doc2 rootPlace "Names" [])
    as [doc3 pN] eqn:HgN.
  destruct (EmbeddedFileManager.getOrCreate doc3 pN "EmbeddedFiles"
              [("Names", PDFArray [])]) as [doc4 pE] eqn:HgE.
  destruct (getOrCreate_tree _ _ _ _ _ _ Hb2
              (fun a Ha => eq_trans (eq_sym Harr) Ha) Hwalk HgN HgE)
    as ((N & E & HN & HE) & _ & F4 & Hb4).
  rewrite (getOrCreate_array _ _ _ _ _ Hb2 HgN HgE), Harr.
  set (namesArray := default [] (namesArrayOf pdfDoc)).
  fold namesArray in Hres. unfold resolvable in Hres. fold namesArray in Hres.
  destruct (EmbeddedFileManager.rewriteNames (context doc4) fileName namesArray)
    as [kept removed] eqn:Hrw.
  cbn [fst].
  set (newNamesArray := (kept ++ [PDFString fileName; PDFRef r2])%list).
  set (doc5 := Place.set doc4 pE "Names" (PDFArray newNamesArray)).
  assert (HpN : Forall treeKey (Place.path pN))
    by exact (reaches_path _ _ _ _ _ HN treePath_root treeKey_Names).
  assert (HpE : Forall treeKey (Place.path pE))
    by exact (reaches_path _ _ _ _ _ HE HpN treeKey_EmbeddedFiles).
  assert (F5 : framed (context doc4) (context doc5))
    by exact (framed_set _ _ _ _ HpE treeKey_Names).
  assert (HE5 : reaches doc5 pN "EmbeddedFiles" pE
                  (assoc_set "Names" (PDFArray newNamesArray) E)).
  { apply reaches_set_child; [|discriminate|exact HE].
    by apply (reaches_shallow _ _ _ _ _ HN). }
  destruct (reaches_set_grandchild _ _ _ _ _ _ _ "Names" (PDFArray newNamesArray) HN HE)
    as (N5 & HN5).
  fold doc5 in HN5.
  assert (F25 := framed_trans _ _ _ F4 F5).
  destruct (framed_dict _ _ _ _ F25 H2) as (sd & Hsd & Hsame).
  assert (Hpair : forall files,
             PDFHandler.walkNames (context doc5) [PDFString fileName; PDFRef r2] files
             = (<[PDFHandler.embeddedName fileName := pako_deflate host fileData]> files,
                None)).
  { intros files.
    apply (walkNames_new_pair _ fileName r1 r2 sd
             [("Filter", PDFName "FlateDecode"); ("Type", PDFName "EmbeddedFile");
              ("Subtype", PDFName mimeType);
              ("Length", PDFNumber (Z.of_nat (length fileData)))]
             (pako_deflate host fileData) files Hsd).
    - rewrite Hsame; [reflexivity|]. exact not_treeKey_EF.
    - exact (framed_stream _ _ _ _ _ F25 H1). }
  destruct (walkNames_rewritten_files (context pdfDoc) (context doc4) (context doc5)
              fileName namesArray (framed_trans _ _ _ F2 F4)
              (framed_trans _ _ _ (framed_trans _ _ _ F2 F4) F5) Hres
              [PDFString fileName; PDFRef r2] ∅ ∅ eq_refl)
    as (files' & Hw & _ & Hd & _ & _ & Hpr).
  pose proof (pairNames_rewritten (context pdfDoc) (context doc4) (context doc5)
                fileName namesArray (framed_trans _ _ _ F2 F4)
                (framed_trans _ _ _ (framed_trans _ _ _ F2 F4) F5) Hres
                [PDFString fileName; PDFRef r2]) as Hnames.
  rewrite Hrw in Hw, Hpr, Hnames. cbn [fst] in Hw, Hpr, Hnames.
  fold newNamesArray in Hw, Hpr, Hnames.
  split; [|split; [|split; [by apply tableBounded_set|]]].
  - rewrite (getEmbeddedFiles_run_tree _ _ _ _ _ _ HN5 HE5 (assoc_assoc_set_eq _ _ _)).
    rewrite Hw, Hpair. cbn. f_equal.
    rewrite getEmbeddedFiles_array. fold namesArray.
    rewrite <- (insert_delete_eq files'), Hd. apply insert_delete_eq.
  - unfold resolvable.
    rewrite (namesArrayOf_tree _ _ _ _ _ _ HN5 HE5 (assoc_assoc_set_eq _ _ _)).
    change (default [] (Some newNamesArray)) with newNamesArray.
    rewrite Hpr. cbn [pairsResolve].
    change (lookup (context doc5) (Some (PDFString fileName)))
      with (Some (PDFString fileName)).
    cbn [Pdf.lookup]. rewrite Hsd. cbv iota. cbn [is_name andb].
    unfold Dict_get at 1. rewrite (Hsame _ not_treeKey_EF). cbn.
    by rewrite (framed_stream _ _ _ _ _ F25 H1).
  - unfold pairNamesOf at 1.
    rewrite (namesArrayOf_tree _ _ _ _ _ _ HN5 HE5 (assoc_assoc_set_eq _ _ _)).
    change (default [] (Some newNamesArray)) with newNamesArray.
    exact Hnames.
Qed.

(** X19. [embedFile] on a document all of whose embedded files
    resolve: the files of the result are those of the document with the
    name set to the deflated data, the other files are kept, and the
    result is again such a document.  A file of that name is replaced,
    not duplicated: the names of the pairs are those the document had
    without the name, and the name once, last. *)
Theorem embedFile_files pdfDoc fileName fileData mimeType :
  tableBounded pdfDoc ->
  resolvable pdfDoc = true ->
  PDFHandler.getEmbeddedFiles_run
    (EmbeddedFileManager.embedFile host pdfDoc fileName fileData mimeType)
  = (<[PDFHandler.embeddedName fileName := pako_deflate host fileData]>
       (PDFHandler.getEmbeddedFiles pdfDoc), [])
  /\ resolvable (EmbeddedFileManager.embedFile host pdfDoc fileName fileData mimeType)
     = true
  /\ tableBounded (EmbeddedFileManager.embedFile host pdfDoc fileName fileData mimeType)
  /\ pairNamesOf (EmbeddedFileManager.embedFile host pdfDoc fileName fileData mimeType)
     = (without (PDFHandler.embeddedName fileName) (pairNamesOf pdfDoc)
        ++ [PDFHandler.embeddedName fileName])%list.
Proof. exact (embedFile_run pdfDoc fileName fileData mimeType). Qed.

Lemma getEmbeddedFiles_run_graph d1 d2 :
  context d1 = context d2 -> catalog d1 = catalog d2 ->
  PDFHandler.getEmbeddedFiles_run d1 = PDFHandler.getEmbeddedFiles_run d2.
Proof. intros Hc Hk. unfold PDFHandler.getEmbeddedFiles_run. by rewrite Hc, Hk. Qed.

Lemma getEmbeddedFiles_run_addMetadata pdfDoc key value :
  PDFHandler.getEmbeddedFiles_run (PDFHandler.addMetadata pdfDoc key value)
  = PDFHandler.getEmbeddedFiles_run pdfDoc.
Proof. apply getEmbeddedFiles_run_graph; apply graph_addMetadata. Qed.

(** X20. An injection into a document all of whose embedded files
    resolve leaves the other embedded files as they were, with or
    without [overwrite]; the walk of the result ends without an
    exception. *)
Theorem injection_keeps_other_files pdfDoc data options pdfDoc' payload willCompress :
  tableBounded pdfDoc ->
  resolvable pdfDoc = true ->
  StructPDFInjector.injectDocument host pdfDoc data options
  = Ok (pdfDoc', payload, willCompress) ->
  snd (PDFHandler.getEmbeddedFiles_run pdfDoc') = []
  /\ forall name,
       name <> PDFHandler.embeddedName EMBEDDED_FILE_NAME ->
       PDFHandler.getEmbeddedFiles pdfDoc' !! name
       = PDFHandler.getEmbeddedFiles pdfDoc !! name.
Proof.
  intros Hb Hres Hi.
  apply injectDocument_Ok in Hi as (payload0 & dataBytes & _ & _ & _ & _ & ->).
  unfold PDFHandler.getEmbeddedFiles, finishInjection.
  rewrite !getEmbeddedFiles_run_addMetadata.
  destruct (overwrite options).
  - destruct (removeFile_run pdfDoc EMBEDDED_FILE_NAME Hb Hres)
      as (Hrun & _ & Hres' & Hb').
    destruct (embedFile_run _ EMBEDDED_FILE_NAME dataBytes MIME_TYPE Hb' Hres')
      as (Hrun' & _ & _).
    rewrite Hrun'. unfold PDFHandler.getEmbeddedFiles. rewrite Hrun.
    split; [reflexivity|]. intros name Hne. cbn [fst].
    rewrite lookup_insert_ne by congruence. by rewrite lookup_delete_ne by congruence.
  - destruct (embedFile_run pdfDoc EMBEDDED_FILE_NAME dataBytes MIME_TYPE Hb Hres)
      as (Hrun' & _ & _).
    rewrite Hrun'. split; [reflexivity|]. intros name Hne. cbn [fst].
    by rewrite lookup_insert_ne by congruence.
Qed.

End EmbeddedFiles.

Lemma removeFile_files_witness :
  PDFHandler.getEmbeddedFiles_run
    (fst (EmbeddedFileManager.removeFile documentWithAttachment "notes.txt"))
  = (delete "(notes.txt)" (PDFHandler.getEmbeddedFiles documentWithAttachment), [])
  /\ snd (EmbeddedFileManager.removeFile documentWithAttachment "notes.txt") = true.
Proof.
  destruct (removeFile_files documentWithAttachment "notes.txt"
              documentWithAttachment_bounded eq_refl) as (Hrun & Hsnd & _).
  split; [exact Hrun|].
  etransitivity; [exact Hsnd|]. vm_compute. reflexivity.
Defined.

Lemma embedFile_files_witness :
  pairNamesOf documentWithAttachment = ["(notes.txt)"]
  /\ PDFHandler.getEmbeddedFiles_run
       (EmbeddedFileManager.embedFile RefHost.host documentWithAttachment "notes.txt"
          adaPlain MIME_TYPE)
     = (<["(notes.txt)" := RefHost.deflate adaPlain]>
          (PDFHandler.getEmbeddedFiles documentWithAttachment), [])
  /\ pairNamesOf
       (EmbeddedFileManager.embedFile RefHost.host documentWithAttachment "notes.txt"
          adaPlain MIME_TYPE)
     = ["(notes.txt)"]
  /\ pairNamesOf
       (EmbeddedFileManager.embedFile RefHost.host documentWithAttachment
          EMBEDDED_FILE_NAME adaPlain MIME_TYPE)
     = ["(notes.txt)"; "(structpdf.json)"].
Proof.
  split; [reflexivity|].
  destruct (embedFile_files RefHost.host documentWithAttachment "notes.txt" adaPlain
              MIME_TYPE documentWithAttachment_bounded eq_refl) as (Hrun & _ & _ & Hn).
  destruct (embedFile_files RefHost.host documentWithAttachment EMBEDDED_FILE_NAME
              adaPlain MIME_TYPE documentWithAttachment_bounded eq_refl)
    as (_ & _ & _ & Hn').
  split; [exact Hrun|]. split.
  - etransitivity; [exact Hn|]. vm_compute. reflexivity.
  - etransitivity; [exact Hn'|]. vm_compute. reflexivity.
Defined.

Lemma injection_keeps_other_files_witness :
  exists pdfDoc payload,
    StructPDFInjector.injectDocument RefHost.host documentWithAttachment adaPayload
      (exampleOptions false false true) = Ok (pdfDoc, payload, false)
    /\ PDFHandler.getEmbeddedFiles pdfDoc !! "(notes.txt)"
       = Some (list_byte_of_string "hello").
Proof.
  eexists _, _.
  match goal with |- ?A /\ _ => assert (Hi : A) by (vm_compute; reflexivity) end.
  split; [exact Hi|].
  destruct (injection_keeps_other_files RefHost.host _ _ _ _ _ _
              documentWithAttachment_bounded eq_refl Hi) as [_ Hkeep].
  rewrite Hkeep by discriminate. vm_compute. reflexivity.
Defined.

(** ** Injection again, and damaged layers *)

Section Reinjection.

Context (host : Host).

Lemma resolvable_graph d1 d2 :
  context d1 = context d2 -> catalog d1 = catalog d2 -> resolvable d1 = resolvable d2.
Proof. intros Hc Hk. unfold resolvable, namesArrayOf. by rewrite Hc, Hk. Qed.

Lemma tableBounded_graph d1 d2 :
  context d1 = context d2 -> tableBounded d2 -> tableBounded d1.
Proof. intros Hc Hb. unfold tableBounded. by rewrite Hc. Qed.

(** The files, and the invariant, after the writes of an injection. *)
Lemma finishInjection_files pdfDoc data options dataBytes :
  tableBounded pdfDoc ->
  resolvable pdfDoc = true ->
  PDFHandler.getEmbeddedFiles_run (finishInjection host pdfDoc data options dataBytes)
  = (<[PDFHandler.embeddedName EMBEDDED_FILE_NAME := pako_deflate host dataBytes]>
       (PDFHandler.getEmbeddedFiles pdfDoc), [])
  /\ resolvable (finishInjection host pdfDoc data options dataBytes) = true
  /\ tableBounded (finishInjection host pdfDoc data options dataBytes).
Proof.
  intros Hb Hres. unfold finishInjection.
  set (doc0 := if overwrite options
               then fst (EmbeddedFileManager.removeFile pdfDoc EMBEDDED_FILE_NAME)
               else pdfDoc).
  set (doc1 := EmbeddedFileManager.embedFile host doc0 EMBEDDED_FILE_NAME dataBytes
                 MIME_TYPE).
  assert (H1 : PDFHandler.getEmbeddedFiles_run doc1
               = (<[PDFHandler.embeddedName EMBEDDED_FILE_NAME
                    := pako_deflate host dataBytes]>
                    (PDFHandler.getEmbeddedFiles pdfDoc), [])
               /\ resolvable doc1 = true /\ tableBounded doc1).
  { unfold doc1, doc0. destruct (overwrite options).
    - destruct (removeFile_run pdfDoc EMBEDDED_FILE_NAME Hb Hres)
        as (Hrun & _ & Hres' & Hb').
      destruct (embedFile_run host _ EMBEDDED_FILE_NAME dataBytes MIME_TYPE Hb' Hres')
        as (Hrun' & Hres'' & Hb'' & _).
      split; [|by split]. rewrite Hrun'. unfold PDFHandler.getEmbeddedFiles at 1.
      rewrite Hrun. cbn [fst]. by rewrite insert_delete_eq.
    - destruct (embedFile_run host pdfDoc EMBEDDED_FILE_NAME dataBytes MIME_TYPE Hb Hres)
        as (Hrun' & Hres'' & Hb'' & _).
      by repeat split. }
  destruct H1 as (Hrun & Hres1 & Hb1).
  assert (Hgraph : forall d key value,
             context (PDFHandler.addMetadata d key value) = context d
             /\ catalog (PDFHandler.addMetadata d key value) = catalog d)
    by (intros; apply graph_addMetadata).
  split; [|split].
  - by rewrite !getEmbeddedFiles_run_addMetadata.
  - rewrite <- Hres1. apply resolvable_graph.
    + by rewrite !(proj1 (Hgraph _ _ _)).
    + by rewrite !(proj2 (Hgraph _ _ _)).
  - apply (tableBounded_graph _ doc1); [|exact Hb1].
    by rewrite !(proj1 (Hgraph _ _ _)).
Qed.

(** X21. A successful injection into a document whose table is within
    its counter and all of whose embedded files resolve produces such a
    document again, which holds the payload; a further injection
    without [overwrite] throws the guard's error. *)
Theorem injection_keeps_invariant pdfDoc data options pdfDoc' payload willCompress :
  tableBounded pdfDoc ->
  resolvable pdfDoc = true ->
  StructPDFInjector.injectDocument host pdfDoc data options
  = Ok (pdfDoc', payload, willCompress) ->
  tableBounded pdfDoc'
  /\ resolvable pdfDoc' = true
  /\ PDFHandler.hasStructPDFData pdfDoc' = true
  /\ forall data2 options2,
       overwrite options2 = false ->
       StructPDFInjector.injectDocument host pdfDoc' data2 options2
       = Throw (new_Error
                  "PDF already contains StructPDF data. Use overwrite option to replace.").
Proof.
  intros Hb Hres Hi.
  apply injectDocument_Ok in Hi as (payload0 & dataBytes & _ & _ & _ & _ & ->).
  destruct (finishInjection_files pdfDoc data options dataBytes Hb Hres)
    as (Hrun & Hres' & Hb').
  assert (Hhas : PDFHandler.hasStructPDFData
                   (finishInjection host pdfDoc data options dataBytes) = true).
  { unfold PDFHandler.hasStructPDFData, PDFHandler.getEmbeddedFiles. rewrite Hrun.
    cbn [fst]. apply bool_decide_eq_true_2. rewrite lookup_insert_eq. by eexists. }
  split; [exact Hb'|]. split; [exact Hres'|]. split; [exact Hhas|].
  intros data2 options2 Ho. unfold StructPDFInjector.injectDocument.
  by rewrite Ho, Hhas.
Qed.

(** X22. A stored payload that starts with the gzip magic number and
    that the decompressor rejects, for every [decompress] option but
    [false]: [extract] reports, behind [Failed to parse StructPDF data:
    Decompression failed: ], what [error.message] reads on the value
    thrown.  pako throws its message as a string, on which
    [error.message] is [undefined]: the report then ends in [undefined]
    and the decompressor's reason is not in it. *)
Theorem damaged_layer_reported pdfDoc stored xoptions :
  storedBytes pdfDoc = Some stored ->
  isGzip stored = true ->
  decompress_opt xoptions <> Some false ->
  (forall e,
      pako_ungzip host stored = Throw e ->
      StructPDFExtractor.extractDocument host pdfDoc xoptions
      = Ok (StructPDFExtractor.failure
              ("Failed to parse StructPDF data: Decompression failed: " +:+ message e)))
  /\ (forall reason,
        pako_ungzip host stored = Throw (thrown_string reason) ->
        StructPDFExtractor.extractDocument host pdfDoc xoptions
        = Ok (StructPDFExtractor.failure
                "Failed to parse StructPDF data: Decompression failed: undefined")).
Proof.
  intros Hst Hg Hx.
  assert (Hgen : forall e,
             pako_ungzip host stored = Throw e ->
             StructPDFExtractor.extractDocument host pdfDoc xoptions
             = Ok (StructPDFExtractor.failure
                     ("Failed to parse StructPDF data: Decompression failed: "
                      +:+ message e)));
    [|split; [exact Hgen|intros reason Hu; exact (Hgen _ Hu)]].
  intros e Hu. rewrite (extractDocument_stored host _ _ _ Hst).
  assert (Hd : decompress host stored
               = Throw (new_Error ("Decompression failed: " +:+ message e))).
  { unfold decompress, COMPRESSION_SETTINGS_DETECTION_THRESHOLD.
    pose proof (isGzip_length _ Hg) as Hlen. apply Nat.ltb_ge in Hlen.
    by rewrite Hlen, Hg, Hu. }
  unfold StructPDFExtractor.parseStored, isStillCompressed. rewrite Hg. cbn [orb andb].
  assert (Hopt : negb match decompress_opt xoptions with
                      | Some false => true
                      | _ => false
                      end = true)
    by (destruct (decompress_opt xoptions) as [[]|]; [reflexivity|by destruct Hx|reflexivity]).
  rewrite Hopt. unfold COMPRESSION_MAX_LAYERS, COMPRESSION_SETTINGS_MAX_LAYERS.
  cbn [StructPDFExtractor.decompressLoop]. unfold isStillCompressed. rewrite Hg.
  cbn [orb negb]. rewrite Hd. reflexivity.
Qed.

End Reinjection.

Lemma validateJSON_rejects_constructor_key_witness :
  JSONValidator.validateJSON contractPayload = false.
Proof.
  apply validateJSON_rejects_constructor_key.
  exists (JObject [("constructor", JString "ACME Builders")]). split.
  - apply (subvalue_field _ _ "parties" (JArray [JObject [("constructor", JString "ACME Builders")]]));
      [by left|].
    apply (subvalue_item _ _ (JObject [("constructor", JString "ACME Builders")]));
      [by left|constructor].
  - eexists. split; [reflexivity|]. by eexists.
Defined.

Lemma inject_error_classes_witness :
  StructPDFInjector.inject RefHost.host fsWithGarbage "/tmp/invalid.pdf" contractPayload
    "/tmp/out.pdf" (exampleOptions false false false)
  = Throw (mkError ValidationError "Validation failed: Invalid JSON data provided")
  /\ StructPDFInjector.inject RefHost.host fsWithGarbage "" adaPayload "/tmp/out.pdf"
       (exampleOptions false false false)
     = Throw (mkError InjectionError
                "Injection failed: Invalid path: path must be a non-empty string").
Proof.
  split.
  - apply (proj1 (proj2 (inject_error_classes RefHost.host fsWithGarbage
                           "/tmp/invalid.pdf" contractPayload "/tmp/out.pdf"
                           (exampleOptions false false false)))).
    reflexivity.
  - apply (proj2 (proj2 (inject_error_classes RefHost.host fsWithGarbage "" adaPayload
                           "/tmp/out.pdf" (exampleOptions false false false)))
             (new_Error "Invalid path: path must be a non-empty string"));
      reflexivity.
Defined.

Lemma extract_entry_failures_witness :
  StructPDFExtractor.extract RefHost.host fsWithGarbage "/tmp/none.pdf"
    defaultExtractionOptions
  = StructPDFExtractor.failure
      "Extraction failed: File not found or not readable: /tmp/none.pdf"
  /\ StructPDFExtractor.extract RefHost.host fsWithGarbage "/tmp/invalid.pdf"
       defaultExtractionOptions
     = StructPDFExtractor.failure
         "Extraction failed: Failed to parse PDF document (line:0 col:0 offset=0): No PDF header found".
Proof.
  split.
  - apply (proj1 (proj2 (extract_entry_failures RefHost.host fsWithGarbage
                           "/tmp/none.pdf" defaultExtractionOptions)) "/tmp/none.pdf");
      [reflexivity|vm_compute; reflexivity].
  - apply (proj2 (proj2 (extract_entry_failures RefHost.host fsWithGarbage
                           "/tmp/invalid.pdf" defaultExtractionOptions))
             "/tmp/invalid.pdf" (list_byte_of_string "Not a PDF file")
             (new_Error "Failed to parse PDF document (line:0 col:0 offset=0): No PDF header found"));
      [reflexivity|vm_compute; reflexivity|reflexivity|reflexivity].
Defined.

Lemma extractDocument_never_reports_missing_entry_witness :
  StructPDFExtractor.extractDocument RefHost.host RefHost.emptyDocument
    defaultExtractionOptions
  = Ok (StructPDFExtractor.failure "No StructPDF data found in PDF")
  /\ errors (StructPDFExtractor.failure "No StructPDF data found in PDF")
     <> Some ["StructPDF file not found in embedded files"].
Proof.
  split; [reflexivity|].
  apply (extractDocument_never_reports_missing_entry RefHost.host RefHost.emptyDocument
           defaultExtractionOptions). reflexivity.
Defined.

Lemma injection_keeps_invariant_witness :
  exists pdfDoc payload,
    StructPDFInjector.injectDocument RefHost.host documentWithAttachment firstPayload
      (exampleOptions false false false) = Ok (pdfDoc, payload, false)
    /\ StructPDFInjector.injectDocument RefHost.host pdfDoc secondPayload
         (exampleOptions false false false)
       = Throw (new_Error
                  "PDF already contains StructPDF data. Use overwrite option to replace.").
Proof.
  eexists _, _.
  match goal with |- ?A /\ _ => assert (Hi : A) by (vm_compute; reflexivity) end.
  split; [exact Hi|].
  destruct (injection_keeps_invariant RefHost.host _ _ _ _ _ _
              documentWithAttachment_bounded eq_refl Hi) as (_ & _ & _ & Hguard).
  by apply Hguard.
Defined.

Lemma damaged_layer_reported_witness :
  StructPDFExtractor.extractDocument rejectingHost
    (ArchiveHost.holding [x1f; x8b; xff; xff; xff]) defaultExtractionOptions
  = Ok (StructPDFExtractor.failure
          "Failed to parse StructPDF data: Decompression failed: undefined").
Proof.
  apply (proj2 (damaged_layer_reported rejectingHost
                  (ArchiveHost.holding [x1f; x8b; xff; xff; xff])
                  [x1f; x8b; xff; xff; xff] defaultExtractionOptions
                  ltac:(vm_compute; reflexivity) eq_refl ltac:(discriminate))
           "invalid stored block lengths").
  reflexivity.
Defined.

(** ** The envelope, the size limit, and what extraction does not check *)

Section Envelope.

Context (host : Host).

(** [extractVersion] against the property read it stands for: the
    string under [specVersion], or [unknown]. *)
Lemma extractVersion_specVersion data :
  (forall v,
      get_opt (Some data) "specVersion" = Some (JString v) ->
      StructPDFInjector.extractVersion data = v)
  /\ ((forall v, get_opt (Some data) "specVersion" <> Some (JString v)) ->
      StructPDFInjector.extractVersion data = "unknown").
Proof.
  destruct data as [ |b|n|s|items|fields]; cbn [get_opt StructPDFInjector.extractVersion];
    try (split; [discriminate|reflexivity]).
  destruct (assoc "specVersion" fields) as [[ |b|n|s|items|fields']|];
    try (split; [discriminate|reflexivity]).
  split; [by intros v [= <-]|]. intros H. by destruct (H s).
Qed.

(** X23. The envelope a successful injection returns: its [domain] is
    the option when it is a non-empty string and [GENERIC] otherwise,
    its [version] the string under [specVersion] of the data or
    [unknown], its [schema] the URL given, its [payload] the data;
    [metadata] holds the clock's time, the package name, whether the
    bytes were compressed (never unless [compress] is set) and, exactly
    when asked for, the sha256 digest of the serialized data.  When the
    document's table is within its counter and its walk ends without an
    exception, what the result stores under the reserved name is the
    deflated serialization of that envelope, gzipped first when
    [compressed] says so. *)
Theorem injected_envelope pdfDoc data options pdfDoc' payload willCompress :
  StructPDFInjector.injectDocument host pdfDoc data options
  = Ok (pdfDoc', payload, willCompress) ->
  (forall d, domain options = Some d -> d <> "" ->
             fieldOf payload "domain" = Some (JString d))
  /\ (domain options = None \/ domain options = Some "" ->
      fieldOf payload "domain" = Some (JString "GENERIC"))
  /\ (forall v, get_opt (Some data) "specVersion" = Some (JString v) ->
                fieldOf payload "version" = Some (JString v))
  /\ ((forall v, get_opt (Some data) "specVersion" <> Some (JString v)) ->
      fieldOf payload "version" = Some (JString "unknown"))
  /\ fieldOf payload "schema" = Some (JString (schemaUrl options))
  /\ fieldOf payload "payload" = Some data
  /\ metadataField payload "createdAt" = Some (JString (Date_toISOString host))
  /\ metadataField payload "generator" = Some (JString "@structcv/structpdf")
  /\ metadataField payload "compressed" = Some (JBool willCompress)
  /\ (addIntegrity options = true ->
      exists hash,
        crypto_createHash_hex host "sha256" (JSON_stringify host data) = Ok hash
        /\ metadataField payload "integrity"
           = Some (JObject [("algorithm", JString "sha256"); ("hash", JString hash)]))
  /\ (addIntegrity options = false -> metadataField payload "integrity" = None)
  /\ (compress_opt options = false -> willCompress = false)
  /\ (tableBounded pdfDoc ->
      snd (PDFHandler.getEmbeddedFiles_run pdfDoc) = [] ->
      let plain := TextEncoder_encode host (JSON_stringify_indent2 host payload) in
      exists dataBytes,
        storedBytes pdfDoc' = Some (pako_deflate host dataBytes)
        /\ if willCompress then compress host plain = Ok dataBytes
           else dataBytes = plain).
Proof.
  intros Hi.
  apply injectDocument_Ok in Hi as (payload0 & dataBytes & _ & Hp & Hs & _ & ->).
  assert (Hstored : tableBounded pdfDoc ->
            snd (PDFHandler.getEmbeddedFiles_run pdfDoc) = [] ->
            exists dataBytes0,
              storedBytes (finishInjection host pdfDoc data options dataBytes)
              = Some (pako_deflate host dataBytes0)
              /\ if willCompress
                 then compress host
                        (TextEncoder_encode host (JSON_stringify_indent2 host payload))
                      = Ok dataBytes0
                 else dataBytes0
                      = TextEncoder_encode host (JSON_stringify_indent2 host payload)).
  { intros Hb Hw. exists dataBytes.
    split; [exact (storedBytes_finishInjection host _ data options dataBytes Hb Hw)|].
    by apply serializePayload_Ok in Hs as [(-> & -> & ->)|(-> & -> & Hc)]. }
  unfold StructPDFInjector.serializePayload in Hs.
  set (wc := compress_opt options && _) in Hs.
  assert (Hwc : willCompress = wc
                /\ payload = if wc then StructPDFInjector.setCompressed payload0
                             else payload0).
  { destruct wc.
    - destruct (compress host _); cbn [Js.bind] in Hs; [|discriminate].
      by injection Hs as <- _ <-.
    - cbn [Js.bind] in Hs. by injection Hs as <- _ <-. }
  destruct Hwc as [-> ->].
  assert (Hc : compress_opt options = false -> wc = false)
    by (intros Hc; unfold wc; by rewrite Hc).
  clear Hs. unfold StructPDFInjector.preparePayload in Hp.
  destruct (extractVersion_specVersion data) as [Hv1 Hv2].
  assert (Hdom : (forall d, domain options = Some d -> d <> "" ->
                            domainOrDefault options = d)
                 /\ (domain options = None \/ domain options = Some "" ->
                     domainOrDefault options = "GENERIC")).
  { unfold domainOrDefault, PDFHandler.truthy_string. split.
    - intros d -> Hd. by destruct (String.eqb_spec d "").
    - by intros [-> | ->]. }
  destruct Hdom as [Hd1 Hd2]. unfold domainOrDefault in Hd1, Hd2.
  unfold fieldOf, metadataField, GENERATOR.
  destruct (addIntegrity options).
  - destruct (crypto_createHash_hex host "sha256" (JSON_stringify host data))
      as [hash|e]; [|discriminate].
    cbn [Js.bind] in Hp. injection Hp as <-.
    destruct wc; cbn; (repeat split; auto; try discriminate);
      try (intros; f_equal; f_equal; auto; fail);
      try (intros _; by exists hash).
  - cbn [Js.bind] in Hp. injection Hp as <-.
    destruct wc; cbn; (repeat split; auto; try discriminate);
      try (intros; f_equal; f_equal; auto; fail).
Qed.

(** X24. The size limit: when the bytes to embed (after compression,
    if any) are more than 10 MiB long, the injection throws
    [Payload too large] with the length and the limit, provided the
    guard lets it through. *)
Theorem payload_too_large pdfDoc data options payload0 payload dataBytes willCompress :
  overwrite options = true \/ PDFHandler.hasStructPDFData pdfDoc = false ->
  StructPDFInjector.preparePayload host data options = Ok payload0 ->
  StructPDFInjector.serializePayload host payload0 options
  = Ok (payload, dataBytes, willCompress) ->
  MAX_PAYLOAD_SIZE < Z.of_nat (length dataBytes) ->
  StructPDFInjector.injectDocument host pdfDoc data options
  = Throw (new_Error ("Payload too large: " +:+ pretty (Z.of_nat (length dataBytes))
                      +:+ " bytes (max: 10485760)")).
Proof.
  intros Hguard Hp Hs Hsize. unfold StructPDFInjector.injectDocument.
  assert (Hg : negb (overwrite options) && PDFHandler.hasStructPDFData pdfDoc = false).
  { destruct Hguard as [->| ->]; [reflexivity|apply andb_false_r]. }
  rewrite Hg, Hp. cbn [Js.bind]. rewrite Hs. cbn [Js.bind].
  destruct (Z.gtb_spec (Z.of_nat (length dataBytes)) MAX_PAYLOAD_SIZE) as [_|?]; [|lia].
  reflexivity.
Qed.

(** X25. Extraction does not check the shape of what it decodes: any
    JSON value stored under the reserved name comes back as [data] with
    [success: true], when integrity verification is off or the value
    holds no integrity block. *)
Theorem extraction_returns_any_value pdfDoc stored value xoptions :
  storedBytes pdfDoc = Some stored ->
  StructPDFExtractor.parseStored host stored xoptions = Ok value ->
  verifyIntegrity xoptions = false
  \/ (value <> JNull /\ truthy (metadataField value "integrity") = false) ->
  StructPDFExtractor.extractDocument host pdfDoc xoptions = Ok (succeeded value).
Proof.
  intros Hst Hparse Hcase. rewrite (extractDocument_stored host _ _ _ Hst), Hparse.
  unfold StructPDFExtractor.verify.
  destruct Hcase as [->|[Hnn Hint]]; [reflexivity|].
  destruct (verifyIntegrity xoptions); [|reflexivity]. cbn [negb].
  unfold metadataField, fieldOf in Hint.
  destruct value as [ |b|n|s|items|fields]; [by destruct Hnn|..];
    cbn [get get_opt Js.bind] in *; rewrite Hint; reflexivity.
Qed.

End Envelope.

Lemma injected_envelope_witness :
  (exists pdfDoc payload,
      StructPDFInjector.injectDocument RefHost.host documentWithAttachment
        versionedPayload specOptions = Ok (pdfDoc, payload, false)
      /\ fieldOf payload "domain" = Some (JString "RESUME")
      /\ fieldOf payload "version" = Some (JString "1.0.0")
      /\ metadataField payload "compressed" = Some (JBool false)
      /\ storedBytes pdfDoc
         = Some (RefHost.deflate (list_byte_of_string (RefHost.print payload))))
  /\ (exists pdfDoc payload,
         StructPDFInjector.injectDocument RefHost.host documentWithAttachment
           adaPayload (exampleOptions false true false) = Ok (pdfDoc, payload, false)
         /\ fieldOf payload "domain" = Some (JString "GENERIC")
         /\ fieldOf payload "version" = Some (JString "unknown")
         /\ metadataField payload "integrity"
            = Some (JObject [("algorithm", JString "sha256");
                             ("hash", JString "sha25614")])).
Proof.
  split.
  - eexists _, _.
    match goal with |- ?A /\ _ => assert (Hi : A) by (vm_compute; reflexivity) end.
    split; [exact Hi|].
    destruct (injected_envelope RefHost.host _ _ _ _ _ _ Hi)
      as (Hd & _ & Hv & _ & _ & _ & _ & _ & Hc & _ & _ & _ & Hst).
    split; [by apply Hd|]. split; [by apply Hv|]. split; [exact Hc|].
    destruct (Hst documentWithAttachment_bounded eq_refl) as (dataBytes & Hs & ->).
    exact Hs.
  - eexists _, _.
    match goal with |- ?A /\ _ => assert (Hi : A) by (vm_compute; reflexivity) end.
    split; [exact Hi|].
    destruct (injected_envelope RefHost.host _ _ _ _ _ _ Hi)
      as (_ & Hd & _ & Hv & _ & _ & _ & _ & _ & Hint & _).
    split; [apply Hd; by left|]. split.
    + apply Hv. intros v. vm_compute. discriminate.
    + destruct (Hint eq_refl) as (hash & Hh & Hm).
      vm_compute in Hh. injection Hh as <-. exact Hm.
Defined.

Lemma oversizeBytes_length : Z.of_nat (length oversizeBytes) = 10485761.
Proof.
  unfold oversizeBytes, MAX_PAYLOAD_SIZE. rewrite repeat_length, Z2Nat.id; lia.
Qed.

Lemma payload_too_large_witness :
  StructPDFInjector.injectDocument oversizeHost RefHost.emptyDocument adaPayload
    (exampleOptions false false false)
  = Throw (new_Error "Payload too large: 10485761 bytes (max: 10485760)").
Proof.
  erewrite (payload_too_large oversizeHost RefHost.emptyDocument adaPayload
              (exampleOptions false false false)).
  - by rewrite oversizeBytes_length.
  - by right.
  - reflexivity.
  - reflexivity.
  - rewrite oversizeBytes_length. reflexivity.
Defined.

Lemma extraction_returns_any_value_witness :
  StructPDFExtractor.extractDocument RefHost.host (documentStoring (JString "hello"))
    verifyingOptions
  = Ok (succeeded (JString "hello")).
Proof.
  eapply (extraction_returns_any_value RefHost.host).
  - vm_compute. reflexivity.
  - vm_compute. reflexivity.
  - right. split; [discriminate|reflexivity].
Defined.

(** ** The overwrite guard at the entry point *)

Section EntryGuard.

Context (host : Host).

(** X26. [inject] without [overwrite] on a file whose document already
    holds a payload throws an [InjectionError] with the guard's message
    behind [Injection failed: ]: the inputs and both paths are valid and
    the file loads. *)
Theorem inject_guard fs pdfPath data outputPath options validatedIn validatedOut fs1
    pdfBytes pdfDoc :
  StructPDFInjector.validateInputs host data options = Ok tt ->
  PathValidator.validatePath host pdfPath = Ok validatedIn ->
  PathValidator.validatePath host outputPath = Ok validatedOut ->
  PathValidator.validateFileExists fs validatedIn = Ok tt ->
  PathValidator.validateOutputPath host fs validatedOut = Ok fs1 ->
  Fs.readFile fs1 validatedIn = Ok pdfBytes ->
  PDFDocument_load host pdfBytes = Ok pdfDoc ->
  PDFHandler.hasStructPDFData pdfDoc = true ->
  overwrite options = false ->
  StructPDFInjector.inject host fs pdfPath data outputPath options
  = Throw (mkError InjectionError
             "Injection failed: PDF already contains StructPDF data. Use overwrite option to replace.").
Proof.
  intros Hi Hv1 Hv2 He Ho Hr Hl Hhas Hover.
  apply (inject_wraps host fs pdfPath data outputPath options validatedIn validatedOut
           fs1 pdfBytes pdfDoc _ Hi Hv1 Hv2 He Ho Hr Hl).
  unfold StructPDFInjector.injectDocument. by rewrite Hover, Hhas.
Qed.

End EntryGuard.

Lemma inject_guard_witness :
  StructPDFInjector.inject ArchiveHost.host fsWithPayload "/tmp/in.pdf" adaPayload
    "/tmp/out.pdf" (exampleOptions false false false)
  = Throw (mkError InjectionError
             "Injection failed: PDF already contains StructPDF data. Use overwrite option to replace.").
Proof.
  eapply (inject_guard ArchiveHost.host fsWithPayload "/tmp/in.pdf" adaPayload
            "/tmp/out.pdf" (exampleOptions false false false)).
  - reflexivity.
  - reflexivity.
  - reflexivity.
  - vm_compute. reflexivity.
  - vm_compute. reflexivity.
  - vm_compute. reflexivity.
  - vm_compute. reflexivity.
  - vm_compute. reflexivity.
  - reflexivity.
Defined.
